(** * MINDYARD layer 1: intent routing, response nodes and user profiling

    A shallow embedding of

      - [app/services/layer1/intent_router.py]   (module [IntentRouter]),
      - [app/services/layer1/nodes/*.py]         (module [Nodes]),
      - [app/services/layer1/user_profiler.py]   (module [UserProfiler]),

    together with the small part of the Python runtime these files lean on
    (module [Py]): binary64 floats, exceptions, [str] operations, insertion
    ordered dictionaries and [collections.Counter]. *)

From Stdlib Require Import ZArith QArith String Ascii List Bool Lia DecimalString.
From Stdlib Require Import Floats.SpecFloat.
From stdpp Require Import base option list gmap strings.

Open Scope string_scope.

(* ===================================================================== *)
(** * The Python runtime fragment                                         *)
(* ===================================================================== *)

Module Py.

(** ** Floats

    A Python [float] is an IEEE 754 binary64 number.  The operations are the
    round-to-nearest-even ones of [SpecFloat] at precision 53. *)

Definition float := spec_float.

Definition prec : Z := 53.
Definition emax : Z := 1024.

Definition fadd : float -> float -> float := SFadd prec emax.
Definition fsub : float -> float -> float := SFsub prec emax.
Definition fmul : float -> float -> float := SFmul prec emax.
Definition fdiv : float -> float -> float := SFdiv prec emax.
Definition flt (x y : float) : bool := SFltb x y.
Definition fgt (x y : float) : bool := SFltb y x.
Definition feq (x y : float) : bool := SFeqb x y.
Definition fle (x y : float) : bool := SFleb x y.

(** The float nearest to an integer; [float(n)] and the implicit conversion
    of an [int] operand.  An infinite result is CPython's [OverflowError]
    and is tested for where the source can meet it. *)
Definition of_int (z : Z) : float := binary_normalize prec emax z 0 false.

(** [a / b] on two [int]s: the correctly rounded quotient.  The divisor is
    never zero at the call sites below. *)
Definition int_truediv (a b : Z) : float :=
  match a, b with
  | Z0, _ => S754_zero false
  | _, Z0 => S754_nan
  | Zpos p, Zpos q => fdiv (S754_finite false p 0) (S754_finite false q 0)
  | Zneg p, Zneg q => fdiv (S754_finite false p 0) (S754_finite false q 0)
  | Zpos p, Zneg q => fdiv (S754_finite false p 0) (S754_finite true q 0)
  | Zneg p, Zpos q => fdiv (S754_finite true p 0) (S754_finite false q 0)
  end.

(** A decimal literal [n / 10^k] of the source text, read as the nearest
    float: [0.3] is [lit 3 10], [0.15] is [lit 15 100]. *)
Definition lit (n d : Z) : float := int_truediv n d.

(** [min(a, b)] and [max(a, b)]: the first argument is kept unless the
    second one compares strictly smaller (larger). *)
Definition fmin (a b : float) : float := if flt b a then b else a.
Definition fmax (a b : float) : float := if fgt b a then b else a.

(** [sum(xs)] over floats: the start value is the [int] 0. *)
Definition fsum (xs : list float) : float := fold_left fadd xs (of_int 0).

(** [round(x, 1)]: the exact value of [x] is rounded to one decimal, ties
    to even, and the decimal is read back as a float. *)
Definition round_half_even (n d : Z) : Z :=
  let q := (n / d)%Z in
  let r := (n mod d)%Z in
  match (2 * r ?= d)%Z with
  | Lt => q
  | Gt => (q + 1)%Z
  | Eq => if Z.even q then q else (q + 1)%Z
  end.

Definition round1 (x : float) : float :=
  match x with
  | S754_finite s m e =>
      if (0 <=? e)%Z then x
      else
        let tenths := round_half_even (10 * Zpos m) (2 ^ (- e)) in
        let r := int_truediv tenths 10 in
        if s then SFopp r else r
  | _ => x
  end.

(** ** Exceptions

    [exn] stands for instances of [Exception], the class every handler of
    the source names; [Raise] is an exception leaving a call. *)

Inductive exn : Type :=
  | KeyError (key : string)
  | AttributeError
  | TypeError
  | ValueError
  | OverflowError
  | IndexError
  | RuntimeError (msg : string).

Inductive outcome (A : Type) : Type :=
  | Ok (a : A)
  | Raise (e : exn).
Arguments Ok {A} a.
Arguments Raise {A} e.

Definition bind {A B} (m : outcome A) (k : A -> outcome B) : outcome B :=
  match m with
  | Ok a => k a
  | Raise e => Raise e
  end.

(** [try: body  except Exception: handler] *)
Definition try_except {A} (body : outcome A) (handler : exn -> outcome A)
  : outcome A :=
  match body with
  | Ok a => Ok a
  | Raise e => handler e
  end.

#[global] Instance outcome_ret : MRet outcome := fun A a => Ok a.
#[global] Instance outcome_bind : MBind outcome := fun A B k m => bind m k.

(** ** Strings

    A [str] is kept as its UTF-8 bytes.  UTF-8 is self-synchronising, so a
    keyword occurs in a text as a run of code points exactly when its
    encoding occurs as a run of bytes. *)

(** [kw in s] *)
Fixpoint contains (kw s : string) : bool :=
  String.prefix kw s ||
  match s with
  | EmptyString => false
  | String _ s' => contains kw s'
  end.

Definition kelvin_sign : string :=
  String (ascii_of_nat 226) (String (ascii_of_nat 132)
    (String (ascii_of_nat 170) EmptyString)).

Definition lower_ascii (c : ascii) : ascii :=
  let n := nat_of_ascii c in
  if (65 <=? n)%nat && (n <=? 90)%nat then ascii_of_nat (n + 32) else c.

(** [s.lower()].  ASCII capitals go to their small letters and U+212A
    (KELVIN SIGN) to [k]; no other code point has an all-ASCII image.
    The other code points are left as they are. *)
Fixpoint lower (s : string) : string :=
  match s with
  | EmptyString => EmptyString
  | String c s' =>
      match s' with
      | String c2 (String c3 rest) =>
          if String.eqb (String c (String c2 (String c3 EmptyString))) kelvin_sign
          then String "k" (lower rest)
          else String (lower_ascii c) (lower s')
      | _ => String (lower_ascii c) (lower s')
      end
  end.

(** Line feed and the ASCII double quote, for the literals that hold them. *)
Definition nl : string := String (ascii_of_nat 10) EmptyString.
Definition dq : string := String (ascii_of_nat 34) EmptyString.

(** [str(n)] for a natural number. *)
Definition str_of_nat (n : nat) : string :=
  NilEmpty.string_of_uint (Nat.to_uint n).

(** [s[:n]] on code points is not needed for any result below: it only
    feeds log previews. *)

(** ** Dictionaries

    A [dict] keeps its keys in insertion order, and both [max] over a
    dictionary and [Counter.most_common] break ties by that order, so a
    dictionary is an association list with distinct keys. *)

Section Dict.
Context {K V : Type} `{EqDecision K}.

(** [d.get(k)] *)
Fixpoint dict_get (k : K) (d : list (K * V)) : option V :=
  match d with
  | [] => None
  | (k', v) :: d' => if decide (k' = k) then Some v else dict_get k d'
  end.

(** [d[k] = v]: an existing key keeps its place, a new one goes last. *)
Fixpoint dict_set (k : K) (v : V) (d : list (K * V)) : list (K * V) :=
  match d with
  | [] => [(k, v)]
  | (k', v') :: d' =>
      if decide (k' = k) then (k', v) :: d' else (k', v') :: dict_set k v d'
  end.

Definition dict_keys (d : list (K * V)) : list K := map fst d.
Definition dict_values (d : list (K * V)) : list V := map snd d.
End Dict.

(** [d[k]] on a dictionary keyed by strings. *)
Definition dict_getitem {V} (k : string) (d : list (string * V)) : outcome V :=
  match dict_get k d with
  | Some v => Ok v
  | None => Raise (KeyError k)
  end.

(** ** collections.Counter *)

Section Counter.
Context {K : Type} `{EqDecision K}.

Definition Counter := list (K * nat).

(** [c[k]]: a missing key counts 0 *)
Definition counter_get (k : K) (c : Counter) : nat :=
  default 0 (dict_get k c).

(** [c[k] += 1] *)
Definition counter_incr (k : K) (c : Counter) : Counter :=
  dict_set k (S (counter_get k c)) c.

(** [sum(c.values())] *)
Definition counter_total (c : Counter) : nat :=
  fold_left Nat.add (dict_values c) 0.

(** Stable sort by decreasing count: among equal counts the key inserted
    first stays first. *)
Fixpoint insert_desc (x : K * nat) (l : list (K * nat)) : list (K * nat) :=
  match l with
  | [] => [x]
  | y :: l' =>
      if (x.2 <? y.2)%nat then y :: insert_desc x l' else x :: l
  end.

Definition sort_desc (c : Counter) : list (K * nat) :=
  foldr insert_desc [] c.

(** [c.most_common(n)] *)
Definition most_common (n : nat) (c : Counter) : list (K * nat) :=
  take n (sort_desc c).
End Counter.
Arguments Counter K : clear implicits.

(** ** Values of dynamic type

    What a JSON document decodes to, and what a [Dict[str, Any]] holds. *)
#[warnings="-register-all"]
Inductive PyVal : Type :=
  | PyNone
  | PyBool (b : bool)
  | PyInt (z : Z)
  | PyFloat (f : float)
  | PyStr (s : string)
  | PyList (l : list PyVal)
  | PyDict (d : list (string * PyVal)).

End Py.

Import Py.

(* ===================================================================== *)
(** * Collaborators: the intent enumerations and the LLM provider         *)
(* ===================================================================== *)

Module Schemas.

(** Modelled from the spec: [app/schemas/conversation.py] is not part of the
    sources at hand.  Section 3 of the specification gives the closed
    enumeration and its order: chat, empathy, knowledge, deep_dive,
    brainstorm, state. *)
Inductive ConversationIntent : Type :=
  | CHAT | EMPATHY | KNOWLEDGE | DEEP_DIVE | BRAINSTORM | STATE.

#[global] Instance ConversationIntent_eq_dec : EqDecision ConversationIntent.
Proof. solve_decision. Defined.

(** [for intent in ConversationIntent]: the members in definition order. *)
Definition ConversationIntent_members : list ConversationIntent :=
  [CHAT; EMPATHY; KNOWLEDGE; DEEP_DIVE; BRAINSTORM; STATE].

(** [intent.value] *)
Definition ConversationIntent_value (i : ConversationIntent) : string :=
  match i with
  | CHAT => "chat"
  | EMPATHY => "empathy"
  | KNOWLEDGE => "knowledge"
  | DEEP_DIVE => "deep_dive"
  | BRAINSTORM => "brainstorm"
  | STATE => "state"
  end.

End Schemas.

Module LLM.

(** [LLMUsageRole] *)
Inductive LLMUsageRole : Type := FAST | BALANCED | DEEP.

Record Message : Type := { role : string; content : string }.

(** What [generate_text] answers; the nodes read [.content] only. *)
Record LLMResponse : Type := { response_content : string }.

(** An [LLMProvider], seen from its callers: each operation either
    returns or raises.  The provider is a collaborator of arbitrary
    behaviour, so its operations are the fields of the record. *)
Record LLMProvider : Type := {
  initialize : outcome unit;
  generate_text : list Message -> float -> outcome LLMResponse;
  generate_json : list Message -> float -> outcome PyVal;
}.

(** [llm_manager]: [get_client(role)] hands out a provider or raises. *)
Record LLMManager : Type := {
  get_client : LLMUsageRole -> outcome LLMProvider;
}.

End LLM.

(* ===================================================================== *)
(** * intent_router.py                                                    *)
(* ===================================================================== *)

Module IntentRouter.
Import Schemas LLM.

(** [_KEYWORD_MAP], in the order the source writes it *)
Definition _KEYWORD_MAP : list (ConversationIntent * list string) :=
  [ (EMPATHY,
      [ "つらい"; "しんどい"; "疲れた"; "嫌だ"; "ひどい"; "悲しい";
        "不安"; "怖い"; "寂しい"; "イライラ"; "ムカつく"; "最悪";
        "聞いて"; "吐き出し"; "愚痴"; "ため息" ]);
    (KNOWLEDGE,
      [ "教えて"; "知りたい"; "とは"; "って何"; "ですか";
        "違いは"; "方法は"; "やり方"; "調べ"; "検索";
        "参考"; "文献"; "論文"; "データ" ]);
    (DEEP_DIVE,
      [ "どうすれば"; "解決"; "改善"; "対策"; "問題";
        "原因"; "なぜ"; "課題"; "困って"; "うまくいかない";
        "分析"; "検討"; "整理したい"; "深掘り" ]);
    (BRAINSTORM,
      [ "アイデア"; "案"; "ひらめき"; "思いつき"; "仮説";
        "壁打ち"; "ブレスト"; "発想"; "もし"; "可能性";
        "新しい"; "試したい"; "どうだろう"; "妄想" ]) ].

(** The router object: its one attribute is the cached provider. *)
Record IntentRouter : Type := { _provider : option LLMProvider }.

(** [IntentRouter()] *)
Definition new : IntentRouter := {| _provider := None |}.

(** [{"intent": ..., "confidence": ...}] *)
Record ClassificationResult : Type := {
  intent : ConversationIntent;
  confidence : float;
}.

(** [_get_provider]: lazy, and a failing [get_client] leaves [None]. *)
Definition _get_provider (mgr : LLMManager) (self : IntentRouter)
  : option LLMProvider * IntentRouter :=
  match _provider self with
  | Some p => (Some p, self)
  | None =>
      match get_client mgr FAST with
      | Ok p => (Some p, {| _provider := Some p |})
      | Raise _ => (None, self)
      end
  end.

Definition _get_system_prompt : string :=
  "あなたはユーザー入力の意図分類器です。" ++ nl ++
  "入力テキストを以下の5カテゴリのいずれかに分類してください。" ++ nl ++
  nl ++
  "カテゴリ:" ++ nl ++
  "- " ++ dq ++ "chat" ++ dq ++ ": 雑談、挨拶、日常会話、特に目的のない会話" ++ nl ++
  "- " ++ dq ++ "empathy" ++ dq ++ ": 感情的な表現、愚痴、不満、悩み、共感を求めている" ++ nl ++
  "- " ++ dq ++ "knowledge" ++ dq ++ ": 知識や情報を求めている質問、「〜とは？」「〜の方法は？」" ++ nl ++
  "- " ++ dq ++ "deep_dive" ++ dq ++ ": 具体的な課題や問題の解決を求めている、分析・整理したい" ++ nl ++
  "- " ++ dq ++ "brainstorm" ++ dq ++ ": アイデア出し、仮説検証、壁打ち、創造的な発想を求めている" ++ nl ++
  nl ++
  "必ず以下のJSON形式で応答してください:" ++ nl ++
  "{" ++ nl ++
  "    " ++ dq ++ "intent" ++ dq ++ ": " ++ dq ++ "chat" ++ dq ++ " | " ++ dq ++ "empathy"
    ++ dq ++ " | " ++ dq ++ "knowledge" ++ dq ++ " | " ++ dq ++ "deep_dive" ++ dq ++ " | "
    ++ dq ++ "brainstorm" ++ dq ++ "," ++ nl ++
  "    " ++ dq ++ "confidence" ++ dq ++ ": 0.0〜1.0" ++ nl ++
  "}".

(** [intent_map] of [_parse_result] *)
Definition intent_map : list (string * ConversationIntent) :=
  [ ("chat", CHAT); ("empathy", EMPATHY); ("knowledge", KNOWLEDGE);
    ("deep_dive", DEEP_DIVE); ("brainstorm", BRAINSTORM) ].

(** [isinstance(v, (int, float))]; [bool] is a subclass of [int]. *)
Definition is_int_or_float (v : PyVal) : bool :=
  match v with
  | PyBool _ | PyInt _ | PyFloat _ => true
  | _ => false
  end.

(** [float(v)] for a value that passed [is_int_or_float] *)
Definition to_float (v : PyVal) : outcome float :=
  match v with
  | PyBool b => Ok (of_int (if b then 1 else 0))
  | PyInt z =>
      match of_int z with
      | S754_infinity _ => Raise OverflowError
      | f => Ok f
      end
  | PyFloat f => Ok f
  | _ => Raise TypeError
  end.

(** [_parse_result].  [result.get] exists on a [dict] only, and [.lower()]
    on a [str] only: on anything else the attribute lookup raises. *)
Definition _parse_result (result : PyVal) : outcome ClassificationResult :=
  match result with
  | PyDict d =>
      intent_str ←
        match default (PyStr "chat") (dict_get "intent" d) with
        | PyStr s => Ok (lower s)
        | _ => Raise AttributeError
        end;
      let intent := default CHAT (dict_get intent_str intent_map) in
      let confidence := default (PyFloat (lit 5 10)) (dict_get "confidence" d) in
      let confidence :=
        if is_int_or_float confidence then confidence else PyFloat (lit 5 10) in
      c ← to_float confidence;
      let confidence := fmax (of_int 0) (fmin (of_int 1) c) in
      Ok {| intent := intent; confidence := confidence |}
  | _ => Raise AttributeError
  end.

(** [scores[intent] += 1.0] *)
Definition scores_incr (intent : ConversationIntent)
    (scores : list (ConversationIntent * float))
  : outcome (list (ConversationIntent * float)) :=
  match dict_get intent scores with
  | Some v => Ok (dict_set intent (fadd v (of_int 1)) scores)
  | None => Raise (KeyError (ConversationIntent_value intent))
  end.

(** The inner loop: [for kw in keywords: if kw in input_text: ...] *)
Fixpoint score_keywords (input_text : string) (intent : ConversationIntent)
    (keywords : list string) (scores : list (ConversationIntent * float))
  : outcome (list (ConversationIntent * float)) :=
  match keywords with
  | [] => Ok scores
  | kw :: keywords' =>
      scores' ← (if contains kw input_text
                 then scores_incr intent scores else Ok scores);
      score_keywords input_text intent keywords' scores'
  end.

(** The outer loop: [for intent, keywords in _KEYWORD_MAP.items()] *)
Fixpoint score_all (input_text : string)
    (km : list (ConversationIntent * list string))
    (scores : list (ConversationIntent * float))
  : outcome (list (ConversationIntent * float)) :=
  match km with
  | [] => Ok scores
  | (intent, keywords) :: km' =>
      scores' ← score_keywords input_text intent keywords scores;
      score_all input_text km' scores'
  end.

(** [max(scores, key=scores.get)]: the first key whose score no later key
    exceeds; [max] of nothing raises. *)
Fixpoint max_from (best : ConversationIntent * float)
    (rest : list (ConversationIntent * float)) : ConversationIntent :=
  match rest with
  | [] => best.1
  | x :: rest' =>
      if fgt x.2 best.2 then max_from x rest' else max_from best rest'
  end.

Definition max_key (scores : list (ConversationIntent * float))
  : outcome ConversationIntent :=
  match scores with
  | [] => Raise ValueError
  | x :: rest => Ok (max_from x rest)
  end.

(** The second half of [_fallback_classify], from [max] on *)
Definition select_intent (scores : list (ConversationIntent * float))
  : outcome ClassificationResult :=
  max_intent ← max_key scores;
  max_score ←
    match dict_get max_intent scores with
    | Some v => Ok v
    | None => Raise (KeyError (ConversationIntent_value max_intent))
    end;
  if feq max_score (of_int 0)
  then Ok {| intent := CHAT; confidence := lit 3 10 |}
  else
    let total := fsum (dict_values scores) in
    let confidence :=
      if fgt total (of_int 0) then fdiv max_score total else lit 3 10 in
    Ok {| intent := max_intent; confidence := fmin confidence (lit 7 10) |}.

(** [_fallback_classify] *)
Definition _fallback_classify (input_text : string)
  : outcome ClassificationResult :=
  let scores := map (fun i => (i, of_int 0)) ConversationIntent_members in
  scores ← score_all input_text _KEYWORD_MAP scores;
  select_intent scores.

(** [classify] *)
Definition classify (mgr : LLMManager) (self : IntentRouter)
    (input_text : string) : outcome ClassificationResult * IntentRouter :=
  let '(provider, self) := _get_provider mgr self in
  match provider with
  | None => (_fallback_classify input_text, self)
  | Some provider =>
      (try_except
         (_ ← initialize provider;
          result ← generate_json provider
                     [ {| role := "system"; content := _get_system_prompt |};
                       {| role := "user"; content := input_text |} ]
                     (lit 1 10);
          _parse_result result)
         (fun e => _fallback_classify input_text),
       self)
  end.

End IntentRouter.

(* ===================================================================== *)
(** * nodes/: one response strategy per file                              *)
(* ===================================================================== *)

Module Nodes.
Import LLM.

(** What a node hands back: [{"response": ...}].  The graph state is a
    [Dict[str, Any]] whose entries read here hold strings. *)
Record NodeResult : Type := { response : string }.

Module ChatNode.

Definition _SYSTEM_PROMPT : string :=
  "あなたはMINDYARDのチャットアシスタントです。
ユーザーとの雑談・カジュアルな会話を担当しています。

トーン:
- 親しみやすく自然な会話スタイル
- 簡潔に、でも温かみのある応答
- 相手の話題に関心を示す

注意:
- アドバイスや教訓は不要。気軽な会話として応答する
- 日本語で応答する
".

Definition _get_provider (mgr : LLMManager) : option LLMProvider :=
  match get_client mgr FAST with
  | Ok p => Some p
  | Raise _ => None
  end.

(** [run_chat_node] *)
Definition run_chat_node (mgr : LLMManager) (state : list (string * string))
  : outcome NodeResult :=
  input_text ← dict_getitem "input_text" state;
  match _get_provider mgr with
  | None => Ok {| response := "なるほど！いいですね。" |}
  | Some provider =>
      try_except
        (_ ← initialize provider;
         result ← generate_text provider
                    [ {| role := "system"; content := _SYSTEM_PROMPT |};
                      {| role := "user"; content := input_text |} ]
                    (lit 7 10);
         Ok {| response := response_content result |})
        (fun e => Ok {| response := "なるほど！いいですね。" |})
  end.

End ChatNode.

Module EmpathyNode.

Definition _SYSTEM_PROMPT : string :=
  "あなたはMINDYARDの傾聴アシスタントです。
ユーザーの感情に寄り添い、共感を示すことが役割です。

重要なルール:
- 絶対にアドバイスや解決策を提示しない
- ユーザーの感情を受け止め、共感を言葉にする
- 「〜すべき」「〜したらどうですか」は禁止
- 感情のラベリングを行う（「それは悔しいですよね」「不安になりますよね」）
- 話を聞いている姿勢を明確に示す
- 日本語で応答する

応答パターン例:
- 「それは本当に大変でしたね。」
- 「そう感じるのは当然だと思います。」
- 「話してくれてありがとうございます。」
".

Definition _get_provider (mgr : LLMManager) : option LLMProvider :=
  match get_client mgr FAST with
  | Ok p => Some p
  | Raise _ => None
  end.

(** [run_empathy_node] *)
Definition run_empathy_node (mgr : LLMManager) (state : list (string * string))
  : outcome NodeResult :=
  input_text ← dict_getitem "input_text" state;
  match _get_provider mgr with
  | None => Ok {| response := "お気持ち、受け止めました。話してくれてありがとうございます。" |}
  | Some provider =>
      try_except
        (_ ← initialize provider;
         result ← generate_text provider
                    [ {| role := "system"; content := _SYSTEM_PROMPT |};
                      {| role := "user"; content := input_text |} ]
                    (lit 5 10);
         Ok {| response := response_content result |})
        (fun e => Ok {| response := "お気持ち、受け止めました。話してくれてありがとうございます。" |})
  end.

End EmpathyNode.

Module DeepDiveNode.

Definition _SYSTEM_PROMPT : string :=
  "あなたはMINDYARDの課題解決アシスタントです。
ユーザーの課題や問題を深掘りし、構造的に整理・分析することが役割です。

手順:
1. 問題の構造化: 何が本質的な課題なのかを見極める
2. 要因分析: 考えられる原因や要因を洗い出す
3. 選択肢の提示: 複数の解決アプローチを提示する
4. 次のアクション: 具体的な次の一歩を提案する

トーン:
- 論理的で整理された応答
- 箇条書きを活用して視認性を高める
- 「答え」を押し付けるのではなく、思考を促す質問も交える
- 日本語で応答する
".

Definition _get_provider (mgr : LLMManager) : option LLMProvider :=
  match get_client mgr BALANCED with
  | Ok p => Some p
  | Raise _ => None
  end.

(** [run_deep_dive_node] *)
Definition run_deep_dive_node (mgr : LLMManager) (state : list (string * string))
  : outcome NodeResult :=
  input_text ← dict_getitem "input_text" state;
  match _get_provider mgr with
  | None => Ok {| response := "課題を整理してみましょう。もう少し詳しく教えていただけますか？" |}
  | Some provider =>
      try_except
        (_ ← initialize provider;
         result ← generate_text provider
                    [ {| role := "system"; content := _SYSTEM_PROMPT |};
                      {| role := "user"; content := input_text |} ]
                    (lit 4 10);
         Ok {| response := response_content result |})
        (fun e => Ok {| response := "課題を整理してみましょう。もう少し詳しく教えていただけますか？" |})
  end.

End DeepDiveNode.

Module DeepResearchNode.

Definition _SYSTEM_PROMPT : string :=
  "あなたはMINDYARDの Deep Research アシスタントです。
ユーザーのクエリに対して、徹底的かつ包括的な調査レポートを作成してください。

### 調査方針:
1. **多角的な視点**: 複数の観点からトピックを分析する
2. **構造化された回答**: 見出し・箇条書きを使って情報を整理する
3. **エビデンスベース**: 主張には根拠や出典の方向性を示す
4. **実用性重視**: ユーザーが次のアクションを取れるような具体的な情報を提供する

### 出力フォーマット:
- 概要（1-2文のサマリー）
- 主要な発見・知見（箇条書き）
- 詳細分析（各ポイントの掘り下げ）
- 次のステップの提案

### 注意事項:
- 日本語で応答する
- 確証のない情報は「〜の可能性があります」等と明記する
- 専門用語には簡潔な説明を付ける
".

Definition _get_research_provider (mgr : LLMManager) : option LLMProvider :=
  match get_client mgr DEEP with
  | Ok p => Some p
  | Raise _ => None
  end.

(** [run_deep_research_node].  The two [logger.info] previews leave no
    trace in the result and are left out. *)
Definition run_deep_research_node (mgr : LLMManager)
    (state : list (string * string)) : outcome NodeResult :=
  input_text ← dict_getitem "input_text" state;
  let previous_response := default "" (dict_get "previous_response" state) in
  match _get_research_provider mgr with
  | None =>
      Ok {| response :=
              "申し訳ありません。Deep Research サービスが現在利用できません。" ++ nl ++
              "通常の回答をご参照ください。" |}
  | Some provider =>
      try_except
        (_ ← initialize provider;
         let research_query :=
           if String.eqb previous_response "" then input_text
           else "元の質問: " ++ input_text ++ nl ++ nl ++
                "初回の回答（これを深掘りしてください）:" ++ nl ++
                previous_response in
         result ← generate_text provider
                    [ {| role := "system"; content := _SYSTEM_PROMPT |};
                      {| role := "user"; content := research_query |} ]
                    (lit 3 10);
         let research_response := response_content result in
         Ok {| response :=
                 "🔬 **Deep Research 結果**" ++ nl ++ nl ++ research_response |})
        (fun e =>
           Ok {| response :=
                   "Deep Research の実行中にエラーが発生しました。" ++ nl ++
                   "通常の回答をご参照ください。再度お試しいただくこともできます。" |})
  end.

End DeepResearchNode.

End Nodes.

(* ===================================================================== *)
(** * user_profiler.py                                                    *)
(* ===================================================================== *)

Module UserProfiler.

(** ** Rows and session

    A [datetime] is the number of microseconds since the epoch, UTC. *)

Definition datetime := Z.
Definition timedelta_days (d : Z) : Z := (d * 86400000000)%Z.
(** [dt.date()], as a day number, and [dt.hour] *)
Definition date_of (t : datetime) : Z := (t / 86400000000)%Z.
Definition hour_of (t : datetime) : Z := ((t / 3600000000) mod 24)%Z.

(** Modelled from the spec: [app/models/raw_log.py] is not part of the
    sources at hand.  A [LogIntent] member is seen through its [.value];
    a [RawLog] carries the attributes section 3 lists for a log entry, the
    nullable ones as options. *)
Record LogIntent : Type := { value : string }.

Record RawLog : Type := {
  user_id : N;
  content : option string;
  created_at : datetime;
  emotions : option (list string);
  topics : option (list string);
  intent : option LogIntent;
  is_analyzed : bool;
}.

Record Signal : Type := {
  type : string;
  severity : string;
  description : string;
}.

Record EmotionTrends : Type := {
  top_emotions : list (string * nat);
  total_entries : nat;
  recent_trend : string;
}.

Record TopicInfo : Type := {
  dominant_emotion : string;
  count : nat;
  distribution : Counter string;
}.

Record PostingPattern : Type := {
  avg_per_day : float;
  peak_hours : list Z;
  frequency_change : string;
  total_logs : nat;
}.

(** The profile document.  An empty dictionary [{}] in the place of an
    aggregate is [None]; [updated_at] is the instant whose ISO text the
    source stores. *)
Record Profile : Type := {
  updated_at : datetime;
  log_count : nat;
  period_days : Z;
  emotion_trends : option EmotionTrends;
  topic_emotion_map : list (string * TopicInfo);
  posting_pattern : option PostingPattern;
  signals : list Signal;
}.

(** A [users] row, cut down to three of the columns of [models/user.py];
    the key of the [users] map stands for [id].  The other columns are not
    modelled: [hashed_password], [avatar_url], [is_active], [is_verified],
    [created_at], and [updated_at], which a commit that changes the row
    sets anew ([onupdate]).  What is stated about a saved row speaks of
    [profile_data] only. *)
Record User : Type := {
  email : string;
  display_name : option string;
  profile_data : option Profile;
}.

(** The database as the session sees it. *)
Record Session : Type := {
  raw_logs : list RawLog;
  users : gmap N User;
}.

Definition _RECENT_DAYS : Z := 14.
Definition _TREND_DAYS : Z := 7.

(** ** Internal aggregation methods *)

(** [_detect_emotion_trend] *)
Definition _detect_emotion_trend (recent older : Counter string) : string :=
  let negative := ["frustrated"; "angry"; "anxious"; "confused"] in
  let fatigue := ["frustrated"; "anxious"] in
  let or1 (n : nat) := if (n =? 0)%nat then 1%nat else n in
  let sum_in (c : Counter string) (set : list string) : nat :=
    fold_left Nat.add (map (fun e => counter_get e c) set) 0%nat in
  let recent_total := or1 (counter_total recent) in
  let older_total := or1 (counter_total older) in
  let recent_neg_ratio :=
    int_truediv (Z.of_nat (sum_in recent negative)) (Z.of_nat recent_total) in
  let older_neg_ratio :=
    int_truediv (Z.of_nat (sum_in older negative)) (Z.of_nat older_total) in
  let recent_fatigue :=
    int_truediv (Z.of_nat (sum_in recent fatigue)) (Z.of_nat recent_total) in
  let older_fatigue :=
    int_truediv (Z.of_nat (sum_in older fatigue)) (Z.of_nat older_total) in
  if fgt recent_fatigue (fadd older_fatigue (lit 2 10)) then "fatigue_increasing"
  else if fgt recent_neg_ratio (fadd older_neg_ratio (lit 15 100)) then "more_negative"
  else if flt recent_neg_ratio (fsub older_neg_ratio (lit 15 100)) then "more_positive"
  else "stable".

(** The three counters [_aggregate_emotions] fills in its loop *)
Definition count_emotions (trend_cutoff : datetime) (logs : list RawLog)
  : Counter string * Counter string * Counter string :=
  fold_left
    (fun acc log =>
       fold_left
         (fun '(counter, recent_counter, older_counter) emotion =>
            let counter := counter_incr emotion counter in
            if (trend_cutoff <=? created_at log)%Z
            then (counter, counter_incr emotion recent_counter, older_counter)
            else (counter, recent_counter, counter_incr emotion older_counter))
         (default [] (emotions log)) acc)
    logs ([], [], []).

(** [_aggregate_emotions]; [now] is what [datetime.now] answers inside. *)
Definition _aggregate_emotions (now : datetime) (logs : list RawLog)
  : EmotionTrends :=
  let trend_cutoff := (now - timedelta_days _TREND_DAYS)%Z in
  let '(counter, recent_counter, older_counter) :=
    count_emotions trend_cutoff logs in
  {| top_emotions := most_common 5 counter;
     total_entries := counter_total counter;
     recent_trend := _detect_emotion_trend recent_counter older_counter |}.

(** [topic_emotions[topic][emotion] += 1] on the [defaultdict(Counter)] *)
Definition topic_incr (topic emotion : string)
    (topic_emotions : list (string * Counter string))
  : list (string * Counter string) :=
  dict_set topic
    (counter_incr emotion (default [] (dict_get topic topic_emotions)))
    topic_emotions.

(** The first loop of [_aggregate_topic_emotions] *)
Definition collect_topic_emotions (logs : list RawLog)
  : list (string * Counter string) :=
  fold_left
    (fun acc log =>
       fold_left
         (fun acc topic =>
            fold_left (fun acc emotion => topic_incr topic emotion acc)
                      (default [] (emotions log)) acc)
         (default [] (topics log)) acc)
    logs [].

(** The second loop: build [result], skipping under-sampled topics.
    [most_common(1)[0]] raises on an empty counter. *)
Fixpoint summarise_topics (topic_emotions : list (string * Counter string))
    (result : list (string * TopicInfo)) : outcome (list (string * TopicInfo)) :=
  match topic_emotions with
  | [] => Ok result
  | (topic, emotion_counter) :: rest =>
      if (counter_total emotion_counter <? 2)%nat
      then summarise_topics rest result
      else
        match most_common 1 emotion_counter with
        | [] => Raise IndexError
        | dominant :: _ =>
            summarise_topics rest
              (dict_set topic
                 {| dominant_emotion := dominant.1;
                    count := counter_total emotion_counter;
                    distribution := emotion_counter |}
                 result)
        end
  end.

(** [_aggregate_topic_emotions] *)
Definition _aggregate_topic_emotions (logs : list RawLog)
  : outcome (list (string * TopicInfo)) :=
  summarise_topics (collect_topic_emotions logs) [].

(** [_aggregate_posting_pattern] *)
Definition _aggregate_posting_pattern (now : datetime) (logs : list RawLog)
  : option PostingPattern :=
  match logs with
  | [] => None
  | _ =>
      let daily_counts : Counter Z :=
        fold_left (fun c log => counter_incr (date_of (created_at log)) c) logs [] in
      let hour_counts : Counter Z :=
        fold_left (fun c log => counter_incr (hour_of (created_at log)) c) logs [] in
      let total_days := Nat.max (length daily_counts) 1 in
      let avg_per_day :=
        round1 (int_truediv (Z.of_nat (length logs)) (Z.of_nat total_days)) in
      let peak_hours := map fst (most_common 3 hour_counts) in
      let trend_cutoff := (now - timedelta_days _TREND_DAYS)%Z in
      let recent_count :=
        length (filter (fun log => (trend_cutoff <= created_at log)%Z) logs) in
      let older_count := (length logs - recent_count)%nat in
      let recent_avg := int_truediv (Z.of_nat recent_count) _TREND_DAYS in
      let older_days := Z.max (_RECENT_DAYS - _TREND_DAYS) 1 in
      let older_avg := int_truediv (Z.of_nat older_count) older_days in
      let frequency_change :=
        if fgt older_avg (of_int 0) && flt recent_avg (fmul older_avg (lit 5 10))
        then "decreasing"
        else if fgt older_avg (of_int 0) && fgt recent_avg (fmul older_avg (lit 15 10))
        then "increasing"
        else "stable" in
      Some {| avg_per_day := avg_per_day;
              peak_hours := peak_hours;
              frequency_change := frequency_change;
              total_logs := length logs |}
  end.

Definition fatigue_keywords : list string :=
  ["疲れ"; "だるい"; "眠い"; "しんどい"; "つらい"; "きつい"].

(** [any(kw in (log.content or "") for kw in fatigue_keywords)] *)
Definition mentions_fatigue (log : RawLog) : bool :=
  existsb (fun kw => contains kw (default "" (content log))) fatigue_keywords.

(** [log.intent and log.intent.value == "state"] *)
Definition is_state (log : RawLog) : bool :=
  match intent log with
  | Some i => String.eqb (value i) "state"
  | None => false
  end.

(** [sum(1 for x in xs if p(x))] *)
Definition sum_ones {A} (p : A -> bool) (xs : list A) : nat :=
  fold_left (fun n x => if p x then (n + 1)%nat else n) xs 0%nat.

(** [_detect_signals] *)
Definition _detect_signals (logs : list RawLog)
    (emotion_trends : option EmotionTrends)
    (posting_pattern : option PostingPattern) : list Signal :=
  let signals : list Signal := [] in
  (* 1 *)
  let fatigue_count := sum_ones mentions_fatigue logs in
  let signals :=
    if (5 <=? fatigue_count)%nat
    then app signals
         [ {| type := "fatigue_repetition";
              severity := "warning";
              description :=
                "疲労に関する投稿が" ++ str_of_nat fatigue_count ++ "回（"
                ++ str_of_nat (Z.to_nat _RECENT_DAYS)
                ++ "日間）。慢性的な疲労の可能性" |} ]
    else signals in
  (* 2 *)
  let trend := recent_trend <$> emotion_trends in
  let signals :=
    if decide (trend = Some "fatigue_increasing")
    then app signals
         [ {| type := "stress_increasing";
              severity := "warning";
              description := "直近1週間でストレス・焦りの訴えが増加している" |} ]
    else if decide (trend = Some "more_negative")
    then app signals
         [ {| type := "negativity_increasing";
              severity := "info";
              description := "直近1週間でネガティブな感情が増加傾向" |} ]
    else signals in
  (* 3 *)
  let freq_change := frequency_change <$> posting_pattern in
  let signals :=
    if decide (freq_change = Some "decreasing")
    then app signals
         [ {| type := "posting_decrease";
              severity := "info";
              description := "投稿頻度が減少傾向。無気力や回避の兆候の可能性" |} ]
    else signals in
  (* 4 *)
  let state_count := sum_ones is_state (take 20 logs) in
  let signals :=
    if (10 <=? state_count)%nat
    then app signals
         [ {| type := "state_dominant";
              severity := "info";
              description := "状態記録が多い。深い思考よりも日々の状態共有がメイン" |} ]
    else signals in
  signals.

(** [_empty_profile] *)
Definition _empty_profile (now : datetime) : Profile :=
  {| updated_at := now;
     log_count := 0;
     period_days := _RECENT_DAYS;
     emotion_trends := None;
     topic_emotion_map := [];
     posting_pattern := None;
     signals := [] |}.

(** ** The public methods *)

(** [ORDER BY created_at DESC]: rows of equal time stay in table order. *)
Fixpoint insert_newest_first (x : RawLog) (l : list RawLog) : list RawLog :=
  match l with
  | [] => [x]
  | y :: l' =>
      if (created_at x <? created_at y)%Z
      then y :: insert_newest_first x l' else x :: l
  end.

(** The [select] of [build_profile] *)
Definition select_recent_logs (session : Session) (uid : N)
    (cutoff : datetime) : list RawLog :=
  take 200
    (foldr insert_newest_first []
       (filter (fun log => user_id log = uid
                           ∧ (cutoff <= created_at log)%Z
                           ∧ is_analyzed log = true)
               (raw_logs session))).

(** [build_profile].  [clock k] is what the [k]-th call of [datetime.now]
    during the build answers. *)
Definition build_profile (session : Session) (clock : nat -> datetime)
    (uid : N) : outcome Profile :=
  let cutoff := (clock 0%nat - timedelta_days _RECENT_DAYS)%Z in
  let logs := select_recent_logs session uid cutoff in
  match logs with
  | [] => Ok (_empty_profile (clock 1%nat))
  | _ =>
      let emotion_trends := _aggregate_emotions (clock 1%nat) logs in
      topic_emotion_map ← _aggregate_topic_emotions logs;
      let posting_pattern := _aggregate_posting_pattern (clock 2%nat) logs in
      let signals :=
        _detect_signals logs (Some emotion_trends) posting_pattern in
      Ok {| updated_at := clock 3%nat;
            log_count := length logs;
            period_days := _RECENT_DAYS;
            emotion_trends := Some emotion_trends;
            topic_emotion_map := topic_emotion_map;
            posting_pattern := posting_pattern;
            signals := signals |}
  end.

(** [user.profile_data = profile] followed by [session.commit()] *)
Definition save_profile (session : Session) (uid : N) (user : User)
    (profile : Profile) : Session :=
  {| raw_logs := raw_logs session;
     users := <[ uid := {| email := email user;
                           display_name := display_name user;
                           profile_data := Some profile |} ]> (users session) |}.

(** [build_and_save]: the profile and the session it leaves behind *)
Definition build_and_save (session : Session) (clock : nat -> datetime)
    (uid : N) : outcome (Profile * Session) :=
  profile ← build_profile session clock uid;
  match users session !! uid with
  | Some user => Ok (profile, save_profile session uid user profile)
  | None => Ok (profile, session)
  end.

(** ** The summary for the conversation prompt *)

(** [str(n)] for an [int] *)
Definition str_of_int (z : Z) : string := NilEmpty.string_of_int (Z.to_int z).

(** [sep.join(parts)] *)
Fixpoint join (sep : string) (parts : list string) : string :=
  match parts with
  | [] => ""
  | [p] => p
  | p :: rest => p ++ sep ++ join sep rest
  end.

(** [trend_labels] of [generate_context_summary] *)
Definition trend_labels : list (string * string) :=
  [ ("more_negative", "ネガティブな感情が増加傾向");
    ("more_positive", "ポジティブな感情が増加傾向");
    ("fatigue_increasing", "疲労・ストレスの訴えが増加傾向") ].

(** [x in (a, b, c)] on strings *)
Definition one_of (x : string) (l : list string) : bool :=
  existsb (String.eqb x) l.

(** [[t for t, info in topic_map.items()
      if info.get("dominant_emotion") in emotions]] *)
Definition topics_with (emotions : list string)
    (topic_map : list (string * TopicInfo)) : list string :=
  map fst (List.filter (fun '(_, info) => one_of (dominant_emotion info) emotions)
                       topic_map).

(** [generate_context_summary].  The profile is one that [build_profile]
    made, or [None]; a stored document with keys left out is not covered. *)
Definition generate_context_summary (profile : option Profile)
  : option string :=
  match profile with
  | None => None
  | Some profile =>
      if (log_count profile <? 3)%nat then None
      else
        let parts : list string := [] in
        (* emotions *)
        let top_emotions :=
          default [] (top_emotions <$> emotion_trends profile) in
        let parts :=
          match top_emotions with
          | [] => parts
          | _ =>
              let emotion_desc :=
                join "、"
                  (map (fun '(e, c) => e ++ "(" ++ str_of_nat c ++ "回)")
                       (take 3 top_emotions)) in
              app parts
                [ "直近" ++ str_of_int (period_days profile)
                  ++ "日間の感情傾向: " ++ emotion_desc ]
          end in
        (* trend *)
        let trend := recent_trend <$> emotion_trends profile in
        let parts :=
          match trend with
          | Some trend =>
              if negb (String.eqb trend "") && negb (String.eqb trend "stable")
              then
                let label := default trend (dict_get trend trend_labels) in
                app parts [ "変化: " ++ label ]
              else parts
          | None => parts
          end in
        (* topics *)
        let topic_map := topic_emotion_map profile in
        let stress_topics :=
          topics_with ["frustrated"; "anxious"; "angry"] topic_map in
        let parts :=
          match stress_topics with
          | [] => parts
          | _ =>
              app parts
                [ "ストレスと関連が深いトピック: "
                  ++ join ", " (take 3 stress_topics) ]
          end in
        let comfort_topics :=
          topics_with ["achieved"; "excited"; "relieved"] topic_map in
        let parts :=
          match comfort_topics with
          | [] => parts
          | _ =>
              app parts
                [ "ポジティブな感情と結びつくトピック: "
                  ++ join ", " (take 3 comfort_topics) ]
          end in
        (* signals *)
        let parts :=
          fold_left (fun parts sig => app parts [ "⚠ " ++ description sig ])
                    (signals profile) parts in
        match parts with
        | [] => None
        | _ => Some (join nl parts)
        end
  end.

End UserProfiler.

(* ===================================================================== *)
(** * providers/vertex.py: the message conversion                         *)
(* ===================================================================== *)

Module Vertex.

(** [{"text": ...}] and [{"role": ..., "parts": [...]}] *)
Record Part : Type := { text : string }.
Record Content : Type := { role : string; parts : list Part }.

(** [_convert_messages_to_gemini_format].  A message is a
    [Dict[str, str]]; [msg.get] supplies the defaults. *)
Definition _convert_messages_to_gemini_format
    (messages : list (list (string * string)))
  : option string * list Content :=
  fold_left
    (fun '(system_instruction, contents) msg =>
       let role := default "user" (dict_get "role" msg) in
       let content := default "" (dict_get "content" msg) in
       if String.eqb role "system" then (Some content, contents)
       else if String.eqb role "assistant"
       then (system_instruction,
             app contents [ {| role := "model"; parts := [ {| text := content |} ] |} ])
       else (system_instruction,
             app contents [ {| role := "user"; parts := [ {| text := content |} ] |} ]))
    messages (None, []).

End Vertex.

(* ===================================================================== *)
(** * Vocabulary of the statements                                        *)
(* ===================================================================== *)

Module Spec.
Import Schemas LLM.

(** Equality of representations (not [==]: it tells the zeros apart) *)
Definition float_eqb (x y : float) : bool :=
  match x, y with
  | S754_zero s1, S754_zero s2 => Bool.eqb s1 s2
  | S754_infinity s1, S754_infinity s2 => Bool.eqb s1 s2
  | S754_nan, S754_nan => true
  | S754_finite s1 m1 e1, S754_finite s2 m2 e2 =>
      Bool.eqb s1 s2 && Pos.eqb m1 m2 && Z.eqb e1 e2
  | _, _ => false
  end.

(** The float of a count *)
Definition F (n : nat) : float := of_int (Z.of_nat n).

(** [n] times [+= 1.0] *)
Definition bump (n : nat) (v : float) : float :=
  Nat.iter n (fun v => fadd v (of_int 1)) v.

(** A score dictionary over the members of the enumeration *)
Definition tally (c : ConversationIntent -> float)
  : list (ConversationIntent * float) :=
  map (fun i => (i, c i)) ConversationIntent_members.

Definition upd (c : ConversationIntent -> float) (i : ConversationIntent)
    (v : float) : ConversationIntent -> float :=
  fun j => if decide (j = i) then v else c j.

(** How many keywords of a list occur in a text *)
Definition hits (text : string) (kws : list string) : nat :=
  length (List.filter (fun kw => contains kw text) kws).

Definition keywords_of (i : ConversationIntent) : list string :=
  default [] (dict_get i IntentRouter._KEYWORD_MAP).

Definition nhits (text : string) (i : ConversationIntent) : nat :=
  hits text (keywords_of i).

(** The boolean tests the float tables are made of *)
Definition succ_test (n : nat) : bool :=
  float_eqb (fadd (F n) (of_int 1)) (F (S n)).
Definition add_test (a b : nat) : bool :=
  float_eqb (fadd (F a) (F b)) (F (a + b)).
Definition confidence_test (m t : nat) : bool :=
  let c := if fgt (F t) (of_int 0) then fdiv (F m) (F t) else lit 3 10 in
  fle (of_int 0) (fmin c (lit 7 10)) && fle (fmin c (lit 7 10)) (of_int 1).

(** Scores with one category at [n] hits and every other one at none *)
Definition single (cat : ConversationIntent) (n : nat)
  : ConversationIntent -> float :=
  fun i => if decide (i = cat) then F n else F 0.

(** Hits over all categories *)
Definition total_hits (text : string) : nat :=
  list_sum (map (nhits text) ConversationIntent_members).

Definition single_test (cat : ConversationIntent) (n : nat) : bool :=
  (n =? 0)%nat ||
  match IntentRouter.select_intent (tally (single cat n)) with
  | Ok r =>
      bool_decide (IntentRouter.intent r = cat)
      && float_eqb (IntentRouter.confidence r) (lit 7 10)
      && float_eqb (IntentRouter.confidence r)
           (fmin (fdiv (F n) (F n)) (lit 7 10))
  | Raise _ => false
  end.

(** [max(0.0, min(1.0, c))] *)
Definition clamp (c : float) : float := fmax (of_int 0) (fmin (of_int 1) c).

(** The five primary categories *)
Definition primary : list ConversationIntent :=
  [CHAT; EMPATHY; KNOWLEDGE; DEEP_DIVE; BRAINSTORM].

(** The two messages [classify] sends *)
Definition classify_messages (text : string) : list Message :=
  [ {| role := "system"; content := IntentRouter._get_system_prompt |};
    {| role := "user"; content := text |} ].

(** The reading of an LLM answer, in the words of the specification: the
    primary category the lower-cased [intent] names, chat otherwise; the
    [confidence] clamped, 0.5 when there is no number. *)
Definition spoken_intent (d : list (string * PyVal)) : ConversationIntent :=
  match dict_get "intent" d with
  | Some (PyStr s) =>
      default CHAT
        (List.find (fun i => String.eqb (ConversationIntent_value i) (lower s))
                   primary)
  | _ => CHAT
  end.

Definition spoken_confidence (d : list (string * PyVal)) : float :=
  match dict_get "confidence" d with
  | Some (PyFloat f) => clamp f
  | Some (PyInt z) => clamp (of_int z)
  | Some (PyBool b) => if b then of_int 1 else of_int 0
  | _ => lit 5 10
  end.

(** The answers [_parse_result] gets through: [intent] absent or a string,
    and [confidence] not an [int] beyond the floats. *)
Definition parses (d : list (string * PyVal)) : bool :=
  match dict_get "intent" d with
  | None | Some (PyStr _) =>
      match dict_get "confidence" d with
      | Some (PyInt z) =>
          match of_int z with S754_infinity _ => false | _ => true end
      | _ => true
      end
  | _ => false
  end.

(** [0 <= c <= 1] on floats *)
Definition in_unit_interval (c : float) : Prop :=
  fle (of_int 0) c = true /\ fle c (of_int 1) = true.

(** ** Response strategies *)

Inductive Strategy : Type := Chat | Empathy | DeepDive | DeepResearch.

(** The tier each node asks [llm_manager] for *)
Definition tier (s : Strategy) : LLMUsageRole :=
  match s with
  | Chat | Empathy => FAST
  | DeepDive => BALANCED
  | DeepResearch => DEEP
  end.

Definition run (s : Strategy)
  : LLMManager -> list (string * string) -> outcome Nodes.NodeResult :=
  match s with
  | Chat => Nodes.ChatNode.run_chat_node
  | Empathy => Nodes.EmpathyNode.run_empathy_node
  | DeepDive => Nodes.DeepDiveNode.run_deep_dive_node
  | DeepResearch => Nodes.DeepResearchNode.run_deep_research_node
  end.

(** ** What each strategy sends *)

Definition system_prompt (s : Strategy) : string :=
  match s with
  | Chat => Nodes.ChatNode._SYSTEM_PROMPT
  | Empathy => Nodes.EmpathyNode._SYSTEM_PROMPT
  | DeepDive => Nodes.DeepDiveNode._SYSTEM_PROMPT
  | DeepResearch => Nodes.DeepResearchNode._SYSTEM_PROMPT
  end.

(** The temperatures 0.7, 0.5, 0.4 and 0.3 *)
Definition temperature (s : Strategy) : float :=
  match s with
  | Chat => lit 7 10
  | Empathy => lit 5 10
  | DeepDive => lit 4 10
  | DeepResearch => lit 3 10
  end.

(** The user message of a strategy: the input text; DeepResearch adds the
    earlier answer when the state holds a non-empty one. *)
Definition query (s : Strategy) (state : list (string * string))
    (text : string) : string :=
  match s with
  | DeepResearch =>
      match dict_get "previous_response" state with
      | None | Some "" => text
      | Some previous =>
          "元の質問: " ++ text ++ nl ++ nl ++
          "初回の回答（これを深掘りしてください）:" ++ nl ++ previous
      end
  | _ => text
  end.




(** ** Profiling *)

(** The ratio of a bucket, as the exact fraction: the entries of an emotion
    set over the bucket total, a total of 0 counting as 1. *)
Definition bucket_ratio (set : list string) (c : Counter string) : Q :=
  Z.of_nat (list_sum (map (fun e => counter_get e c) set))
  # Pos.of_nat (Nat.max 1 (counter_total c)).

Definition fatigue_ratio : Counter string -> Q :=
  bucket_ratio ["frustrated"; "anxious"].

(** The number of entries whose text holds a fatigue keyword *)
Definition fatigue_count (logs : list UserProfiler.RawLog) : nat :=
  length (List.filter UserProfiler.mentions_fatigue logs).

(** The two orders in which signal types can follow each other *)
Definition signal_order_stress : list string :=
  ["fatigue_repetition"; "stress_increasing"; "posting_decrease";
   "state_dominant"].
Definition signal_order_negativity : list string :=
  ["fatigue_repetition"; "negativity_increasing"; "posting_decrease";
   "state_dominant"].

(** The severity that goes with a signal type *)
Definition severity_of (type : string) : string :=
  if decide (type = "fatigue_repetition") then "warning"
  else if decide (type = "stress_increasing") then "warning"
  else "info".

(** An entry that the query of [build_profile] selects *)
Definition in_window (uid : N) (cutoff : Z) (log : UserProfiler.RawLog) : Prop :=
  UserProfiler.user_id log = uid
  /\ (cutoff <= UserProfiler.created_at log)%Z
  /\ UserProfiler.is_analyzed log = true.

(** The canonical empty profile, field by field *)
Definition canonical_empty (now : Z) : UserProfiler.Profile :=
  {| UserProfiler.updated_at := now;
     UserProfiler.log_count := 0;
     UserProfiler.period_days := 14;
     UserProfiler.emotion_trends := None;
     UserProfiler.topic_emotion_map := [];
     UserProfiler.posting_pattern := None;
     UserProfiler.signals := [] |}.

(** How often a label stands in a nullable list *)
Definition occurrences (x : string) (l : option (list string)) : nat :=
  count_occ string_dec (default [] l) x.

(** Co-occurrences of a topic with an emotion, and with any emotion, over
    the entries *)
Definition cooc (topic emotion : string) (logs : list UserProfiler.RawLog)
  : nat :=
  list_sum (map (fun log => occurrences topic (UserProfiler.topics log)
                             * occurrences emotion (UserProfiler.emotions log))%nat
                logs).

Definition topic_total (topic : string) (logs : list UserProfiler.RawLog)
  : nat :=
  list_sum (map (fun log => occurrences topic (UserProfiler.topics log)
                             * length (default [] (UserProfiler.emotions log)))%nat
                logs).

(** The counter a topic has so far, empty when the topic is new *)
Definition te_get (t : string) (te : list (string * Counter string))
  : Counter string := default [] (dict_get t te).

Definition te_wf (te : list (string * Counter string)) : Prop :=
  NoDup (map fst te) /\ forall t c, (t, c) ∈ te -> NoDup (map fst c).

(** What a piece of the first loop adds to every counter: [d t e] to the
    count of [e] under [t], and [n t] to the total under [t]. *)
Definition adds (f : list (string * Counter string) -> list (string * Counter string))
    (d : string -> string -> nat) (n : string -> nat) : Prop :=
  forall te, te_wf te ->
    te_wf (f te)
    /\ (forall t e, counter_get e (te_get t (f te))
                    = (counter_get e (te_get t te) + d t e)%nat)
    /\ (forall t, counter_total (te_get t (f te))
                  = (counter_total (te_get t te) + n t)%nat).

(** ** Further tests for the float tables *)

Definition compare_test (a b : nat) : bool :=
  Bool.eqb (fgt (F a) (F b)) (b <? a)%nat.

Definition zero_test (m : nat) : bool :=
  Bool.eqb (feq (F m) (of_int 0)) (m =? 0)%nat
  && Bool.eqb (fgt (F m) (of_int 0)) (0 <? m)%nat.

(** The fallback confidence of a winning score [m] over a total [t] that
    at most four categories share lies between 0.25 and 0.7. *)
Definition range_test (m t : nat) : bool :=
  (m =? 0)%nat || (t <? m)%nat || (4 * m <? t)%nat
  || (fle (lit 25 100) (fmin (fdiv (F m) (F t)) (lit 7 10))
      && fle (fmin (fdiv (F m) (F t)) (lit 7 10)) (lit 7 10)).

(** ** Selection and counting over the entries *)

(** Every entry is at least as new as all entries behind it. *)
Fixpoint newest_first (l : list UserProfiler.RawLog) : Prop :=
  match l with
  | [] => True
  | x :: l' =>
      (forall y, In y l' ->
                 (UserProfiler.created_at y <= UserProfiler.created_at x)%Z)
      /\ newest_first l'
  end.

(** The entries the query of [build_profile] may return, in table order *)
Definition window_entries (session : UserProfiler.Session) (uid : N)
    (cutoff : Z) : list UserProfiler.RawLog :=
  filter (in_window uid cutoff) (UserProfiler.raw_logs session).

(** How often an emotion is recorded over the entries, and how many
    emotion records there are in all *)
Definition emotion_count (e : string) (logs : list UserProfiler.RawLog) : nat :=
  list_sum (map (fun log => occurrences e (UserProfiler.emotions log)) logs).

Definition emotion_records (logs : list UserProfiler.RawLog) : nat :=
  list_sum (map (fun log => length (default [] (UserProfiler.emotions log))) logs).

(** The counter the emotions of some entries fill, starting from [c] *)
Definition count_from (c : Counter string) (logs : list UserProfiler.RawLog)
  : Counter string :=
  fold_left
    (fun c log =>
       fold_left (fun c e => counter_incr e c)
                 (default [] (UserProfiler.emotions log)) c)
    logs c.

(** An entry of the last [_TREND_DAYS] days *)
Definition is_recent (trend_cutoff : Z) (log : UserProfiler.RawLog) : bool :=
  (trend_cutoff <=? UserProfiler.created_at log)%Z.

(** Counts fall along the list. *)
Fixpoint falling {K} (l : list (K * nat)) : Prop :=
  match l with
  | [] => True
  | x :: l' => (forall y, In y l' -> (y.2 <= x.2)%nat) /\ falling l'
  end.

(** ** The message conversion *)

(** [msg.get("role", "user")] and [msg.get("content", "")] *)
Definition message_role (msg : list (string * string)) : string :=
  default "user" (dict_get "role" msg).

Definition message_content (msg : list (string * string)) : string :=
  default "" (dict_get "content" msg).

Definition is_system (msg : list (string * string)) : bool :=
  String.eqb (message_role msg) "system".

(** What a message that is not a system message turns into *)
Definition gemini_content (msg : list (string * string)) : Vertex.Content :=
  {| Vertex.role :=
       if String.eqb (message_role msg) "assistant" then "model" else "user";
     Vertex.parts := [ {| Vertex.text := message_content msg |} ] |}.

(** ** The summary *)

(** The line [generate_context_summary] writes for a signal *)
Definition warning_line (sig : UserProfiler.Signal) : string :=
  "⚠ " ++ UserProfiler.description sig.

(** The warning line of the [fatigue_repetition] signal for [n] entries *)
Definition fatigue_line (n : nat) : string :=
  "⚠ 疲労に関する投稿が" ++ str_of_nat n ++ "回（14日間）。慢性的な疲労の可能性".

(** A trend that gets no line: none, the empty one, or [stable] *)
Definition quiet_trend (trend : option string) : bool :=
  match trend with
  | None => true
  | Some t => String.eqb t "" || String.eqb t "stable"
  end.

(** A profile without top emotions, with a quiet trend and with no topic
    whose dominant emotion is one of the stressful or the comforting ones *)
Definition quiet (profile : UserProfiler.Profile) : Prop :=
  default [] (UserProfiler.top_emotions <$> UserProfiler.emotion_trends profile)
  = []
  /\ quiet_trend (UserProfiler.recent_trend
                    <$> UserProfiler.emotion_trends profile) = true
  /\ UserProfiler.topics_with ["frustrated"; "anxious"; "angry"]
       (UserProfiler.topic_emotion_map profile) = []
  /\ UserProfiler.topics_with ["achieved"; "excited"; "relieved"]
       (UserProfiler.topic_emotion_map profile) = [].

(** ** The posting frequency *)

(** The entries of the last seven days before [now], and the others *)
Definition recent_count (now : Z) (logs : list UserProfiler.RawLog) : nat :=
  length (List.filter (is_recent (now - UserProfiler.timedelta_days 7)) logs).

Definition older_count (now : Z) (logs : list UserProfiler.RawLog) : nat :=
  (length logs - recent_count now logs)%nat.

(** The entries written in hour [h] of the day *)
Definition hour_count (h : Z) (logs : list UserProfiler.RawLog) : nat :=
  length (List.filter
            (fun log => (UserProfiler.hour_of (UserProfiler.created_at log) =? h)%Z)
            logs).

(** The self-reports among the 20 newest entries *)
Definition state_count (logs : list UserProfiler.RawLog) : nat :=
  length (List.filter UserProfiler.is_state (take 20 logs)).


(** The label [_aggregate_posting_pattern] computes from the two counts *)
Definition frequency_label (recent_count older_count : nat) : string :=
  let recent_avg := int_truediv (Z.of_nat recent_count) 7 in
  let older_avg := int_truediv (Z.of_nat older_count) 7 in
  if fgt older_avg (of_int 0) && flt recent_avg (fmul older_avg (lit 5 10))
  then "decreasing"
  else if fgt older_avg (of_int 0) && fgt recent_avg (fmul older_avg (lit 15 10))
  then "increasing"
  else "stable".

(** The same comparison on the counts themselves: fewer than half as many
    recent entries as older ones, or more than one and a half times as
    many *)
Definition frequency_by_count (recent_count older_count : Z) : string :=
  if (2 * recent_count <? older_count)%Z then "decreasing"
  else if (0 <? older_count)%Z && (3 * older_count <? 2 * recent_count)%Z
  then "increasing"
  else "stable".

(** The table of the float comparisons for counts up to 200: the label is
    the one the counts give, except that on the line [2 r = 3 o], where
    the recent average is exactly one and a half times the older one, it
    is [increasing] or [stable] as the rounding falls.  The averages are
    computed once per count. *)
Definition frequency_row (n : nat) : Z * float :=
  (Z.of_nat n, int_truediv (Z.of_nat n) 7).

Definition frequency_cell (r o : Z * float) : bool :=
  let label :=
    if fgt o.2 (of_int 0) && flt r.2 (fmul o.2 (lit 5 10)) then "decreasing"
    else if fgt o.2 (of_int 0) && fgt r.2 (fmul o.2 (lit 15 10))
    then "increasing"
    else "stable" in
  if (2 * r.1 =? 3 * o.1)%Z
  then negb (String.eqb label "decreasing")
  else String.eqb label (frequency_by_count r.1 o.1).

Definition frequency_rows : list (Z * float) := map frequency_row (seq 0 201).

End Spec.

(** Concrete collaborators for the examples *)
Module Fixtures.
Import LLM.

Definition json_provider (v : PyVal) : LLMProvider :=
  {| initialize := Ok tt;
     generate_text := fun _ _ => Raise (RuntimeError "text generation is off");
     generate_json := fun _ _ => Ok v |}.

Definition text_provider (s : string) : LLMProvider :=
  {| initialize := Ok tt;
     generate_text := fun _ _ => Ok {| response_content := s |};
     generate_json := fun _ _ => Raise (RuntimeError "json generation is off") |}.

Definition failing_provider : LLMProvider :=
  {| initialize := Ok tt;
     generate_text := fun _ _ => Raise (RuntimeError "generation failed");
     generate_json := fun _ _ => Raise (RuntimeError "generation failed") |}.


Definition manager_of (p : LLMProvider) : LLMManager :=
  {| get_client := fun _ => Ok p |}.

Definition no_manager : LLMManager :=
  {| get_client := fun _ => Raise (RuntimeError "no client configured") |}.

(** A user without entries *)
Definition lone_user : UserProfiler.User :=
  {| UserProfiler.email := "user@example.com";
     UserProfiler.display_name := None;
     UserProfiler.profile_data := None |}.

Definition lone_session : UserProfiler.Session :=
  {| UserProfiler.raw_logs := [];
     UserProfiler.users := <[ 7%N := lone_user ]> ∅ |}.

(** Emotion buckets whose fatigue ratios are 9/10 and 7/10 *)
Definition recent_bucket : Counter string := [("frustrated", 9); ("happy", 1)]%nat.
Definition older_bucket : Counter string := [("frustrated", 7); ("happy", 3)]%nat.

(** Five entries that complain of being tired *)
Definition tired_entry : UserProfiler.RawLog :=
  {| UserProfiler.user_id := 7%N;
     UserProfiler.content := Some "今日も疲れた";
     UserProfiler.created_at := 0%Z;
     UserProfiler.emotions := Some ["anxious"; "frustrated"];
     UserProfiler.topics := Some ["work"];
     UserProfiler.intent := None;
     UserProfiler.is_analyzed := true |}.

Definition tired_logs : list UserProfiler.RawLog := repeat tired_entry 5.

(** The same five entries stored for user 7 *)
Definition tired_session : UserProfiler.Session :=
  {| UserProfiler.raw_logs := tired_logs;
     UserProfiler.users := <[ 7%N := lone_user ]> ∅ |}.

(** A profile of five entries that carries signals only *)
Definition noted_profile : UserProfiler.Profile :=
  {| UserProfiler.updated_at := 0%Z;
     UserProfiler.log_count := 5;
     UserProfiler.period_days := 14%Z;
     UserProfiler.emotion_trends := None;
     UserProfiler.topic_emotion_map := [];
     UserProfiler.posting_pattern := None;
     UserProfiler.signals := UserProfiler._detect_signals tired_logs None None |}.

(** A provider that answers with the text of the last message it was
    sent, so that a reply shows what the node asked. *)
Definition echo_provider : LLMProvider :=
  {| initialize := Ok tt;
     generate_text := fun msgs _ =>
       Ok {| response_content := default "" (content <$> last msgs) |};
     generate_json := fun _ _ => Raise (RuntimeError "json generation is off") |}.

End Fixtures.

(* ===================================================================== *)
(** * Facts about the runtime fragment                                    *)
(* ===================================================================== *)

Section RuntimeFacts.
Import Spec.

Lemma forallb_below (P : nat -> bool) (N : nat) :
  forallb P (seq 0 (S N)) = true -> forall n, (n <= N)%nat -> P n = true.
Proof.
  intros H n Hn. rewrite forallb_forall in H. apply H.
  apply in_seq. lia.
Qed.

Lemma float_eqb_eq (x y : float) : float_eqb x y = true -> x = y.
Proof.
  destruct x as [s1|s1| |s1 m1 e1], y as [s2|s2| |s2 m2 e2]; cbn;
    try discriminate; try reflexivity.
  - intros H. apply Bool.eqb_prop in H. now subst.
  - intros H. apply Bool.eqb_prop in H. now subst.
  - intros H. apply andb_true_iff in H as [H He].
    apply andb_true_iff in H as [Hs Hm].
    apply Bool.eqb_prop in Hs. apply Pos.eqb_eq in Hm. apply Z.eqb_eq in He.
    now subst.
Qed.

Lemma bind_Ok {A B} (a : A) (k : A -> outcome B) : (Ok a ≫= k) = k a.
Proof. reflexivity. Qed.

Lemma forallb_below2 (P : nat -> nat -> bool) (M N : nat) :
  forallb (fun m => forallb (P m) (seq 0 (S N))) (seq 0 (S M)) = true ->
  forall m n, (m <= M)%nat -> (n <= N)%nat -> P m n = true.
Proof.
  intros H m n Hm Hn.
  apply (forallb_below (P m) N); [|exact Hn].
  apply (forallb_below (fun m => forallb (P m) (seq 0 (S N))) M H m Hm).
Qed.

Lemma succ_table : forallb succ_test (seq 0 81) = true.
Proof. vm_compute. reflexivity. Qed.

Lemma add_table :
  forallb (fun a => forallb (add_test a) (seq 0 17)) (seq 0 97) = true.
Proof. vm_compute. reflexivity. Qed.

Lemma confidence_table :
  forallb (fun m => forallb (confidence_test m) (seq 0 97)) (seq 0 17) = true.
Proof. vm_compute. reflexivity. Qed.

Lemma F_succ (n : nat) : (n <= 80)%nat -> fadd (F n) (of_int 1) = F (S n).
Proof.
  intros Hn. apply float_eqb_eq.
  exact (forallb_below succ_test 80 succ_table n Hn).
Qed.

Lemma bump_F (h a : nat) : (a + h <= 81)%nat -> bump h (F a) = F (a + h).
Proof.
  revert a. induction h as [|h IH]; intros a Ha.
  - cbn. f_equal. lia.
  - unfold bump. rewrite Nat.iter_succ_r. fold (bump h (fadd (F a) (of_int 1))).
    rewrite F_succ by lia. rewrite IH by lia. f_equal. lia.
Qed.

Lemma F_add (a b : nat) :
  (a <= 96)%nat -> (b <= 16)%nat -> fadd (F a) (F b) = F (a + b).
Proof.
  intros Ha Hb. apply float_eqb_eq.
  exact (forallb_below2 add_test 96 16 add_table a b Ha Hb).
Qed.

(** The confidence the fallback computes from a winning score [m] and a
    total [t] always lies between 0 and 1. *)
Lemma fallback_confidence_bounds (m t : nat) :
  (m <= 16)%nat -> (t <= 96)%nat ->
  let c := if fgt (F t) (of_int 0) then fdiv (F m) (F t) else lit 3 10 in
  in_unit_interval (fmin c (lit 7 10)).
Proof.
  intros Hm Ht.
  pose proof (forallb_below2 confidence_test 16 96 confidence_table m t Hm Ht) as H.
  unfold confidence_test in H. apply andb_true_iff in H. exact H.
Qed.

Lemma hits_le (text : string) (kws : list string) :
  (hits text kws <= length kws)%nat.
Proof. unfold hits. apply List.filter_length_le. Qed.

Lemma hits_zero (text : string) (kws : list string) :
  (forall kw, In kw kws -> contains kw text = false) -> hits text kws = 0%nat.
Proof.
  unfold hits. induction kws as [|kw kws IH]; intros H; [reflexivity|].
  cbn [List.filter]. rewrite (H kw (or_introl eq_refl)).
  apply IH. intros kw' Hin. apply H. now right.
Qed.

Lemma hits_pos (text : string) (kws : list string) (kw : string) :
  In kw kws -> contains kw text = true -> (1 <= hits text kws)%nat.
Proof.
  unfold hits. induction kws as [|kw' kws IH]; intros Hin Hc; [destruct Hin|].
  cbn [List.filter]. destruct Hin as [->|Hin].
  - rewrite Hc. cbn. lia.
  - specialize (IH Hin Hc). destruct (contains kw' text); cbn; lia.
Qed.

End RuntimeFacts.

(* ===================================================================== *)
(** * Facts about the intent router                                       *)
(* ===================================================================== *)

Section IntentRouterFacts.
Import Schemas LLM IntentRouter Spec.

Lemma tally_ext (c c' : ConversationIntent -> float) :
  (forall i, c i = c' i) -> tally c = tally c'.
Proof. intros H. unfold tally. apply List.map_ext. intros i. now rewrite H. Qed.

Lemma dict_get_tally (i : ConversationIntent) c :
  dict_get i (tally c) = Some (c i).
Proof. destruct i; reflexivity. Qed.

Lemma scores_incr_tally (i : ConversationIntent) c :
  scores_incr i (tally c) = Ok (tally (upd c i (fadd (c i) (of_int 1)))).
Proof. destruct i; reflexivity. Qed.

Lemma score_keywords_tally text (i : ConversationIntent) kws c :
  score_keywords text i kws (tally c)
  = Ok (tally (upd c i (bump (hits text kws) (c i)))).
Proof.
  revert c. induction kws as [|kw kws IH]; intros c.
  - cbn [score_keywords]. f_equal. apply tally_ext. intros j.
    unfold upd. case_decide; subst; reflexivity.
  - cbn [score_keywords]. unfold hits. cbn [List.filter].
    destruct (contains kw text).
    + rewrite scores_incr_tally, bind_Ok, IH. f_equal. apply tally_ext.
      intros j. unfold upd. case_decide; [|reflexivity].
      rewrite decide_True by reflexivity.
      cbn [length]. unfold bump, hits. now rewrite Nat.iter_succ_r.
    + rewrite bind_Ok. apply IH.
Qed.

Lemma keywords_of_length (i : ConversationIntent) :
  (length (keywords_of i) <= 16)%nat.
Proof. destruct i; vm_compute; lia. Qed.

Lemma nhits_le (text : string) (i : ConversationIntent) :
  (nhits text i <= 16)%nat.
Proof.
  unfold nhits. pose proof (hits_le text (keywords_of i)).
  pose proof (keywords_of_length i). lia.
Qed.

Lemma bump_zero (h : nat) : (h <= 81)%nat -> bump h (of_int 0) = F h.
Proof. intros H. change (of_int 0) with (F 0). now rewrite bump_F. Qed.

(** What the two loops of the fallback leave in [scores] *)
Lemma fallback_scores (text : string) :
  score_all text _KEYWORD_MAP
    (map (fun i => (i, of_int 0)) ConversationIntent_members)
  = Ok (tally (fun i => F (nhits text i))).
Proof.
  change (map _ ConversationIntent_members) with (tally (fun _ => of_int 0)).
  unfold _KEYWORD_MAP. cbn [score_all].
  do 4 (rewrite score_keywords_tally, bind_Ok).
  f_equal. apply tally_ext. intros j.
  pose proof (nhits_le text EMPATHY) as HE.
  pose proof (nhits_le text KNOWLEDGE) as HK.
  pose proof (nhits_le text DEEP_DIVE) as HD.
  pose proof (nhits_le text BRAINSTORM) as HB.
  unfold upd.
  destruct j; repeat (case_decide; try congruence); try reflexivity.
  - change (bump (nhits text EMPATHY) (of_int 0) = F (nhits text EMPATHY)).
    apply bump_zero. lia.
  - change (bump (nhits text KNOWLEDGE) (of_int 0) = F (nhits text KNOWLEDGE)).
    apply bump_zero. lia.
  - change (bump (nhits text DEEP_DIVE) (of_int 0) = F (nhits text DEEP_DIVE)).
    apply bump_zero. lia.
  - change (bump (nhits text BRAINSTORM) (of_int 0) = F (nhits text BRAINSTORM)).
    apply bump_zero. lia.
Qed.

End IntentRouterFacts.

Section SelectIntentFacts.
Import Schemas LLM IntentRouter Spec.

Lemma fsum_tally (n : ConversationIntent -> nat) :
  (forall i, (n i <= 16)%nat) ->
  fsum (dict_values (tally (fun i => F (n i))))
  = F (list_sum (map n ConversationIntent_members)).
Proof.
  intros Hn.
  pose proof (Hn CHAT). pose proof (Hn EMPATHY). pose proof (Hn KNOWLEDGE).
  pose proof (Hn DEEP_DIVE). pose proof (Hn BRAINSTORM). pose proof (Hn STATE).
  cbv [fsum dict_values tally ConversationIntent_members map fold_left snd list_sum fold_right].
  change (of_int 0) with (F 0).
  rewrite !F_add by lia. f_equal. lia.
Qed.

Lemma unit_interval_0_3 : in_unit_interval (lit 3 10).
Proof. split; vm_compute; reflexivity. Qed.

(** Whatever the hit counts, the selection returns, never names [STATE], and
    its confidence is a number between 0 and 1. *)
Lemma select_intent_valid (n : ConversationIntent -> nat) :
  (forall i, (n i <= 16)%nat) -> n STATE = 0%nat ->
  exists r, select_intent (tally (fun i => F (n i))) = Ok r
            /\ intent r <> STATE /\ in_unit_interval (confidence r).
Proof.
  intros Hn Hstate. unfold select_intent.
  destruct (max_key (tally (fun i => F (n i)))) as [i|e] eqn:Hmax;
    [|discriminate Hmax].
  rewrite bind_Ok, dict_get_tally, bind_Ok.
  destruct (feq (F (n i)) (of_int 0)) eqn:Hz.
  - eexists. split; [reflexivity|]. split; [discriminate|].
    apply unit_interval_0_3.
  - eexists. split; [reflexivity|]. cbn [intent confidence]. split.
    + intros ->. rewrite Hstate in Hz. vm_compute in Hz. discriminate.
    + rewrite fsum_tally by exact Hn.
      apply fallback_confidence_bounds; [apply Hn|].
      pose proof (Hn CHAT). pose proof (Hn EMPATHY). pose proof (Hn KNOWLEDGE).
      pose proof (Hn DEEP_DIVE). pose proof (Hn BRAINSTORM). pose proof (Hn STATE).
      cbv [ConversationIntent_members map list_sum fold_right]. lia.
Qed.

Lemma fallback_unfold (text : string) :
  _fallback_classify text = select_intent (tally (fun i => F (nhits text i))).
Proof. unfold _fallback_classify. now rewrite fallback_scores, bind_Ok. Qed.

(** The keyword fallback always returns a result, of a primary category and
    with a confidence between 0 and 1. *)
Lemma fallback_valid (text : string) :
  exists r, _fallback_classify text = Ok r
            /\ intent r <> STATE /\ in_unit_interval (confidence r).
Proof.
  rewrite fallback_unfold. apply select_intent_valid.
  - apply nhits_le.
  - reflexivity.
Qed.

Lemma single_table :
  forallb (fun cat => forallb (single_test cat) (seq 0 17))
    [EMPATHY; KNOWLEDGE; DEEP_DIVE; BRAINSTORM] = true.
Proof. vm_compute. reflexivity. Qed.

End SelectIntentFacts.

Section ParseFacts.
Import Schemas LLM IntentRouter Spec.

Lemma intent_map_lookup (s : string) :
  default CHAT (dict_get s intent_map)
  = default CHAT
      (List.find (fun i => String.eqb (ConversationIntent_value i) s) primary).
Proof.
  unfold intent_map, primary. cbn [dict_get List.find ConversationIntent_value].
  repeat (case_decide as H;
          [ subst s; reflexivity
          | apply String.eqb_neq in H; rewrite H; clear H ]).
  reflexivity.
Qed.

Lemma find_primary_not_state (f : ConversationIntent -> bool) :
  default CHAT (List.find f primary) <> STATE.
Proof.
  unfold primary. cbn [List.find].
  repeat (match goal with |- context [if ?b then _ else _] => destruct b end;
          try discriminate).
Qed.

Lemma clamp_bounds (c : float) : in_unit_interval (clamp c).
Proof.
  unfold in_unit_interval, clamp, fmax, fmin, fgt, flt, fle.
  destruct c as [s|s| |s m e].
  - destruct s; split; reflexivity.
  - destruct s; split; reflexivity.
  - split; reflexivity.
  - destruct s.
    + split; reflexivity.
    + change (of_int 0) with (S754_zero false).
      destruct (SFltb (S754_finite false m e) (of_int 1)) eqn:H1.
      * split; [reflexivity|].
        cbn [SFltb SFcompare]. unfold SFleb. unfold SFltb in H1.
        destruct (SFcompare (S754_finite false m e) (of_int 1)) as [[]|];
          try discriminate; reflexivity.
      * split; reflexivity.
Qed.

Lemma parse_result_dict (d : list (string * PyVal)) :
  if parses d
  then _parse_result (PyDict d)
       = Ok {| intent := spoken_intent d; confidence := spoken_confidence d |}
  else exists e, _parse_result (PyDict d) = Raise e.
Proof.
  unfold parses, _parse_result, spoken_intent, spoken_confidence.
  destruct (dict_get "intent" d) as [[]|]; cbn [default from_option id];
    try (eexists; reflexivity).
  - (* a string *)
    rewrite bind_Ok, intent_map_lookup.
    destruct (dict_get "confidence" d) as [[| b | z | f | | |]|];
      cbn [default from_option id is_int_or_float to_float]; try reflexivity.
    + destruct b; reflexivity.
    + destruct (of_int z); try reflexivity. eexists; reflexivity.
  - (* missing *)
    rewrite bind_Ok.
    destruct (dict_get "confidence" d) as [[| b | z | f | | |]|];
      cbn [default from_option id is_int_or_float to_float]; try reflexivity.
    + destruct b; reflexivity.
    + destruct (of_int z); try reflexivity. eexists; reflexivity.
Qed.

Lemma unit_interval_0_5 : in_unit_interval (lit 5 10).
Proof. split; vm_compute; reflexivity. Qed.

Lemma unit_interval_0 : in_unit_interval (of_int 0).
Proof. split; vm_compute; reflexivity. Qed.

Lemma unit_interval_1 : in_unit_interval (of_int 1).
Proof. split; vm_compute; reflexivity. Qed.

Lemma spoken_valid (d : list (string * PyVal)) :
  spoken_intent d <> STATE /\ in_unit_interval (spoken_confidence d).
Proof.
  split.
  - unfold spoken_intent. destruct (dict_get "intent" d) as [[]|];
      try discriminate. exact (find_primary_not_state _).
  - unfold spoken_confidence.
    destruct (dict_get "confidence" d) as [[| b | z | f | | |]|].
    + exact unit_interval_0_5.
    + destruct b; [exact unit_interval_1 | exact unit_interval_0].
    + exact (clamp_bounds _).
    + exact (clamp_bounds _).
    + exact unit_interval_0_5.
    + exact unit_interval_0_5.
    + exact unit_interval_0_5.
    + exact unit_interval_0_5.
Qed.

Lemma parse_result_valid (v : PyVal) (r : ClassificationResult) :
  _parse_result v = Ok r ->
  intent r <> STATE /\ in_unit_interval (confidence r).
Proof.
  destruct v as [| | | | | |d]; try discriminate.
  pose proof (parse_result_dict d) as H. destruct (parses d).
  - rewrite H. intros [= <-]. apply spoken_valid.
  - destruct H as [e ->]. discriminate.
Qed.

Lemma not_state_primary (i : ConversationIntent) : i <> STATE -> In i primary.
Proof. destruct i; cbn; intuition congruence. Qed.

End ParseFacts.

(* ===================================================================== *)
(** * The intent router: statements                                       *)
(* ===================================================================== *)

Section IntentRouterClaims.
Import Schemas LLM IntentRouter Spec Fixtures.

Lemma keyword_map_In (cat : ConversationIntent) (kws : list string) :
  In (cat, kws) _KEYWORD_MAP ->
  In cat [EMPATHY; KNOWLEDGE; DEEP_DIVE; BRAINSTORM] /\ kws = keywords_of cat.
Proof.
  unfold _KEYWORD_MAP. cbn [In].
  intros [H|[H|[H|[H|[]]]]];
    apply pair_equal_spec in H as [<- <-];
    (split; [cbn [In]; auto 6 | reflexivity]).
Qed.

Lemma keywords_of_In (i : ConversationIntent) :
  keywords_of i = [] \/ In (i, keywords_of i) _KEYWORD_MAP.
Proof.
  destruct i;
    [ left; reflexivity
    | right; left; reflexivity
    | right; right; left; reflexivity
    | right; do 2 right; left; reflexivity
    | right; do 3 right; left; reflexivity
    | left; reflexivity ].
Qed.

(** A boolean check of "no keyword occurs", for concrete texts *)
Lemma no_keyword_check (text : string) (skip : ConversationIntent -> bool) :
  forallb (fun '(cat, kws) =>
             skip cat || forallb (fun kw => negb (contains kw text)) kws)
          _KEYWORD_MAP = true ->
  forall cat kws kw,
    In (cat, kws) _KEYWORD_MAP -> skip cat = false -> In kw kws ->
    contains kw text = false.
Proof.
  intros H cat kws kw Hin Hskip Hkw.
  rewrite forallb_forall in H. specialize (H _ Hin). cbn beta iota in H.
  rewrite Hskip in H. cbn [orb] in H.
  rewrite forallb_forall in H. specialize (H _ Hkw).
  now apply negb_true_iff in H.
Qed.

(** C4.  A text in which no keyword of any category occurs is classified by
    the keyword fallback as chat with confidence exactly 0.3. *)
Theorem fallback_no_keyword_is_chat (text : string) :
  (forall cat kws kw,
     In (cat, kws) _KEYWORD_MAP -> In kw kws -> contains kw text = false) ->
  _fallback_classify text = Ok {| intent := CHAT; confidence := lit 3 10 |}.
Proof.
  intros H. rewrite fallback_unfold.
  rewrite (tally_ext _ (fun _ => F 0)); [vm_compute; reflexivity|].
  intros i. f_equal. unfold nhits.
  destruct (keywords_of_In i) as [-> | Hin]; [reflexivity|].
  apply hits_zero. intros kw Hkw. exact (H _ _ _ Hin Hkw).
Qed.

Lemma fallback_no_keyword_is_chat_witness :
  (forall cat kws kw,
     In (cat, kws) _KEYWORD_MAP -> In kw kws ->
     contains kw "こんにちは、今日はいい天気" = false)
  /\ _fallback_classify "こんにちは、今日はいい天気"
     = Ok {| intent := CHAT; confidence := lit 3 10 |}.
Proof.
  assert (H : forall cat kws kw,
             In (cat, kws) _KEYWORD_MAP -> In kw kws ->
             contains kw "こんにちは、今日はいい天気" = false).
  { intros cat kws kw Hin Hkw.
    apply (no_keyword_check "こんにちは、今日はいい天気" (fun _ => false))
      with (cat := cat) (kws := kws);
      [vm_compute; reflexivity | exact Hin | reflexivity | exact Hkw]. }
  split; [exact H | exact (fallback_no_keyword_is_chat _ H)].
Defined.

(** C5.  A text holding at least one keyword of exactly one category, and
    none of any other, is classified by the keyword fallback as that
    category; the confidence is the winning score over the total score,
    capped at 0.7, which here is exactly 0.7. *)
Theorem fallback_single_category (text : string)
    (cat : ConversationIntent) (kws : list string) :
  In (cat, kws) _KEYWORD_MAP ->
  (exists kw, In kw kws /\ contains kw text = true) ->
  (forall cat' kws' kw,
     In (cat', kws') _KEYWORD_MAP -> cat' <> cat -> In kw kws' ->
     contains kw text = false) ->
  exists r,
    _fallback_classify text = Ok r
    /\ intent r = cat
    /\ confidence r
       = fmin (fdiv (F (nhits text cat)) (F (total_hits text))) (lit 7 10)
    /\ confidence r = lit 7 10.
Proof.
  intros Hin [kw [Hkw Hc]] Hothers.
  destruct (keyword_map_In _ _ Hin) as [Hcat ->].
  assert (Hpos : (1 <= nhits text cat)%nat) by exact (hits_pos _ _ _ Hkw Hc).
  pose proof (nhits_le text cat) as Hle.
  assert (Hzero : forall i, i <> cat -> nhits text i = 0%nat).
  { intros i Hi. unfold nhits.
    destruct (keywords_of_In i) as [-> | Hini]; [reflexivity|].
    apply hits_zero. intros kw' Hkw'. exact (Hothers _ _ _ Hini Hi Hkw'). }
  assert (Htotal : total_hits text = nhits text cat).
  { unfold total_hits.
    cbv [ConversationIntent_members map list_sum fold_right].
    pose proof (Hzero CHAT) as Z1. pose proof (Hzero EMPATHY) as Z2.
    pose proof (Hzero KNOWLEDGE) as Z3. pose proof (Hzero DEEP_DIVE) as Z4.
    pose proof (Hzero BRAINSTORM) as Z5. pose proof (Hzero STATE) as Z6.
    destruct cat; cbn [In] in Hcat;
      try (exfalso; clear -Hcat;
           destruct Hcat as [?|[?|[?|[?|[]]]]]; discriminate);
      repeat match goal with
             | Z : _ <> _ -> _ |- _ =>
                 first [specialize (Z ltac:(discriminate)) | clear Z]
             end; lia. }
  rewrite fallback_unfold, Htotal.
  rewrite (tally_ext _ (single cat (nhits text cat))).
  2:{ intros i. unfold single. case_decide as Hi; [now subst|].
      now rewrite Hzero. }
  pose proof single_table as T. rewrite forallb_forall in T.
  specialize (T cat Hcat).
  pose proof (forallb_below (single_test cat) 16 T _ Hle) as Hn.
  unfold single_test in Hn.
  destruct (nhits text cat =? 0)%nat eqn:E; [apply Nat.eqb_eq in E; lia|].
  cbn [orb] in Hn.
  destruct (select_intent (tally (single cat (nhits text cat)))) as [r|e];
    [|discriminate Hn].
  apply andb_true_iff in Hn as [Hn H3]. apply andb_true_iff in Hn as [H1 H2].
  exists r. split; [reflexivity|].
  apply bool_decide_eq_true_1 in H1.
  apply float_eqb_eq in H2. apply float_eqb_eq in H3.
  repeat split; assumption.
Qed.

Lemma fallback_single_category_witness :
  In (KNOWLEDGE, keywords_of KNOWLEDGE) _KEYWORD_MAP
  /\ (exists kw, In kw (keywords_of KNOWLEDGE)
                 /\ contains kw "教えて、とは何ですか" = true)
  /\ exists r,
       _fallback_classify "教えて、とは何ですか" = Ok r
       /\ intent r = KNOWLEDGE
       /\ confidence r
          = fmin (fdiv (F (nhits "教えて、とは何ですか" KNOWLEDGE))
                       (F (total_hits "教えて、とは何ですか"))) (lit 7 10)
       /\ confidence r = lit 7 10.
Proof.
  assert (H1 : In (KNOWLEDGE, keywords_of KNOWLEDGE) _KEYWORD_MAP)
    by (vm_compute; auto).
  assert (H2 : exists kw, In kw (keywords_of KNOWLEDGE)
                          /\ contains kw "教えて、とは何ですか" = true)
    by (exists "教えて"; split; [vm_compute; auto | vm_compute; reflexivity]).
  split; [exact H1|]. split; [exact H2|].
  apply (fallback_single_category _ KNOWLEDGE (keywords_of KNOWLEDGE) H1 H2).
  intros cat' kws' kw Hin Hne Hkw.
  apply (no_keyword_check "教えて、とは何ですか"
           (fun c => bool_decide (c = KNOWLEDGE)) )
    with (cat := cat') (kws := kws');
    [vm_compute; reflexivity | exact Hin | | exact Hkw].
  now apply bool_decide_eq_false_2.
Defined.

(** C8.  [classify] returns, and never with the [state] intent: on the LLM
    path as on the keyword path the intent is one of the five primary
    categories. *)
Theorem classify_never_state (mgr : LLMManager) (self : IntentRouter)
    (text : string) :
  exists r, (classify mgr self text).1 = Ok r
            /\ intent r <> STATE
            /\ In (intent r) [CHAT; EMPATHY; KNOWLEDGE; DEEP_DIVE; BRAINSTORM].
Proof.
  assert (Hfb : exists r, _fallback_classify text = Ok r /\ intent r <> STATE
                          /\ In (intent r) primary).
  { destruct (fallback_valid text) as [r [Hr [Hs _]]].
    exists r. auto using not_state_primary. }
  unfold classify. destruct (_get_provider mgr self) as [[p|] self'];
    cbn [fst]; [|exact Hfb].
  destruct (initialize p) as [[]|e]; cbn [try_except mbind outcome_bind bind];
    [|exact Hfb].
  destruct (generate_json p _ _) as [v|e];
    cbn [try_except mbind outcome_bind bind]; [|exact Hfb].
  destruct (_parse_result v) as [r|e] eqn:Hp; [|exact Hfb].
  destruct (parse_result_valid _ _ Hp) as [Hs _].
  exists r. auto using not_state_primary.
Qed.

(** C3, as the code has it.  When the LLM path hands back a map, [classify]
    returns a result without raising, of a primary category and with a
    confidence between 0 and 1.  If the [intent] entry is absent or a
    string (and the [confidence] entry is no integer beyond the floats),
    the intent is the primary category its lower-cased text names and chat
    otherwise, and the confidence is the number clamped into [0,1], or 0.5
    when the entry is absent or no number.  If not, the result is the one
    the keyword fallback gives for the input text. *)
Theorem classify_llm_map (mgr : LLMManager) (self self' : IntentRouter)
    (p : LLMProvider) (text : string) (d : list (string * PyVal)) :
  _get_provider mgr self = (Some p, self') ->
  initialize p = Ok tt ->
  generate_json p (classify_messages text) (lit 1 10) = Ok (PyDict d) ->
  exists r,
    (classify mgr self text).1 = Ok r
    /\ intent r <> STATE
    /\ in_unit_interval (confidence r)
    /\ (parses d = true ->
        intent r = spoken_intent d /\ confidence r = spoken_confidence d)
    /\ (parses d = false -> _fallback_classify text = Ok r).
Proof.
  intros Hp Hi Hg. unfold classify. rewrite Hp. cbn [fst].
  rewrite Hi, bind_Ok. unfold classify_messages in Hg. rewrite Hg, bind_Ok.
  pose proof (parse_result_dict d) as H. destruct (parses d).
  - rewrite H. cbn [try_except]. eexists. split; [reflexivity|].
    cbn [intent confidence]. destruct (spoken_valid d) as [Hs Hu].
    split; [exact Hs|]. split; [exact Hu|]. split.
    + intros _. split; reflexivity.
    + discriminate.
  - destruct H as [e ->]. cbn [try_except].
    destruct (fallback_valid text) as [r [Hr [Hs Hu]]].
    exists r. split; [exact Hr|]. split; [exact Hs|]. split; [exact Hu|].
    split; [discriminate | intros _; exact Hr].
Qed.

Lemma classify_llm_map_witness :
  exists r,
    (classify
       (manager_of (json_provider
          (PyDict [("intent", PyStr "Deep_Dive"); ("confidence", PyInt 3)])))
       new "つらい").1 = Ok r
    /\ intent r = DEEP_DIVE /\ confidence r = of_int 1.
Proof.
  destruct (classify_llm_map
              (manager_of (json_provider
                 (PyDict [("intent", PyStr "Deep_Dive"); ("confidence", PyInt 3)])))
              new _ _ "つらい" _ eq_refl eq_refl eq_refl)
    as [r [Hr [_ [_ [Hparsed _]]]]].
  exists r. split; [exact Hr|]. exact (Hparsed eq_refl).
Defined.

(** C3, as stated, fails: an [intent] entry that is no string ([null]
    here) does not give chat.  The parse raises inside [classify], and the
    keyword fallback classifies the text. *)
Lemma classify_null_intent_not_chat :
  dict_get "intent" [("intent", PyNone); ("confidence", PyFloat (lit 9 10))]
  = Some PyNone
  /\ (classify
        (manager_of (json_provider
           (PyDict [("intent", PyNone); ("confidence", PyFloat (lit 9 10))])))
        new "つらい").1
     = Ok {| intent := EMPATHY; confidence := lit 7 10 |}
  /\ EMPATHY <> CHAT.
Proof. split; [reflexivity|]. split; [vm_compute; reflexivity | discriminate]. Qed.

End IntentRouterClaims.

(* ===================================================================== *)
(** * The response nodes: statements                                      *)
(* ===================================================================== *)

Section NodeClaims.
Import LLM Nodes Spec Fixtures.

Lemma getitem_present {V} (k : string) (d : list (string * V)) (v : V) :
  dict_get k d = Some v -> dict_getitem k d = Ok v.
Proof. intros H. unfold dict_getitem. now rewrite H. Qed.


(** The user message [run_deep_research_node] builds *)
Lemma research_query_cases (state : list (string * string)) (text : string) :
  (if String.eqb (default "" (dict_get "previous_response" state)) ""
   then text
   else "元の質問: " ++ text ++ nl ++ nl ++
        "初回の回答（これを深掘りしてください）:" ++ nl ++
        default "" (dict_get "previous_response" state))
  = query DeepResearch state text.
Proof.
  unfold query.
  destruct (dict_get "previous_response" state) as [[|c previous]|];
    reflexivity.
Qed.







End NodeClaims.

(* ===================================================================== *)
(** * The user profiler: trend, signals, empty profile                    *)
(* ===================================================================== *)

Section ProfilerClaims.
Import UserProfiler Spec Fixtures.

(** C6 at the boundary.  With a recent fatigue ratio of 9/10 and an older
    one of 7/10 the difference is exactly 0.20, and the code answers
    [fatigue_increasing]: in binary64, [0.7 + 0.2] rounds below [0.9]. *)
Lemma trend_boundary_is_fatigue_increasing :
  (fatigue_ratio recent_bucket - fatigue_ratio older_bucket == 2 # 10)%Q
  /\ _detect_emotion_trend recent_bucket older_bucket = "fatigue_increasing".
Proof. split; vm_compute; reflexivity. Qed.

Lemma sum_ones_from {A} (p : A -> bool) (xs : list A) (n : nat) :
  fold_left (fun n x => if p x then (n + 1)%nat else n) xs n
  = (n + length (List.filter p xs))%nat.
Proof.
  revert n. induction xs as [|x xs IH]; intros n; cbn [fold_left List.filter].
  - cbn. lia.
  - rewrite IH. destruct (p x); cbn [length]; lia.
Qed.

Lemma sum_ones_filter {A} (p : A -> bool) (xs : list A) :
  sum_ones p xs = length (List.filter p xs).
Proof. unfold sum_ones. now rewrite sum_ones_from. Qed.

(** Split [_detect_signals] along its four tests. *)
Ltac signal_cases logs et pp :=
  cbv beta zeta delta [_detect_signals];
  destruct (5 <=? sum_ones mentions_fatigue logs)%nat;
  destruct (decide (recent_trend <$> et = Some "fatigue_increasing"));
  destruct (decide (recent_trend <$> et = Some "more_negative"));
  destruct (decide (frequency_change <$> pp = Some "decreasing"));
  destruct (10 <=? sum_ones is_state (take 20 logs))%nat;
  cbn [app].

Ltac sublist_of_template :=
  repeat first [ apply sublist_nil | apply sublist_skip | apply sublist_cons ].

(** C9.  Five or more entries whose text holds a fatigue keyword put a
    [fatigue_repetition] signal of warning severity into the signals; four
    or fewer put none there. *)
Theorem fatigue_repetition_threshold (logs : list RawLog)
    (et : option EmotionTrends) (pp : option PostingPattern) :
  ((5 <= fatigue_count logs)%nat ->
   exists s, In s (_detect_signals logs et pp)
             /\ type s = "fatigue_repetition" /\ severity s = "warning")
  /\ ((fatigue_count logs <= 4)%nat ->
      forall s, In s (_detect_signals logs et pp) ->
                type s <> "fatigue_repetition").
Proof.
  unfold fatigue_count. rewrite <- sum_ones_filter.
  split.
  - intros H. apply Nat.leb_le in H.
    cbv beta zeta delta [_detect_signals]. rewrite H.
    destruct (decide (recent_trend <$> et = Some "fatigue_increasing"));
    destruct (decide (recent_trend <$> et = Some "more_negative"));
    destruct (decide (frequency_change <$> pp = Some "decreasing"));
    destruct (10 <=? sum_ones is_state (take 20 logs))%nat;
    cbn [app In];
    (eexists; split; [left; reflexivity | split; reflexivity]).
  - intros H s.
    assert (E : (5 <=? sum_ones mentions_fatigue logs)%nat = false)
      by (apply Nat.leb_gt; lia).
    cbv beta zeta delta [_detect_signals]. rewrite E.
    destruct (decide (recent_trend <$> et = Some "fatigue_increasing"));
    destruct (decide (recent_trend <$> et = Some "more_negative"));
    destruct (decide (frequency_change <$> pp = Some "decreasing"));
    destruct (10 <=? sum_ones is_state (take 20 logs))%nat;
    cbn [app In];
    intros Hs; repeat (destruct Hs as [<- | Hs]; [cbn [type]; discriminate|]);
    destruct Hs.
Qed.

Lemma fatigue_repetition_threshold_witness :
  (5 <= fatigue_count tired_logs)%nat
  /\ exists s, In s (_detect_signals tired_logs None None)
               /\ type s = "fatigue_repetition" /\ severity s = "warning".
Proof.
  assert (H : (5 <= fatigue_count tired_logs)%nat)
    by (apply Nat.leb_le; vm_compute; reflexivity).
  split; [exact H|].
  exact (proj1 (fatigue_repetition_threshold tired_logs None None) H).
Defined.

Lemma signal_orders_NoDup :
  NoDup signal_order_stress /\ NoDup signal_order_negativity.
Proof.
  split;
    repeat (apply NoDup_cons_2;
            [rewrite ?elem_of_cons, elem_of_nil; intuition discriminate|]);
    apply NoDup_nil_2.
Qed.

(** The order of the types and the severity of every signal *)
Lemma detect_signals_core (logs : list RawLog)
    (et : option EmotionTrends) (pp : option PostingPattern) :
  (map type (_detect_signals logs et pp) `sublist_of` signal_order_stress
   \/ map type (_detect_signals logs et pp) `sublist_of` signal_order_negativity)
  /\ Forall (fun s => severity s = severity_of (type s))
            (_detect_signals logs et pp).
Proof.
  unfold signal_order_stress, signal_order_negativity.
  signal_cases logs et pp; cbn [map type];
    (split;
     [ first [ left; solve [sublist_of_template]
             | right; solve [sublist_of_template] ]
     | repeat (apply Forall_cons; split; [reflexivity|]); apply Forall_nil_2 ]).
Qed.

(** C10.  The signals come at most one per type, the types from the fixed
    five and in the fixed order fatigue_repetition, stress_increasing or
    negativity_increasing (never both), posting_decrease, state_dominant;
    there are at most four; the severity is warning for fatigue_repetition
    and stress_increasing and info for the others. *)
Theorem detect_signals_shape (logs : list RawLog)
    (et : option EmotionTrends) (pp : option PostingPattern) :
  let sigs := _detect_signals logs et pp in
  let types := map type sigs in
  (types `sublist_of` signal_order_stress
   \/ types `sublist_of` signal_order_negativity)
  /\ NoDup types
  /\ (length sigs <= 4)%nat
  /\ ~ ("stress_increasing" ∈ types /\ "negativity_increasing" ∈ types)
  /\ forall s, s ∈ sigs ->
       type s ∈ ["fatigue_repetition"; "stress_increasing";
                 "negativity_increasing"; "posting_decrease"; "state_dominant"]
       /\ severity s = (if decide (type s = "fatigue_repetition") then "warning"
                        else if decide (type s = "stress_increasing") then "warning"
                        else "info").
Proof.
  intros sigs types.
  destruct (detect_signals_core logs et pp) as [Horder Hsev].
  fold sigs in Horder, Hsev. fold types in Horder.
  destruct signal_orders_NoDup as [N1 N2].
  split; [exact Horder|]. split; [|split; [|split]].
  - destruct Horder as [H|H]; eauto using sublist_NoDup.
  - replace (length sigs) with (length types) by apply length_map.
    destruct Horder as [H|H]; apply sublist_length in H; exact H.
  - intros [Hs Hn]. destruct Horder as [H|H].
    + pose proof (elem_of_sublist _ _ _ Hn H) as Hin.
      unfold signal_order_stress in Hin.
      rewrite !elem_of_cons, elem_of_nil in Hin. intuition discriminate.
    + pose proof (elem_of_sublist _ _ _ Hs H) as Hin.
      unfold signal_order_negativity in Hin.
      rewrite !elem_of_cons, elem_of_nil in Hin. intuition discriminate.
  - intros s Hs. split.
    + assert (Ht : type s ∈ types) by (apply list_elem_of_In, in_map, list_elem_of_In, Hs).
      destruct Horder as [H|H]; pose proof (elem_of_sublist _ _ _ Ht H) as Hin;
        [unfold signal_order_stress in Hin | unfold signal_order_negativity in Hin];
        rewrite !elem_of_cons, elem_of_nil in Hin;
        rewrite !elem_of_cons; intuition auto.
    + rewrite Forall_forall in Hsev. exact (Hsev s Hs).
Qed.

Lemma detect_signals_shape_witness :
  exists s,
    s ∈ _detect_signals tired_logs None None
    /\ type s ∈ ["fatigue_repetition"; "stress_increasing";
                  "negativity_increasing"; "posting_decrease"; "state_dominant"].
Proof.
  assert (Hne : exists s, s ∈ _detect_signals tired_logs None None)
    by (vm_compute; eexists; apply list_elem_of_here).
  destruct Hne as [s Hs]. exists s. split; [exact Hs|].
  exact (proj1 (proj2 (proj2 (proj2 (proj2
           (detect_signals_shape tired_logs None None)))) s Hs)).
Defined.

End ProfilerClaims.

Section EmptyProfileClaims.
Import UserProfiler Spec Fixtures.

Lemma select_nothing (session : Session) (uid : N) (cutoff : Z) :
  (forall log, In log (raw_logs session) -> ~ in_window uid cutoff log) ->
  select_recent_logs session uid cutoff = [].
Proof.
  intros H. unfold select_recent_logs.
  assert (E : filter (fun log => user_id log = uid
                                 /\ (cutoff <= created_at log)%Z
                                 /\ is_analyzed log = true)
                     (raw_logs session) = []).
  { induction (raw_logs session) as [|log logs IH]; [reflexivity|].
    rewrite filter_cons. destruct (decide _) as [Hq|_].
    - exfalso. exact (H log (or_introl eq_refl) Hq).
    - apply IH. intros l Hl. apply H. now right. }
  rewrite E. reflexivity.
Qed.

(** C2, as the code has it.  For a user without analyzed entries in the
    14-day window [build_profile] returns the canonical empty profile and
    writes nothing.  [build_and_save] returns the same profile; it leaves
    the session as it is when the user record is absent, and stores the
    empty profile in [profile_data] when the record exists. *)
Theorem empty_window_profile (session : Session) (clock : nat -> datetime)
    (uid : N) :
  (forall log, In log (raw_logs session) ->
               ~ in_window uid (clock 0%nat - timedelta_days 14) log) ->
  build_profile session clock uid = Ok (canonical_empty (clock 1%nat))
  /\ (users session !! uid = None ->
      build_and_save session clock uid
      = Ok (canonical_empty (clock 1%nat), session))
  /\ (forall user, users session !! uid = Some user ->
      exists session',
        build_and_save session clock uid
        = Ok (canonical_empty (clock 1%nat), session')
        /\ raw_logs session' = raw_logs session
        /\ profile_data <$> (users session' !! uid)
           = Some (Some (canonical_empty (clock 1%nat)))
        /\ forall other, other <> uid ->
             users session' !! other = users session !! other).
Proof.
  intros H.
  assert (B : build_profile session clock uid
              = Ok (canonical_empty (clock 1%nat))).
  { unfold build_profile. unfold _RECENT_DAYS.
    rewrite (select_nothing _ _ _ H). reflexivity. }
  split; [exact B|]. split.
  - intros Hu. unfold build_and_save. rewrite B, bind_Ok, Hu. reflexivity.
  - intros user Hu. unfold build_and_save. rewrite B, bind_Ok, Hu.
    eexists. split; [reflexivity|]. unfold save_profile. cbn [raw_logs users].
    split; [reflexivity|]. split.
    + now rewrite lookup_insert_eq.
    + intros other Hne. now rewrite lookup_insert_ne.
Qed.

Lemma lone_session_has_no_entries (clock : nat -> datetime) :
  forall log, In log (raw_logs lone_session) ->
              ~ in_window 7 (clock 0%nat - timedelta_days 14) log.
Proof. intros log []. Qed.

Lemma empty_window_profile_witness :
  build_profile lone_session (fun _ => 0%Z) 7 = Ok (canonical_empty 0).
Proof.
  exact (proj1 (empty_window_profile lone_session (fun _ => 0%Z) 7
                  (lone_session_has_no_entries (fun _ => 0%Z)))).
Defined.

(** C2, as stated, fails through [build_and_save]: for a user whose record
    exists and who has no entry at all, the empty profile is written over
    [profile_data]. *)
Lemma build_and_save_writes_empty_profile :
  (forall log, In log (raw_logs lone_session) ->
               ~ in_window 7 (0 - timedelta_days 14) log)
  /\ profile_data <$> (users lone_session !! 7%N) = Some None
  /\ exists session',
       build_and_save lone_session (fun _ => 0%Z) 7
       = Ok (canonical_empty 0, session')
       /\ profile_data <$> (users session' !! 7%N)
          = Some (Some (canonical_empty 0))
       /\ session' <> lone_session.
Proof.
  split; [exact (lone_session_has_no_entries (fun _ => 0%Z))|].
  assert (L : users lone_session !! 7%N = Some lone_user)
    by (unfold lone_session; cbn [users]; apply lookup_insert_eq).
  split; [now rewrite L|].
  exists (save_profile lone_session 7 lone_user (canonical_empty 0)).
  split; [|split].
  - unfold build_and_save.
    change (build_profile lone_session (fun _ => 0%Z) 7)
      with (Ok (canonical_empty 0)).
    now rewrite bind_Ok, L.
  - unfold save_profile. cbn [users]. now rewrite lookup_insert_eq.
  - intros E. apply (f_equal (fun s => profile_data <$> (users s !! 7%N))) in E.
    unfold save_profile in E. cbn [users] in E.
    rewrite lookup_insert_eq, L in E. discriminate E.
Qed.

End EmptyProfileClaims.

(* ===================================================================== *)
(** * Facts about dictionaries and counters                               *)
(* ===================================================================== *)

Section DictFacts.
Context {K V : Type} `{EqDecision K}.
Implicit Types (d : list (K * V)) (k : K) (v : V).

Lemma dict_get_set k k' v d :
  dict_get k' (dict_set k v d)
  = if decide (k' = k) then Some v else dict_get k' d.
Proof.
  induction d as [|[k0 v0] d IH]; cbn [dict_set dict_get].
  - repeat case_decide; congruence.
  - destruct (decide (k0 = k)) as [->|Hne]; cbn [dict_get].
    + repeat case_decide; congruence.
    + rewrite IH. repeat case_decide; congruence.
Qed.

Lemma dict_get_elem k v d : dict_get k d = Some v -> (k, v) ∈ d.
Proof.
  induction d as [|[k0 v0] d IH]; cbn [dict_get]; [discriminate|].
  case_decide as E.
  - intros [= ->]. subst. apply list_elem_of_here.
  - intros Hg. apply list_elem_of_further. auto.
Qed.

Lemma elem_dict_get k v d :
  NoDup (map fst d) -> (k, v) ∈ d -> dict_get k d = Some v.
Proof.
  induction d as [|[k0 v0] d IH]; cbn [map fst dict_get]; intros Hnd Hin.
  - now apply elem_of_nil in Hin.
  - apply NoDup_cons in Hnd as [Hk0 Hnd].
    apply elem_of_cons in Hin as [[= -> ->]|Hin].
    + now rewrite decide_True.
    + rewrite decide_False; [auto|].
      intros ->. apply Hk0.
      apply list_elem_of_In, (in_map fst _ (k, v)), list_elem_of_In, Hin.
Qed.

Lemma elem_dict_set k v k' v' d :
  (k', v') ∈ dict_set k v d -> (k' = k /\ v' = v) \/ (k', v') ∈ d.
Proof.
  induction d as [|[k0 v0] d IH]; cbn [dict_set].
  - intros Hin. apply list_elem_of_singleton in Hin as [= -> ->]. now left.
  - case_decide as E.
    + subst k0. intros Hin. apply elem_of_cons in Hin as [[= -> ->]|Hin].
      * now left.
      * right. now apply list_elem_of_further.
    + intros Hin. apply elem_of_cons in Hin as [[= -> ->]|Hin].
      * right. apply list_elem_of_here.
      * destruct (IH Hin) as [?|?]; [now left|].
        right. now apply list_elem_of_further.
Qed.

Lemma dict_set_key_elem k v x d :
  x ∈ map fst (dict_set k v d) -> x = k \/ x ∈ map fst d.
Proof.
  induction d as [|[k0 v0] d IH]; cbn [dict_set map fst].
  - intros Hin. apply list_elem_of_singleton in Hin. now left.
  - case_decide as E; cbn [map fst]; intros Hin;
      apply elem_of_cons in Hin as [->|Hin].
    + right. apply list_elem_of_here.
    + right. now apply list_elem_of_further.
    + right. apply list_elem_of_here.
    + destruct (IH Hin) as [?|?]; [now left|].
      right. now apply list_elem_of_further.
Qed.

Lemma dict_set_NoDup k v d :
  NoDup (map fst d) -> NoDup (map fst (dict_set k v d)).
Proof.
  induction d as [|[k0 v0] d IH]; cbn [dict_set map fst]; intros Hnd.
  - apply NoDup_singleton.
  - apply NoDup_cons in Hnd as [Hk0 Hnd].
    case_decide as E; cbn [map fst]; apply NoDup_cons.
    + now split.
    + split; [|auto]. intros Hin.
      apply dict_set_key_elem in Hin as [->|Hin]; [now apply E|now apply Hk0].
Qed.

End DictFacts.

Section CounterFacts.
Context {K : Type} `{EqDecision K}.
Implicit Types (c : Counter K) (k : K).

Lemma fold_add_sum (l : list nat) (a : nat) :
  fold_left Nat.add l a = (a + list_sum l)%nat.
Proof.
  unfold list_sum.
  revert a. induction l as [|x l IH]; intros a; cbn [fold_left fold_right].
  - lia.
  - rewrite IH. lia.
Qed.

Lemma counter_total_sum c : counter_total c = list_sum (map snd c).
Proof. unfold counter_total, dict_values. now rewrite fold_add_sum. Qed.

Lemma dict_set_sum k (n : nat) c :
  (list_sum (map snd (dict_set k n c)) + counter_get k c
   = list_sum (map snd c) + n)%nat.
Proof.
  unfold counter_get, list_sum.
  induction c as [|[k0 n0] c IH]; cbn [dict_set dict_get map snd fold_right].
  - cbn. lia.
  - case_decide as E; cbn [map snd fold_right default from_option id].
    + lia.
    + cbn [default from_option id] in IH. lia.
Qed.

Lemma counter_total_incr k c :
  counter_total (counter_incr k c) = S (counter_total c).
Proof.
  rewrite !counter_total_sum. unfold counter_incr.
  pose proof (dict_set_sum k (S (counter_get k c)) c). lia.
Qed.

Lemma counter_get_incr k k' c :
  counter_get k' (counter_incr k c)
  = if decide (k' = k) then S (counter_get k c) else counter_get k' c.
Proof.
  unfold counter_incr, counter_get at 1. rewrite dict_get_set.
  now case_decide.
Qed.

Lemma counter_incr_NoDup k c :
  NoDup (map fst c) -> NoDup (map fst (counter_incr k c)).
Proof. apply dict_set_NoDup. Qed.

(** The head of the stable sort: the first entry of maximal count. *)
Lemma sort_desc_head c :
  c <> [] ->
  exists x rest pre post,
    sort_desc c = x :: rest
    /\ c = (pre ++ x :: post)%list
    /\ (forall y, y ∈ pre -> (y.2 < x.2)%nat)
    /\ (forall y, y ∈ post -> (y.2 <= x.2)%nat).
Proof.
  induction c as [|a c IH]; [congruence|]. intros _.
  unfold sort_desc. cbn [foldr]. fold (sort_desc c).
  destruct c as [|b c'].
  - exists a, [], [], []. cbn. repeat split; intros y Hy;
      now apply elem_of_nil in Hy.
  - destruct IH as (x & rest & pre & post & Hs & Hc & Hpre & Hpost);
      [discriminate|].
    rewrite Hs. cbn [insert_desc].
    destruct (a.2 <? x.2)%nat eqn:E.
    + apply Nat.ltb_lt in E.
      exists x, (insert_desc a rest), (a :: pre), post.
      split; [reflexivity|]. split; [now rewrite Hc|]. split; [|exact Hpost].
      intros y Hy. apply elem_of_cons in Hy as [->|Hy]; auto.
    + apply Nat.ltb_ge in E.
      exists a, (x :: rest), [], (b :: c').
      split; [reflexivity|]. split; [reflexivity|]. split.
      * intros y Hy. now apply elem_of_nil in Hy.
      * intros y Hy. rewrite Hc in Hy.
        apply elem_of_app in Hy as [Hy|Hy].
        -- specialize (Hpre y Hy). lia.
        -- apply elem_of_cons in Hy as [->|Hy]; [exact E|].
           specialize (Hpost y Hy). lia.
Qed.

End CounterFacts.

(* ===================================================================== *)
(** * The user profiler: topic-emotion aggregation                        *)
(* ===================================================================== *)

Section TopicEmotionClaims.
Import UserProfiler Spec Fixtures.

Implicit Types (te : list (string * Counter string)) (t e : string).

Lemma te_get_wf t te : te_wf te -> NoDup (map fst (te_get t te)).
Proof.
  intros [_ Hc]. unfold te_get.
  destruct (dict_get t te) as [c|] eqn:E; cbn [default from_option id].
  - apply (Hc t c). now apply dict_get_elem.
  - apply NoDup_nil_2.
Qed.

Lemma te_get_incr t e t' te :
  te_get t' (topic_incr t e te)
  = if decide (t' = t) then counter_incr e (te_get t te) else te_get t' te.
Proof.
  unfold te_get at 1, topic_incr. rewrite dict_get_set.
  now case_decide.
Qed.

Lemma topic_incr_wf t e te : te_wf te -> te_wf (topic_incr t e te).
Proof.
  intros Hwf. pose proof (te_get_wf t te Hwf) as Ht. destruct Hwf as [Hk Hc].
  split.
  - now apply dict_set_NoDup.
  - intros t' c Hin. apply elem_dict_set in Hin as [[-> ->]|Hin].
    + now apply counter_incr_NoDup.
    + eauto.
Qed.

Lemma adds_fold {A} (step : list (string * Counter string) -> A ->
                            list (string * Counter string))
    (d : A -> string -> string -> nat) (n : A -> string -> nat) (xs : list A) :
  (forall x, adds (fun te => step te x) (d x) (n x)) ->
  adds (fun te => fold_left step xs te)
       (fun t e => list_sum (map (fun x => d x t e) xs))
       (fun t => list_sum (map (fun x => n x t) xs)).
Proof.
  intros Hstep. unfold list_sum.
  induction xs as [|x xs IH]; intros te Hwf; cbn [fold_left map fold_right].
  - split; [exact Hwf|]. split; intros; lia.
  - destruct (Hstep x te Hwf) as (Hwf1 & Hd1 & Hn1).
    destruct (IH _ Hwf1) as (Hwf2 & Hd2 & Hn2).
    split; [exact Hwf2|]. split.
    + intros t e. rewrite Hd2, Hd1. lia.
    + intros t. rewrite Hn2, Hn1. lia.
Qed.

Lemma adds_ext f d d' n n' :
  (forall t e, d t e = d' t e) -> (forall t, n t = n' t) ->
  adds f d n -> adds f d' n'.
Proof.
  intros Hd Hn H te Hwf. destruct (H te Hwf) as (H1 & H2 & H3).
  split; [exact H1|]. split.
  - intros t e. now rewrite H2, Hd.
  - intros t. now rewrite H3, Hn.
Qed.

Lemma topic_incr_adds t e :
  adds (topic_incr t e)
       (fun t' e' => if decide (t' = t) then if decide (e' = e) then 1 else 0
                     else 0)%nat
       (fun t' => if decide (t' = t) then 1 else 0)%nat.
Proof.
  intros te Hwf. split; [now apply topic_incr_wf|]. split.
  - intros t' e'. rewrite te_get_incr. case_decide as Et; [subst t'|lia].
    rewrite counter_get_incr. case_decide; subst; lia.
  - intros t'. rewrite te_get_incr. case_decide as Et; [subst t'|lia].
    rewrite counter_total_incr. lia.
Qed.

Lemma sum_indicator (x : string) (l : list string) :
  list_sum (map (fun y => if decide (x = y) then 1 else 0)%nat l)
  = count_occ string_dec l x.
Proof.
  unfold list_sum. induction l as [|y l IH]; cbn [map fold_right count_occ];
    [reflexivity|].
  rewrite IH. destruct (string_dec y x) as [->|Hne].
  - now rewrite decide_True.
  - rewrite decide_False; [reflexivity|congruence].
Qed.

Lemma sum_const_indicator (x : string) (m : nat) (l : list string) :
  list_sum (map (fun y => if decide (x = y) then m else 0)%nat l)
  = (count_occ string_dec l x * m)%nat.
Proof.
  unfold list_sum. induction l as [|y l IH]; cbn [map fold_right count_occ];
    [reflexivity|].
  rewrite IH. destruct (string_dec y x) as [->|Hne].
  - rewrite decide_True by reflexivity. lia.
  - rewrite decide_False; [reflexivity|congruence].
Qed.

Lemma sum_zero {A} (l : list A) : list_sum (map (fun _ => 0%nat) l) = 0%nat.
Proof. unfold list_sum. induction l; cbn; auto. Qed.

(** One entry: every topic of it against every emotion of it *)
Lemma entry_adds (log : RawLog) :
  adds (fun te =>
          fold_left
            (fun acc topic =>
               fold_left (fun acc emotion => topic_incr topic emotion acc)
                         (default [] (emotions log)) acc)
            (default [] (topics log)) te)
       (fun t e => occurrences t (topics log) * occurrences e (emotions log))%nat
       (fun t => occurrences t (topics log) * length (default [] (emotions log)))%nat.
Proof.
  unfold occurrences.
  set (ts := default [] (topics log)). set (es := default [] (emotions log)).
  eapply adds_ext;
    [| | apply (adds_fold
                  (fun acc topic =>
                     fold_left (fun acc emotion => topic_incr topic emotion acc)
                               es acc)
                  (fun topic t e =>
                     if decide (t = topic) then count_occ string_dec es e else 0)%nat
                  (fun topic t => if decide (t = topic) then length es else 0)%nat
                  ts)].
  - intros t e. cbv beta. apply sum_const_indicator.
  - intros t. cbv beta. apply sum_const_indicator.
  - intros topic.
    eapply adds_ext;
      [| | apply (adds_fold
                    (fun acc emotion => topic_incr topic emotion acc)
                    (fun emotion t e =>
                       if decide (t = topic)
                       then if decide (e = emotion) then 1 else 0 else 0)%nat
                    (fun emotion t => if decide (t = topic) then 1 else 0)%nat
                    es);
           intros emotion; apply topic_incr_adds].
    + intros t e. cbv beta. case_decide.
      * apply sum_indicator.
      * apply sum_zero.
    + intros t. cbv beta. case_decide.
      * clear. induction es as [|x es IH]; [reflexivity|].
        cbn [map list_sum fold_right length]. unfold list_sum in IH.
        now rewrite IH.
      * apply sum_zero.
Qed.

(** The first loop counts the co-occurrences. *)
Lemma collect_topic_emotions_spec (logs : list RawLog) :
  te_wf (collect_topic_emotions logs)
  /\ (forall t e, counter_get e (te_get t (collect_topic_emotions logs))
                  = cooc t e logs)
  /\ (forall t, counter_total (te_get t (collect_topic_emotions logs))
                = topic_total t logs).
Proof.
  assert (W0 : te_wf []).
  { split; [apply NoDup_nil_2|]. intros t c Hin. now apply elem_of_nil in Hin. }
  destruct (adds_fold
              (fun acc log =>
                 fold_left
                   (fun acc topic =>
                      fold_left (fun acc emotion => topic_incr topic emotion acc)
                                (default [] (emotions log)) acc)
                   (default [] (topics log)) acc)
              (fun log t e => occurrences t (topics log)
                              * occurrences e (emotions log))%nat
              (fun log t => occurrences t (topics log)
                            * length (default [] (emotions log)))%nat
              logs entry_adds [] W0) as (Hwf & Hd & Hn).
  split; [exact Hwf|]. split.
  - intros t e. unfold collect_topic_emotions. rewrite Hd. reflexivity.
  - intros t. unfold collect_topic_emotions. rewrite Hn. reflexivity.
Qed.

Lemma summarise_topics_spec (l : list (string * Counter string))
    (res : list (string * TopicInfo)) :
  exists res',
    summarise_topics l res = Ok res'
    /\ (NoDup (map fst res) -> NoDup (map fst res'))
    /\ forall t info, (t, info) ∈ res' ->
          (t, info) ∈ res
          \/ exists c dom rest,
               (t, c) ∈ l /\ (2 <= counter_total c)%nat
               /\ sort_desc c = dom :: rest
               /\ info = {| dominant_emotion := dom.1;
                            count := counter_total c;
                            distribution := c |}.
Proof.
  revert res. induction l as [|[t c] l IH]; intros res; cbn [summarise_topics].
  - exists res. split; [reflexivity|]. split; [auto|]. intros; now left.
  - destruct (counter_total c <? 2)%nat eqn:E.
    + destruct (IH res) as (res' & Hr & Hnd & Hin).
      exists res'. split; [exact Hr|]. split; [exact Hnd|].
      intros t' info Hi. destruct (Hin _ _ Hi) as [?|(c' & dom & rest & Hc & ?)];
        [now left|].
      right. exists c', dom, rest. split; [now apply list_elem_of_further|auto].
    + apply Nat.ltb_ge in E.
      assert (Hne : c <> []) by (intros ->; cbn in E; lia).
      destruct (sort_desc_head c Hne) as (dom & rest & _ & _ & Hs & _).
      unfold most_common. rewrite Hs. cbn [take].
      destruct (IH (dict_set t {| dominant_emotion := dom.1;
                                  count := counter_total c;
                                  distribution := c |} res))
        as (res' & Hr & Hnd & Hin).
      exists res'. split; [exact Hr|]. split.
      * intros Hres. apply Hnd. now apply dict_set_NoDup.
      * intros t' info Hi.
        destruct (Hin _ _ Hi) as [Hset|(c' & dom' & rest' & Hc & ?)].
        -- apply elem_dict_set in Hset as [[-> ->]|?]; [|now left].
           right. exists c, dom, rest.
           split; [apply list_elem_of_here|auto].
        -- right. exists c', dom', rest'.
           split; [now apply list_elem_of_further|auto].
Qed.

(** C7.  The topic-emotion aggregation returns a map with one entry per
    topic; no topic in it has fewer than two emotion occurrences; every
    topic in it reports the total of its emotion occurrences, the full
    distribution of its emotions, and as dominant the most frequent one
    (the first counted among equally frequent ones). *)
Theorem topic_emotions_retained (logs : list RawLog) :
  exists result,
    _aggregate_topic_emotions logs = Ok result
    /\ NoDup (map fst result)
    /\ forall topic info, (topic, info) ∈ result ->
          (2 <= count info)%nat
          /\ count info = topic_total topic logs
          /\ count info = counter_total (distribution info)
          /\ (forall e, counter_get e (distribution info) = cooc topic e logs)
          /\ (forall e, (counter_get e (distribution info)
                         <= counter_get (dominant_emotion info)
                                        (distribution info))%nat)
          /\ (1 <= counter_get (dominant_emotion info) (distribution info))%nat
          /\ exists n pre post,
               distribution info
               = (pre ++ (dominant_emotion info, n) :: post)%list
               /\ (forall y, y ∈ pre -> (y.2 < n)%nat)
               /\ (forall y, y ∈ post -> (y.2 <= n)%nat).
Proof.
  destruct (collect_topic_emotions_spec logs) as (Hwf & Hd & Hn).
  destruct (summarise_topics_spec (collect_topic_emotions logs) [])
    as (result & Hr & Hnd & Hin).
  exists result. split; [exact Hr|]. split; [apply Hnd, NoDup_nil_2|].
  intros topic info Hi.
  destruct (Hin _ _ Hi) as [Hnil|(c & dom & rest & Hc & Htot & Hs & ->)];
    [now apply elem_of_nil in Hnil|].
  cbn [count distribution dominant_emotion].
  assert (Eg : te_get topic (collect_topic_emotions logs) = c).
  { unfold te_get. destruct Hwf as [Hk _]. now rewrite (elem_dict_get _ _ _ Hk Hc). }
  assert (Hcnd : NoDup (map fst c)) by (destruct Hwf as [_ Hw]; eauto).
  assert (Hne : c <> []) by (intros ->; cbn in Htot; lia).
  destruct (sort_desc_head c Hne) as (x & rest' & pre & post & Hs' & Hsplit & Hpre & Hpost).
  rewrite Hs in Hs'. injection Hs' as <- <-.
  assert (Hdom : (dom.1, dom.2) ∈ c).
  { rewrite Hsplit. apply elem_of_app. right.
    destruct dom. apply list_elem_of_here. }
  assert (Gdom : counter_get dom.1 c = dom.2).
  { unfold counter_get. now rewrite (elem_dict_get _ _ _ Hcnd Hdom). }
  assert (Hmax : forall y, y ∈ c -> (y.2 <= dom.2)%nat).
  { intros y Hy. rewrite Hsplit in Hy. apply elem_of_app in Hy as [Hy|Hy].
    - specialize (Hpre y Hy). lia.
    - apply elem_of_cons in Hy as [->|Hy]; [lia|auto]. }
  assert (Hall : forall e, (counter_get e c <= dom.2)%nat).
  { intros e. unfold counter_get.
    destruct (dict_get e c) as [v|] eqn:E; cbn [default from_option id]; [|lia].
    apply dict_get_elem in E. exact (Hmax _ E). }
  split; [exact Htot|]. split; [now rewrite <- Hn, Eg|]. split; [reflexivity|].
  split; [intros e; now rewrite <- Hd, Eg|].
  split; [intros e; rewrite Gdom; apply Hall|].
  split.
  - rewrite Gdom. destruct c as [|[e0 n0] c']; [congruence|].
    pose proof (Hmax (e0, n0) (list_elem_of_here _ _)) as H0. cbn [snd] in H0.
    destruct (Nat.eq_dec dom.2 0) as [Z|]; [|lia].
    exfalso.
    assert (Hz : forall y, y ∈ (e0, n0) :: c' -> y.2 = 0%nat)
      by (intros y Hy; specialize (Hmax y Hy); lia).
    assert (counter_total ((e0, n0) :: c') = 0%nat).
    { rewrite counter_total_sum. clear -Hz. unfold list_sum.
      induction ((e0, n0) :: c') as [|y l IH]; [reflexivity|].
      cbn [map fold_right]. rewrite (Hz y (list_elem_of_here _ _)).
      rewrite IH; [reflexivity|]. intros z Hz'. apply Hz.
      now apply list_elem_of_further. }
    lia.
  - exists dom.2, pre, post. split; [|split; assumption].
    rewrite Hsplit. destruct dom. reflexivity.
Qed.

Lemma topic_emotions_retained_witness :
  exists result info,
    _aggregate_topic_emotions tired_logs = Ok result
    /\ ("work", info) ∈ result
    /\ (2 <= count info)%nat
    /\ count info = topic_total "work" tired_logs.
Proof.
  destruct (topic_emotions_retained tired_logs) as (result & Hr & _ & H).
  assert (Hin : exists info, ("work", info) ∈ result).
  { vm_compute in Hr. injection Hr as <-. eexists. apply list_elem_of_here. }
  destruct Hin as [info Hin]. exists result, info.
  destruct (H "work" info Hin) as (H2 & Ht & _).
  split; [exact Hr|]. split; [exact Hin|]. split; [exact H2 | exact Ht].
Defined.

End TopicEmotionClaims.

(* ===================================================================== *)
(** * The intent router: further properties                               *)
(* ===================================================================== *)

Section IntentRouterMore.
Import Schemas LLM IntentRouter Spec Fixtures.

Lemma compare_table :
  forallb (fun a => forallb (compare_test a) (seq 0 17)) (seq 0 17) = true.
Proof. vm_compute. reflexivity. Qed.

Lemma zero_table : forallb zero_test (seq 0 97) = true.
Proof. vm_compute. reflexivity. Qed.

Lemma range_table :
  forallb (fun m => forallb (range_test m) (seq 0 65)) (seq 0 17) = true.
Proof. vm_compute. reflexivity. Qed.

Lemma F_gt (a b : nat) :
  (a <= 16)%nat -> (b <= 16)%nat -> fgt (F a) (F b) = (b <? a)%nat.
Proof.
  intros Ha Hb. apply Bool.eqb_prop.
  exact (forallb_below2 compare_test 16 16 compare_table a b Ha Hb).
Qed.

Lemma F_zero (m : nat) :
  (m <= 96)%nat ->
  feq (F m) (of_int 0) = (m =? 0)%nat /\ fgt (F m) (of_int 0) = (0 <? m)%nat.
Proof.
  intros Hm. pose proof (forallb_below zero_test 96 zero_table m Hm) as H.
  unfold zero_test in H. apply andb_true_iff in H as [H1 H2].
  split; now apply Bool.eqb_prop.
Qed.

(** [max_from] finds the first entry of maximal count. *)
Lemma max_from_first_max (n : ConversationIntent -> nat)
    (ks pre mid : list ConversationIntent) (best : ConversationIntent) :
  (forall i, (n i <= 16)%nat) ->
  (forall j, In j pre -> (n j < n best)%nat) ->
  (forall j, In j mid -> (n j <= n best)%nat) ->
  exists pre' post',
    (pre ++ best :: mid ++ ks)%list
    = (pre' ++ max_from (best, F (n best)) (map (fun i => (i, F (n i))) ks)
            :: post')%list
    /\ (forall j, In j pre' ->
          (n j < n (max_from (best, F (n best))
                             (map (fun i => (i, F (n i))) ks)))%nat)
    /\ (forall j, In j post' ->
          (n j <= n (max_from (best, F (n best))
                              (map (fun i => (i, F (n i))) ks)))%nat).
Proof.
  intros Hn. revert pre mid best.
  induction ks as [|k ks IH]; intros pre mid best Hpre Hmid; cbn [map max_from].
  - exists pre, mid. cbn [fst]. rewrite app_nil_r. auto.
  - cbn [snd]. rewrite F_gt by apply Hn.
    destruct (n best <? n k)%nat eqn:E.
    + apply Nat.ltb_lt in E.
      destruct (IH (pre ++ best :: mid)%list [] k) as (pre' & post' & Heq & H1 & H2).
      * intros j Hj. apply in_app_or in Hj as [Hj|[<-|Hj]].
        -- specialize (Hpre j Hj). lia.
        -- exact E.
        -- specialize (Hmid j Hj). lia.
      * intros j [].
      * exists pre', post'. split; [|auto].
        rewrite <- Heq. cbn [app]. now rewrite <- !app_assoc.
    + apply Nat.ltb_ge in E.
      destruct (IH pre (mid ++ [k])%list best Hpre) as (pre' & post' & Heq & H1 & H2).
      * intros j Hj. apply in_app_or in Hj as [Hj|[<-|[]]]; auto.
      * exists pre', post'. split; [|auto].
        rewrite <- Heq. now rewrite <- !app_assoc.
Qed.

(** The selection, read off the hit counts: the first category of maximal
    count wins, unless that count is 0, when the answer is chat at 0.3. *)
Lemma select_intent_winner (n : ConversationIntent -> nat) :
  (forall i, (n i <= 16)%nat) ->
  exists r w pre post,
    select_intent (tally (fun i => F (n i))) = Ok r
    /\ ConversationIntent_members = (pre ++ w :: post)%list
    /\ (forall j, In j pre -> (n j < n w)%nat)
    /\ (forall j, In j post -> (n j <= n w)%nat)
    /\ ((n w = 0%nat /\ r = {| intent := CHAT; confidence := lit 3 10 |})
        \/ ((1 <= n w)%nat
            /\ intent r = w
            /\ confidence r
               = fmin (fdiv (F (n w))
                            (F (list_sum (map n ConversationIntent_members))))
                      (lit 7 10))).
Proof.
  intros Hn. unfold select_intent.
  change (max_key (tally (fun i => F (n i))))
    with (Ok (max_from (CHAT, F (n CHAT))
                (map (fun i => (i, F (n i)))
                     [EMPATHY; KNOWLEDGE; DEEP_DIVE; BRAINSTORM; STATE]))).
  destruct (max_from_first_max n
              [EMPATHY; KNOWLEDGE; DEEP_DIVE; BRAINSTORM; STATE] [] [] CHAT Hn)
    as (pre & post & Heq & H1 & H2); [intros j []|intros j []|].
  revert Heq H1 H2. set (w := max_from _ _). intros Heq H1 H2.
  assert (Hm : ConversationIntent_members = (pre ++ w :: post)%list)
    by exact Heq.
  rewrite bind_Ok, dict_get_tally, bind_Ok.
  assert (Ht : (list_sum (map n ConversationIntent_members) <= 96)%nat).
  { pose proof (Hn CHAT). pose proof (Hn EMPATHY). pose proof (Hn KNOWLEDGE).
    pose proof (Hn DEEP_DIVE). pose proof (Hn BRAINSTORM). pose proof (Hn STATE).
    cbv [ConversationIntent_members map list_sum fold_right]. lia. }
  destruct (F_zero (n w)) as [Hz _]; [specialize (Hn w); lia|]. rewrite Hz.
  destruct (n w =? 0)%nat eqn:E.
  - apply Nat.eqb_eq in E. eexists _, w, pre, post.
    split; [reflexivity|]. split; [exact Hm|]. split; [exact H1|].
    split; [exact H2|]. left. now split.
  - apply Nat.eqb_neq in E. eexists _, w, pre, post.
    split; [reflexivity|]. split; [exact Hm|]. split; [exact H1|].
    split; [exact H2|]. right. cbn [intent confidence].
    split; [lia|]. split; [reflexivity|].
    rewrite fsum_tally by exact Hn.
    assert (Hw : (n w <= list_sum (map n ConversationIntent_members))%nat).
    { rewrite Hm. clear. unfold list_sum.
      induction pre as [|a pre IH]; cbn [app map fold_right]; lia. }
    destruct (F_zero (list_sum (map n ConversationIntent_members)) Ht) as [_ Hg].
    rewrite Hg. replace (0 <? _)%nat with true; [reflexivity|].
    symmetry. apply Nat.ltb_lt. lia.
Qed.

Lemma members_bound (n : ConversationIntent -> nat) (w : ConversationIntent)
    (pre post : list ConversationIntent) :
  ConversationIntent_members = (pre ++ w :: post)%list ->
  (forall j, In j pre -> (n j < n w)%nat) ->
  (forall j, In j post -> (n j <= n w)%nat) ->
  forall j, (n j <= n w)%nat.
Proof.
  intros Hm H1 H2 j.
  assert (Hj : In j ConversationIntent_members)
    by (destruct j; cbn; auto 7).
  rewrite Hm in Hj. apply in_app_or in Hj as [Hj|[<-|Hj]].
  - specialize (H1 j Hj). lia.
  - lia.
  - exact (H2 j Hj).
Qed.

(** When a keyword occurs, the keyword fallback answers with the category
    that has the most keyword hits; among categories with equally many hits
    the one that comes first in the enumeration wins.  The answer is then
    never chat, and the confidence is the winner's hits over all hits,
    capped at 0.7. *)
Theorem fallback_picks_first_maximum (text : string) :
  (exists cat kws kw,
      In (cat, kws) _KEYWORD_MAP /\ In kw kws /\ contains kw text = true) ->
  exists r pre post,
    _fallback_classify text = Ok r
    /\ ConversationIntent_members = (pre ++ intent r :: post)%list
    /\ (forall j, In j pre -> (nhits text j < nhits text (intent r))%nat)
    /\ (forall j, (nhits text j <= nhits text (intent r))%nat)
    /\ (1 <= nhits text (intent r))%nat
    /\ intent r <> CHAT
    /\ confidence r
       = fmin (fdiv (F (nhits text (intent r))) (F (total_hits text)))
              (lit 7 10).
Proof.
  intros (cat & kws & kw & Hin & Hkw & Hc).
  destruct (keyword_map_In _ _ Hin) as [_ ->].
  assert (Hcat : (1 <= nhits text cat)%nat) by exact (hits_pos _ _ _ Hkw Hc).
  rewrite fallback_unfold.
  destruct (select_intent_winner (nhits text) (nhits_le text))
    as (r & w & pre & post & Hr & Hm & H1 & H2 & Hcase).
  pose proof (members_bound _ _ _ _ Hm H1 H2) as Hmax.
  destruct Hcase as [[Hz _] | (Hw & Hi & Hconf)].
  - specialize (Hmax cat). lia.
  - subst w. exists r, pre, post. split; [exact Hr|]. split; [exact Hm|].
    split; [exact H1|]. split; [exact Hmax|]. split; [exact Hw|].
    split; [|exact Hconf].
    intros E. rewrite E in Hw. change (nhits text CHAT) with 0%nat in Hw. lia.
Qed.

Lemma fallback_picks_first_maximum_witness :
  exists r,
    _fallback_classify "つらいので教えて" = Ok r
    /\ intent r <> CHAT
    /\ (nhits "つらいので教えて" KNOWLEDGE
        <= nhits "つらいので教えて" (intent r))%nat.
Proof.
  destruct (fallback_picks_first_maximum "つらいので教えて")
    as (r & pre & post & Hr & _ & _ & Hmax & _ & Hne & _).
  - exists KNOWLEDGE, (keywords_of KNOWLEDGE), "教えて".
    split; [vm_compute; auto|]. split; [vm_compute; auto|].
    vm_compute. reflexivity.
  - exists r. split; [exact Hr|]. split; [exact Hne | exact (Hmax KNOWLEDGE)].
Defined.

(** The confidence of the keyword fallback always lies between 0.25 and
    0.7. *)
Theorem fallback_confidence_range (text : string) :
  exists r,
    _fallback_classify text = Ok r
    /\ fle (lit 25 100) (confidence r) = true
    /\ fle (confidence r) (lit 7 10) = true.
Proof.
  rewrite fallback_unfold.
  destruct (select_intent_winner (nhits text) (nhits_le text))
    as (r & w & pre & post & Hr & Hm & H1 & H2 & Hcase).
  pose proof (members_bound _ _ _ _ Hm H1 H2) as Hmax.
  exists r. split; [exact Hr|].
  destruct Hcase as [[_ ->] | (Hw & Hi & ->)].
  - split; vm_compute; reflexivity.
  - assert (Ht : (nhits text w <= list_sum (map (nhits text) ConversationIntent_members)
                  <= 4 * nhits text w)%nat).
    { pose proof (Hmax EMPATHY). pose proof (Hmax KNOWLEDGE).
      pose proof (Hmax DEEP_DIVE). pose proof (Hmax BRAINSTORM).
      assert (Hw' : In w ConversationIntent_members)
        by (rewrite Hm; apply in_or_app; right; left; reflexivity).
      cbv [ConversationIntent_members map list_sum fold_right].
      change (nhits text CHAT) with 0%nat. change (nhits text STATE) with 0%nat.
      destruct w; try (change (nhits text CHAT) with 0%nat in Hw; lia);
        try (change (nhits text STATE) with 0%nat in Hw; lia); lia. }
    pose proof (nhits_le text w) as Hle.
    pose proof (forallb_below2 range_test 16 64 range_table (nhits text w)
                  (list_sum (map (nhits text) ConversationIntent_members))
                  Hle ltac:(lia)) as T.
    unfold range_test in T.
    replace (nhits text w =? 0)%nat with false in T
      by (symmetry; apply Nat.eqb_neq; lia).
    replace (_ <? nhits text w)%nat with false in T
      by (symmetry; apply Nat.ltb_ge; lia).
    replace (4 * nhits text w <? _)%nat with false in T
      by (symmetry; apply Nat.ltb_ge; lia).
    cbn [orb] in T. now apply andb_true_iff in T.
Qed.

End IntentRouterMore.

Section ClassifyMore.
Import Schemas LLM IntentRouter Spec Fixtures.

(** Once the router holds a provider it keeps it: later lookups answer with
    the same provider whatever the manager does, and leave the router as it
    is.  A failed lookup caches nothing, so the next call asks again. *)
Theorem provider_is_cached (mgr : LLMManager) (self self' : IntentRouter)
    (p : LLMProvider) :
  _get_provider mgr self = (Some p, self') ->
  (forall mgr', _get_provider mgr' self' = (Some p, self'))
  /\ (forall text mgr',
        (classify mgr' self' text).2 = self').
Proof.
  intros H.
  assert (Hp : _provider self' = Some p).
  { unfold _get_provider in H. destruct (_provider self) as [q|] eqn:E.
    - injection H as <- <-. exact E.
    - destruct (get_client mgr FAST) as [q|e]; [|discriminate H].
      injection H as <- <-. reflexivity. }
  assert (G : forall mgr', _get_provider mgr' self' = (Some p, self'))
    by (intros mgr'; unfold _get_provider; now rewrite Hp).
  split; [exact G|].
  intros text mgr'. unfold classify. now rewrite G.
Qed.

Lemma provider_is_cached_witness :
  _get_provider no_manager {| _provider := Some failing_provider |}
  = (Some failing_provider, {| _provider := Some failing_provider |}).
Proof.
  exact (proj1 (provider_is_cached (manager_of failing_provider) new
                  {| _provider := Some failing_provider |} failing_provider
                  eq_refl) no_manager).
Defined.

(** A lookup that fails leaves the router without a provider, and
    [classify] then leaves it so as well: nothing is cached, the next call
    asks the manager again. *)
Theorem failed_lookup_is_retried (mgr : LLMManager) (self : IntentRouter)
    (text : string) (e : exn) :
  _provider self = None ->
  get_client mgr FAST = Raise e ->
  (classify mgr self text).2 = self
  /\ forall mgr' p, get_client mgr' FAST = Ok p ->
       _get_provider mgr' (classify mgr self text).2
       = (Some p, {| _provider := Some p |}).
Proof.
  intros Hn He.
  assert (E : (classify mgr self text).2 = self)
    by (unfold classify, _get_provider; now rewrite Hn, He).
  split; [exact E|]. intros mgr' p Hp. rewrite E.
  unfold _get_provider. now rewrite Hn, Hp.
Qed.

Lemma failed_lookup_is_retried_witness :
  (classify no_manager new "こんにちは").2 = new.
Proof.
  exact (proj1 (failed_lookup_is_retried no_manager new "こんにちは" _
                  eq_refl eq_refl)).
Defined.

(** Whenever the LLM path does not deliver a map, [classify] answers with
    the keyword fallback's result for the same text: no client obtainable,
    initialization raising, generation raising, or an answer that is no
    JSON object. *)
Theorem classify_degrades_to_fallback (mgr : LLMManager) (self : IntentRouter)
    (text : string) :
  match (_get_provider mgr self).1 with
  | None => True
  | Some p =>
      (exists e, initialize p = Raise e)
      \/ (exists e, generate_json p (classify_messages text) (lit 1 10) = Raise e)
      \/ (exists v, generate_json p (classify_messages text) (lit 1 10) = Ok v
                    /\ forall d, v <> PyDict d)
  end ->
  (classify mgr self text).1 = _fallback_classify text.
Proof.
  unfold classify. destruct (_get_provider mgr self) as [[p|] self'];
    cbn [fst]; [|reflexivity].
  unfold classify_messages.
  intros [[e He] | [[e He] | (v & Hv & Hd)]].
  - now rewrite He.
  - destruct (initialize p) as [[]|e0]; [|reflexivity].
    rewrite bind_Ok, He. reflexivity.
  - destruct (initialize p) as [[]|e0]; [|reflexivity].
    rewrite bind_Ok, Hv, bind_Ok.
    destruct v; try reflexivity. now destruct (Hd d).
Qed.

Lemma classify_degrades_to_fallback_witness :
  (classify (manager_of (json_provider (PyList [PyStr "empathy"]))) new
            "つらい").1
  = _fallback_classify "つらい".
Proof.
  apply classify_degrades_to_fallback. cbn [fst _get_provider new _provider
    manager_of get_client].
  right. right. exists (PyList [PyStr "empathy"]).
  split; [reflexivity | discriminate].
Defined.

Lemma SFcompare_positive_antisym (m1 : positive) (e1 : Z) (m2 : positive)
    (e2 : Z) :
  SFcompare (S754_finite false m2 e2) (S754_finite false m1 e1)
  = option_map CompOpp
      (SFcompare (S754_finite false m1 e1) (S754_finite false m2 e2)).
Proof.
  cbn [SFcompare option_map]. f_equal.
  rewrite (Z.compare_antisym e1 e2).
  destruct (e1 ?= e2)%Z; cbn [CompOpp]; try reflexivity.
  rewrite (Pos.compare_cont_antisym m1 m2 Eq). reflexivity.
Qed.

Lemma SFcompare_positive_refl (m : positive) (e : Z) :
  SFcompare (S754_finite false m e) (S754_finite false m e) = Some Eq.
Proof.
  cbn [SFcompare]. rewrite Z.compare_refl. f_equal.
  apply Pos.compare_cont_refl.
Qed.

(** The confidence an LLM answer carries as a float is clamped: a value
    between 0 and 1 is kept, a negative one becomes 0, one above 1 becomes
    1, and a NaN becomes 1. *)
Theorem float_confidence_is_clamped (d : list (string * PyVal)) (f : float) :
  match dict_get "intent" d with
  | None | Some (PyStr _) => True
  | _ => False
  end ->
  dict_get "confidence" d = Some (PyFloat f) ->
  exists r,
    _parse_result (PyDict d) = Ok r
    /\ (fle (of_int 0) f = true -> fle f (of_int 1) = true ->
        feq (confidence r) f = true)
    /\ (flt f (of_int 0) = true -> confidence r = of_int 0)
    /\ (fgt f (of_int 1) = true -> confidence r = of_int 1)
    /\ (f = S754_nan -> confidence r = of_int 1).
Proof.
  intros Hi Hc.
  pose proof (parse_result_dict d) as H.
  assert (Hp : parses d = true).
  { unfold parses. rewrite Hc. destruct (dict_get "intent" d) as [[]|];
      try reflexivity; destruct Hi. }
  rewrite Hp in H. eexists. split; [exact H|]. cbn [confidence].
  unfold spoken_confidence. rewrite Hc.
  unfold clamp, fmax, fmin, fgt, flt, fle, feq.
  change (of_int 0) with (S754_zero false).
  change (of_int 1) with (S754_finite false 4503599627370496 (-52)).
  destruct f as [s|s| |s m e].
  - destruct s; repeat split; try reflexivity; try discriminate.
  - destruct s; repeat split; try reflexivity; try discriminate.
  - repeat split; try reflexivity; try discriminate.
  - destruct s.
    + repeat split; try reflexivity; try discriminate.
    + pose proof (SFcompare_positive_antisym m e 4503599627370496 (-52)) as A.
      pose proof (SFcompare_positive_refl m e) as R.
      unfold SFltb, SFleb, SFeqb.
      change (SFcompare (S754_zero false) (S754_finite false m e))
        with (Some Lt).
      change (SFcompare (S754_finite false m e) (S754_zero false))
        with (Some Gt).
      rewrite A.
      destruct (SFcompare (S754_finite false m e)
                          (S754_finite false 4503599627370496 (-52)))
        as [[]|]; cbn [option_map CompOpp]; rewrite ?R, ?A;
        cbn [option_map CompOpp];
        repeat split; try reflexivity; try discriminate.
      all: intros _ _;
        try change (SFcompare (S754_zero false)
                      (S754_finite false 4503599627370496 (-52)))
          with (Some Lt);
        try change (SFcompare (S754_zero false) (S754_finite false m e))
          with (Some Lt);
        cbv iota; rewrite ?A, ?R; reflexivity.
Qed.

Lemma float_confidence_is_clamped_witness :
  exists r,
    _parse_result (PyDict [("confidence", PyFloat (lit 15 10))]) = Ok r
    /\ confidence r = of_int 1.
Proof.
  destruct (float_confidence_is_clamped
              [("confidence", PyFloat (lit 15 10))] (lit 15 10) I eq_refl)
    as (r & Hr & _ & _ & Hgt & _).
  exists r. split; [exact Hr|]. apply Hgt. vm_compute. reflexivity.
Defined.

End ClassifyMore.

(* ===================================================================== *)
(** * The response nodes: further properties                              *)
(* ===================================================================== *)

Section NodeMore.
Import LLM Nodes Spec Fixtures.

(** A state without [input_text] makes every strategy raise [KeyError]:
    the lookup stands before the guarded block, so the exception reaches
    the caller whether a client is obtainable or not. *)
Theorem missing_input_text_raises (s : Strategy) (mgr : LLMManager)
    (state : list (string * string)) :
  dict_get "input_text" state = None ->
  run s mgr state = Raise (KeyError "input_text").
Proof.
  intros H. destruct s; cbn [run];
    [ unfold ChatNode.run_chat_node
    | unfold EmpathyNode.run_empathy_node
    | unfold DeepDiveNode.run_deep_dive_node
    | unfold DeepResearchNode.run_deep_research_node ];
    unfold dict_getitem; rewrite H; reflexivity.
Qed.

Lemma missing_input_text_raises_witness :
  run DeepDive (manager_of (text_provider "ok")) [("previous_response", "x")]
  = Raise (KeyError "input_text").
Proof.
  exact (missing_input_text_raises DeepDive _ [("previous_response", "x")]
           eq_refl).
Defined.

(** When the client is there and answers, Chat, Empathy and DeepDive hand
    back the generated text unchanged; each sends its own system prompt
    and the input text, at temperature 0.7, 0.5 and 0.4. *)
Theorem strategy_returns_generated_text (s : Strategy) (mgr : LLMManager)
    (p : LLMProvider) (state : list (string * string)) (text : string)
    (answer : LLMResponse) :
  s <> DeepResearch ->
  dict_get "input_text" state = Some text ->
  get_client mgr (tier s) = Ok p ->
  initialize p = Ok tt ->
  generate_text p
    [ {| role := "system"; content := system_prompt s |};
      {| role := "user"; content := text |} ]
    (temperature s) = Ok answer ->
  run s mgr state = Ok {| response := response_content answer |}.
Proof.
  intros Hs Htext Hp Hi Hg. apply getitem_present in Htext.
  destruct s; cbn [run tier system_prompt temperature] in *;
    [ unfold ChatNode.run_chat_node, ChatNode._get_provider
    | unfold EmpathyNode.run_empathy_node, EmpathyNode._get_provider
    | unfold DeepDiveNode.run_deep_dive_node, DeepDiveNode._get_provider
    | congruence ];
    rewrite Htext, bind_Ok, Hp, Hi, bind_Ok, Hg; reflexivity.
Qed.

Lemma strategy_returns_generated_text_witness :
  run Chat (manager_of (text_provider "やあ")) [("input_text", "こんにちは")]
  = Ok {| response := "やあ" |}.
Proof.
  exact (strategy_returns_generated_text Chat
           (manager_of (text_provider "やあ")) (text_provider "やあ")
           [("input_text", "こんにちは")] "こんにちは"
           {| response_content := "やあ" |}
           ltac:(discriminate) eq_refl eq_refl eq_refl eq_refl).
Defined.

(** DeepResearch puts its marker in front of the generated text.  What it
    asks is the input text alone when [previous_response] is absent or
    empty, and otherwise the input text followed by the earlier answer;
    it asks at temperature 0.3, under its own system prompt. *)
Theorem deep_research_query (mgr : LLMManager) (p : LLMProvider)
    (state : list (string * string)) (text : string) (answer : LLMResponse) :
  dict_get "input_text" state = Some text ->
  get_client mgr DEEP = Ok p ->
  initialize p = Ok tt ->
  generate_text p
    [ {| role := "system"; content := DeepResearchNode._SYSTEM_PROMPT |};
      {| role := "user";
         content :=
           match dict_get "previous_response" state with
           | None | Some "" => text
           | Some previous =>
               "元の質問: " ++ text ++ nl ++ nl ++
               "初回の回答（これを深掘りしてください）:" ++ nl ++ previous
           end |} ]
    (lit 3 10) = Ok answer ->
  run DeepResearch mgr state
  = Ok {| response :=
            "🔬 **Deep Research 結果**" ++ nl ++ nl ++ response_content answer |}.
Proof.
  intros Htext Hp Hi Hg. apply getitem_present in Htext.
  cbn [run]. unfold DeepResearchNode.run_deep_research_node,
    DeepResearchNode._get_research_provider.
  rewrite Htext, bind_Ok, Hp. cbv zeta.
  rewrite research_query_cases. unfold query.
  rewrite Hi. cbn [mbind outcome_bind bind]. rewrite Hg.
  reflexivity.
Qed.

Lemma deep_research_query_witness :
  run DeepResearch (manager_of echo_provider)
      [("input_text", "量子計算とは"); ("previous_response", "")]
  = Ok {| response :=
            "🔬 **Deep Research 結果**" ++ nl ++ nl ++ "量子計算とは" |}.
Proof.
  exact (deep_research_query (manager_of echo_provider) echo_provider
           [("input_text", "量子計算とは"); ("previous_response", "")]
           "量子計算とは" {| response_content := "量子計算とは" |}
           eq_refl eq_refl eq_refl eq_refl).
Defined.

End NodeMore.

(* ===================================================================== *)
(** * The user profiler: selection, build and save                        *)
(* ===================================================================== *)

Section SelectionFacts.
Import UserProfiler Spec Fixtures.

Lemma insert_newest_first_perm (x : RawLog) (l : list RawLog) :
  insert_newest_first x l ≡ₚ x :: l.
Proof.
  induction l as [|y l IH]; cbn [insert_newest_first]; [reflexivity|].
  destruct (created_at x <? created_at y)%Z; [|reflexivity].
  rewrite IH. apply Permutation_swap.
Qed.

Lemma sort_newest_first_perm (l : list RawLog) :
  foldr insert_newest_first [] l ≡ₚ l.
Proof.
  induction l as [|x l IH]; cbn [foldr]; [reflexivity|].
  now rewrite insert_newest_first_perm, IH.
Qed.

Lemma insert_newest_first_sorted (x : RawLog) (l : list RawLog) :
  newest_first l -> newest_first (insert_newest_first x l).
Proof.
  induction l as [|y l IH]; cbn [insert_newest_first newest_first].
  - intros _. split; [intros z []|exact I].
  - intros [Hy Hl]. destruct (created_at x <? created_at y)%Z eqn:E.
    + apply Z.ltb_lt in E. cbn [newest_first]. split; [|auto].
      intros z Hz.
      apply (Permutation_in _ (insert_newest_first_perm x l)) in Hz.
      destruct Hz as [<-|Hz]; [lia|auto].
    + apply Z.ltb_ge in E. cbn [newest_first]. split; [|split; assumption].
      intros z [<-|Hz]; [exact E|]. specialize (Hy z Hz). lia.
Qed.

Lemma sort_newest_first_sorted (l : list RawLog) :
  newest_first (foldr insert_newest_first [] l).
Proof.
  induction l as [|x l IH]; cbn [foldr]; [exact I|].
  now apply insert_newest_first_sorted.
Qed.

Lemma select_as_take (session : Session) (uid : N) (cutoff : Z) :
  select_recent_logs session uid cutoff
  = take 200 (foldr insert_newest_first [] (window_entries session uid cutoff)).
Proof. reflexivity. Qed.

Lemma select_from_window (session : Session) (uid : N) (cutoff : Z)
    (log : RawLog) :
  In log (select_recent_logs session uid cutoff) ->
  in_window uid cutoff log /\ In log (raw_logs session).
Proof.
  rewrite select_as_take. intros H.
  assert (Hs : In log (foldr insert_newest_first []
                         (window_entries session uid cutoff))).
  { rewrite <- (take_drop 200). apply in_or_app. now left. }
  apply (Permutation_in _ (sort_newest_first_perm _)) in Hs.
  apply list_elem_of_In in Hs. unfold window_entries in Hs.
  apply list_elem_of_filter in Hs as [Hw Hin].
  split; [exact Hw | now apply list_elem_of_In].
Qed.

Lemma select_length (session : Session) (uid : N) (cutoff : Z) :
  length (select_recent_logs session uid cutoff)
  = Nat.min 200 (length (window_entries session uid cutoff)).
Proof.
  rewrite select_as_take, length_take.
  now rewrite (Permutation_length (sort_newest_first_perm _)).
Qed.

(** The query of [build_profile] returns the newest entries of the window:
    at most 200 of them, every one an analyzed entry of the user inside
    the window; returned and left-out entries together are the entries of
    the window from newest to oldest, the returned ones first. *)
Theorem selection_is_newest (session : Session) (uid : N) (cutoff : Z) :
  (length (select_recent_logs session uid cutoff)
   = Nat.min 200 (length (window_entries session uid cutoff)))
  /\ (forall log, In log (select_recent_logs session uid cutoff) ->
        in_window uid cutoff log /\ In log (raw_logs session))
  /\ exists rest,
       (select_recent_logs session uid cutoff ++ rest)%list
       ≡ₚ window_entries session uid cutoff
       /\ newest_first (select_recent_logs session uid cutoff ++ rest)%list
       /\ ((length (window_entries session uid cutoff) <= 200)%nat ->
           rest = []).
Proof.
  split; [|split].
  - apply select_length.
  - apply select_from_window.
  - exists (drop 200 (foldr insert_newest_first []
                        (window_entries session uid cutoff))).
    rewrite select_as_take, take_drop. split; [|split].
    + apply sort_newest_first_perm.
    + apply sort_newest_first_sorted.
    + intros H. apply drop_ge.
      now rewrite (Permutation_length (sort_newest_first_perm _)).
Qed.

(** [_aggregate_topic_emotions] never raises. *)
Lemma aggregate_topic_emotions_returns (logs : list RawLog) :
  exists result, _aggregate_topic_emotions logs = Ok result.
Proof.
  destruct (summarise_topics_spec (collect_topic_emotions logs) [])
    as (result & Hr & _).
  now exists result.
Qed.

(** [build_profile] never raises.  Its profile counts the selected entries,
    the window's entries up to 200; the period is 14 days; without entries
    every aggregate is empty, with entries the emotion trends and the
    posting pattern are filled in and the signals are those detected on the
    selected entries. *)
Theorem build_profile_returns (session : Session) (clock : nat -> datetime)
    (uid : N) :
  let cutoff := (clock 0%nat - timedelta_days 14)%Z in
  let logs := select_recent_logs session uid cutoff in
  exists profile,
    build_profile session clock uid = Ok profile
    /\ log_count profile
       = Nat.min 200 (length (window_entries session uid cutoff))
    /\ log_count profile = length logs
    /\ period_days profile = 14%Z
    /\ (logs = [] -> profile = canonical_empty (clock 1%nat))
    /\ (logs <> [] ->
        updated_at profile = clock 3%nat
        /\ emotion_trends profile = Some (_aggregate_emotions (clock 1%nat) logs)
        /\ _aggregate_topic_emotions logs = Ok (topic_emotion_map profile)
        /\ (exists pp, posting_pattern profile = Some pp
                       /\ _aggregate_posting_pattern (clock 2%nat) logs = Some pp
                       /\ total_logs pp = length logs)
        /\ signals profile
           = _detect_signals logs (emotion_trends profile)
                             (posting_pattern profile)).
Proof.
  intros cutoff logs.
  assert (Hlen : length logs
                 = Nat.min 200 (length (window_entries session uid cutoff)))
    by apply select_length.
  unfold build_profile.
  change (clock 0%nat - timedelta_days _RECENT_DAYS)%Z with cutoff.
  change (select_recent_logs session uid cutoff) with logs.
  clearbody logs.
  destruct logs as [|log logs'].
  - eexists. split; [reflexivity|]. cbn [log_count period_days _empty_profile].
    split; [exact Hlen|]. split; [reflexivity|]. split; [reflexivity|].
    split; [reflexivity|]. congruence.
  - destruct (aggregate_topic_emotions_returns (log :: logs')) as [tm Htm].
    rewrite Htm, bind_Ok. eexists. split; [reflexivity|].
    cbn [log_count period_days updated_at emotion_trends topic_emotion_map
         posting_pattern signals].
    split; [exact Hlen|]. split; [reflexivity|]. split; [reflexivity|].
    split; [discriminate|]. intros _.
    split; [reflexivity|]. split; [reflexivity|]. split; [reflexivity|].
    split; [|reflexivity].
    eexists. split; [reflexivity|]. split; reflexivity.
Qed.

(** [build_and_save] returns what [build_profile] returns and never
    raises.  It never touches the entries nor any other user's record;
    without a record for the user it changes nothing, with one the
    [profile_data] of the record becomes exactly the returned profile. *)
Theorem build_and_save_frame (session : Session) (clock : nat -> datetime)
    (uid : N) :
  exists profile session',
    build_profile session clock uid = Ok profile
    /\ build_and_save session clock uid = Ok (profile, session')
    /\ raw_logs session' = raw_logs session
    /\ (forall other, other <> uid ->
          users session' !! other = users session !! other)
    /\ (users session !! uid = None -> session' = session)
    /\ (forall user, users session !! uid = Some user ->
          profile_data <$> (users session' !! uid) = Some (Some profile)).
Proof.
  assert (B : exists profile, build_profile session clock uid = Ok profile).
  { unfold build_profile.
    destruct (select_recent_logs session uid _) as [|log logs] eqn:E.
    - eexists; reflexivity.
    - destruct (aggregate_topic_emotions_returns (log :: logs)) as [tm Htm].
      rewrite Htm, bind_Ok. eexists; reflexivity. }
  destruct B as [profile B]. unfold build_and_save. rewrite B, bind_Ok.
  destruct (users session !! uid) as [user|] eqn:Hu.
  - exists profile, (save_profile session uid user profile).
    split; [reflexivity|]. split; [reflexivity|]. split; [reflexivity|].
    unfold save_profile. cbn [users]. split; [|split].
    + intros other Hne. now rewrite lookup_insert_ne.
    + discriminate.
    + intros user' _. now rewrite lookup_insert_eq.
  - exists profile, session.
    split; [reflexivity|]. split; [reflexivity|]. split; [reflexivity|].
    split; [reflexivity|]. split; [reflexivity|]. discriminate.
Qed.

End SelectionFacts.

(* ===================================================================== *)
(** * The user profiler: emotion aggregation                              *)
(* ===================================================================== *)

Section EmotionFacts.
Import UserProfiler Spec Fixtures.

Lemma insert_desc_perm {K} (x : K * nat) (l : list (K * nat)) :
  insert_desc x l ≡ₚ x :: l.
Proof.
  induction l as [|y l IH]; cbn [insert_desc]; [reflexivity|].
  destruct (x.2 <? y.2)%nat; [|reflexivity].
  rewrite IH. apply Permutation_swap.
Qed.

Lemma sort_desc_perm {K} (c : list (K * nat)) : sort_desc c ≡ₚ c.
Proof.
  unfold sort_desc. induction c as [|x c IH]; cbn [foldr]; [reflexivity|].
  now rewrite insert_desc_perm, IH.
Qed.

Lemma insert_desc_falling {K} (x : K * nat) (l : list (K * nat)) :
  falling l -> falling (insert_desc x l).
Proof.
  induction l as [|y l IH]; cbn [insert_desc falling].
  - intros _. split; [intros z []|exact I].
  - intros [Hy Hl]. destruct (x.2 <? y.2)%nat eqn:E.
    + apply Nat.ltb_lt in E. cbn [falling]. split; [|auto].
      intros z Hz. apply (Permutation_in _ (insert_desc_perm x l)) in Hz.
      destruct Hz as [<-|Hz]; [lia|auto].
    + apply Nat.ltb_ge in E. cbn [falling]. split; [|split; assumption].
      intros z [<-|Hz]; [exact E|]. specialize (Hy z Hz). lia.
Qed.

Lemma sort_desc_falling {K} (c : list (K * nat)) : falling (sort_desc c).
Proof.
  unfold sort_desc. induction c as [|x c IH]; cbn [foldr]; [exact I|].
  now apply insert_desc_falling.
Qed.

Lemma falling_app {K} (l1 l2 : list (K * nat)) :
  falling (l1 ++ l2) ->
  falling l1 /\ forall x y, In x l1 -> In y l2 -> (y.2 <= x.2)%nat.
Proof.
  induction l1 as [|a l1 IH]; cbn [app falling].
  - intros _. split; [exact I|]. intros x y [].
  - intros [Ha Hf]. destruct (IH Hf) as [H1 H2]. split.
    + split; [|exact H1]. intros y Hy. apply Ha, in_or_app. now left.
    + intros x y [<-|Hx] Hy; [|eauto]. apply Ha, in_or_app. now right.
Qed.

(** The inner loop of [_aggregate_emotions] on one entry *)
Lemma count_emotions_entry (recent : bool) (es : list string)
    (a b c : Counter string) :
  fold_left
    (fun '(counter, recent_counter, older_counter) emotion =>
       let counter := counter_incr emotion counter in
       if recent
       then (counter, counter_incr emotion recent_counter, older_counter)
       else (counter, recent_counter, counter_incr emotion older_counter))
    es (a, b, c)
  = (fold_left (fun c e => counter_incr e c) es a,
     if recent then fold_left (fun c e => counter_incr e c) es b else b,
     if recent then c else fold_left (fun c e => counter_incr e c) es c).
Proof.
  revert a b c. induction es as [|e es IH]; intros a b c; cbn [fold_left].
  - now destruct recent.
  - destruct recent; now rewrite IH.
Qed.

(** The three counters: all entries, the recent ones, the older ones. *)
Lemma count_emotions_split (trend_cutoff : Z) (logs : list RawLog)
    (a b c : Counter string) :
  fold_left
    (fun acc log =>
       fold_left
         (fun '(counter, recent_counter, older_counter) emotion =>
            let counter := counter_incr emotion counter in
            if (trend_cutoff <=? created_at log)%Z
            then (counter, counter_incr emotion recent_counter, older_counter)
            else (counter, recent_counter, counter_incr emotion older_counter))
         (default [] (emotions log)) acc)
    logs (a, b, c)
  = (count_from a logs,
     count_from b (List.filter (is_recent trend_cutoff) logs),
     count_from c (List.filter (fun log => negb (is_recent trend_cutoff log)) logs)).
Proof.
  revert a b c. induction logs as [|log logs IH]; intros a b c;
    cbn [fold_left List.filter count_from]; [reflexivity|].
  rewrite (count_emotions_entry (trend_cutoff <=? created_at log)%Z).
  rewrite IH. unfold is_recent.
  destruct (trend_cutoff <=? created_at log)%Z; reflexivity.
Qed.

Lemma count_from_spec (logs : list RawLog) (c : Counter string) :
  NoDup (map fst c) ->
  NoDup (map fst (count_from c logs))
  /\ (forall e, counter_get e (count_from c logs)
                = (counter_get e c + emotion_count e logs)%nat)
  /\ counter_total (count_from c logs)
     = (counter_total c + emotion_records logs)%nat.
Proof.
  unfold emotion_count, emotion_records, list_sum.
  revert c. induction logs as [|log logs IH]; intros c Hc;
    cbn [count_from fold_left map fold_right].
  - split; [exact Hc|]. split; [intros; lia|lia].
  - fold (count_from (fold_left (fun c e => counter_incr e c)
                        (default [] (emotions log)) c) logs).
    assert (Hin : NoDup (map fst (fold_left (fun c e => counter_incr e c)
                                    (default [] (emotions log)) c))
                  /\ (forall e,
                        counter_get e (fold_left (fun c e => counter_incr e c)
                                         (default [] (emotions log)) c)
                        = (counter_get e c + occurrences e (emotions log))%nat)
                  /\ counter_total (fold_left (fun c e => counter_incr e c)
                                      (default [] (emotions log)) c)
                     = (counter_total c + length (default [] (emotions log)))%nat).
    { unfold occurrences. clear IH. revert c Hc.
      induction (default [] (emotions log)) as [|x es IHes]; intros c Hc;
        cbn [fold_left count_occ length].
      - split; [exact Hc|]. split; [intros; lia|lia].
      - destruct (IHes (counter_incr x c) (counter_incr_NoDup x c Hc))
          as (H1 & H2 & H3).
        split; [exact H1|]. split.
        + intros e. rewrite H2, counter_get_incr.
          destruct (string_dec x e) as [->|Hne].
          * rewrite decide_True by reflexivity. lia.
          * rewrite decide_False by congruence. lia.
        + rewrite H3, counter_total_incr. lia. }
    destruct Hin as (H1 & H2 & H3).
    destruct (IH _ H1) as (G1 & G2 & G3).
    split; [exact G1|]. split.
    + intros e. rewrite G2, H2. lia.
    + rewrite G3, H3. lia.
Qed.

Lemma count_from_positive (logs : list RawLog) (c : Counter string) :
  (forall x, In x c -> (1 <= x.2)%nat) ->
  forall x, In x (count_from c logs) -> (1 <= x.2)%nat.
Proof.
  revert c. induction logs as [|log logs IH]; intros c Hc;
    cbn [count_from fold_left]; [exact Hc|].
  apply IH. clear IH. revert c Hc.
  induction (default [] (emotions log)) as [|e es IHes]; intros c Hc;
    cbn [fold_left]; [exact Hc|].
  apply IHes. intros [k v] Hx. unfold counter_incr in Hx.
  apply list_elem_of_In, elem_dict_set in Hx as [[-> ->]|Hx].
  - cbn. lia.
  - apply Hc. now apply list_elem_of_In.
Qed.

Lemma aggregate_emotions_unfold (now : datetime) (logs : list RawLog) :
  _aggregate_emotions now logs
  = {| top_emotions := most_common 5 (count_from [] logs);
       total_entries := counter_total (count_from [] logs);
       recent_trend :=
         _detect_emotion_trend
           (count_from [] (List.filter (is_recent (now - timedelta_days 7)) logs))
           (count_from []
              (List.filter (fun log => negb (is_recent (now - timedelta_days 7) log))
                           logs)) |}.
Proof.
  unfold _aggregate_emotions, count_emotions.
  now rewrite count_emotions_split.
Qed.

(** The emotion trends count what the entries record: [total_entries] is
    the number of emotion records; [top_emotions] lists at most five
    distinct emotions, each with the number of times it is recorded, the
    counts falling; no emotion left out is recorded more often than a
    listed one.  The trend compares the entries of the last seven days
    (the cutoff instant included) with the older ones. *)
Theorem emotion_trends_count (now : datetime) (logs : list RawLog) :
  let et := _aggregate_emotions now logs in
  total_entries et = emotion_records logs
  /\ (length (top_emotions et) <= 5)%nat
  /\ NoDup (map fst (top_emotions et))
  /\ falling (top_emotions et)
  /\ (forall e n, In (e, n) (top_emotions et) ->
        n = emotion_count e logs /\ (1 <= n)%nat)
  /\ (forall e, ~ In e (map fst (top_emotions et)) ->
        forall x, In x (top_emotions et) -> (emotion_count e logs <= x.2)%nat)
  /\ recent_trend et
     = _detect_emotion_trend
         (count_from [] (List.filter (is_recent (now - timedelta_days 7)) logs))
         (count_from []
            (List.filter (fun log => negb (is_recent (now - timedelta_days 7) log))
                         logs)).
Proof.
  intros et. subst et. rewrite aggregate_emotions_unfold.
  cbn [total_entries top_emotions recent_trend].
  destruct (count_from_spec logs [] (NoDup_nil_2)) as (Hnd & Hget & Htot).
  set (c := count_from [] logs) in *.
  assert (Hsplit : sort_desc c = (take 5 (sort_desc c) ++ drop 5 (sort_desc c))%list)
    by (symmetry; apply take_drop).
  assert (Hfall : falling (take 5 (sort_desc c) ++ drop 5 (sort_desc c))%list)
    by (rewrite <- Hsplit; apply sort_desc_falling).
  apply falling_app in Hfall as [Hf1 Hf2].
  assert (Hkeys : NoDup (map fst (sort_desc c)))
    by (now rewrite (sort_desc_perm c)).
  assert (Hin : forall x, In x (take 5 (sort_desc c)) -> In x c).
  { intros x Hx. apply (Permutation_in _ (sort_desc_perm c)).
    rewrite Hsplit. apply in_or_app. now left. }
  unfold most_common.
  split; [rewrite Htot; cbn; lia|].
  split; [rewrite length_take; lia|].
  split.
  { rewrite Hsplit, map_app in Hkeys. now apply NoDup_app in Hkeys as [? _]. }
  split; [exact Hf1|].
  split.
  { intros e n Hx. pose proof (Hin _ Hx) as Hc. split.
    - rewrite <- (Nat.add_0_l (emotion_count e logs)).
      change 0%nat with (counter_get e []) at 1. rewrite <- Hget.
      unfold counter_get.
      now rewrite (elem_dict_get e n c Hnd (proj2 (list_elem_of_In _ _) Hc)).
    - apply (count_from_positive logs [] (fun x (H : In x []) => match H with end)
               (e, n) Hc). }
  split; [|reflexivity].
  intros e Hout x Hx.
  assert (Hc : counter_get e c = emotion_count e logs)
    by (rewrite Hget; reflexivity).
  rewrite <- Hc. unfold counter_get.
  destruct (dict_get e c) as [v|] eqn:E; cbn [default from_option id]; [|lia].
  apply dict_get_elem, list_elem_of_In in E.
  apply (Permutation_in _ (Permutation_sym (sort_desc_perm c))) in E.
  rewrite Hsplit in E. apply in_app_or in E as [E|E].
  - exfalso. apply Hout. now apply (in_map fst _ (e, v)).
  - exact (Hf2 x (e, v) Hx E).
Qed.

Lemma count_from_no_emotions (logs : list RawLog) (c : Counter string) :
  (forall log, In log logs -> default [] (emotions log) = []) ->
  count_from c logs = c.
Proof.
  revert c. induction logs as [|log logs IH]; intros c H;
    cbn [count_from fold_left]; [reflexivity|].
  rewrite (H log (or_introl eq_refl)). cbn [fold_left].
  apply IH. intros l Hl. apply H. now right.
Qed.

(** Entries that record no emotion give an empty top list, a total of 0
    and the trend [stable], however many and however old they are. *)
Theorem no_emotions_is_stable (now : datetime) (logs : list RawLog) :
  (forall log, In log logs -> default [] (emotions log) = []) ->
  _aggregate_emotions now logs
  = {| top_emotions := []; total_entries := 0; recent_trend := "stable" |}.
Proof.
  intros H. rewrite aggregate_emotions_unfold.
  rewrite !count_from_no_emotions; [reflexivity| | |].
  - intros log Hl. apply H. apply filter_In in Hl. tauto.
  - intros log Hl. apply H. apply filter_In in Hl. tauto.
  - exact H.
Qed.

Lemma no_emotions_is_stable_witness :
  _aggregate_emotions 0%Z
    [ {| user_id := 7%N; content := Some "メモ"; created_at := 0%Z;
         emotions := None; topics := Some ["work"]; intent := None;
         is_analyzed := true |} ]
  = {| top_emotions := []; total_entries := 0; recent_trend := "stable" |}.
Proof.
  apply no_emotions_is_stable.
  intros log [<-|[]]. reflexivity.
Defined.

End EmotionFacts.

(* ===================================================================== *)
(** * The user profiler: posting pattern and signals                      *)
(* ===================================================================== *)

Section PostingFacts.
Import UserProfiler Spec Fixtures.

Lemma forallb_pairs {A} (P : A -> A -> bool) (l : list A) :
  forallb (fun a => forallb (P a) l) l = true ->
  forall a b, In a l -> In b l -> P a b = true.
Proof.
  intros H a b Ha Hb. rewrite forallb_forall in H. specialize (H a Ha).
  rewrite forallb_forall in H. exact (H b Hb).
Qed.

Lemma frequency_table :
  forallb (fun r => forallb (frequency_cell r) frequency_rows) frequency_rows
  = true.
Proof. vm_compute. reflexivity. Qed.

Lemma frequency_row_In (n : nat) :
  (n <= 200)%nat -> In (frequency_row n) frequency_rows.
Proof.
  intros H. unfold frequency_rows. apply in_map, in_seq. lia.
Qed.

(** Up to 200 entries the float comparison of the averages decides as the
    counts do, off the line where the recent count is exactly one and a
    half times the older one. *)
Lemma frequency_label_exact (r o : nat) :
  (r <= 200)%nat -> (o <= 200)%nat ->
  if (2 * Z.of_nat r =? 3 * Z.of_nat o)%Z
  then frequency_label r o <> "decreasing"
  else frequency_label r o = frequency_by_count (Z.of_nat r) (Z.of_nat o).
Proof.
  intros Hr Ho.
  pose proof (forallb_pairs frequency_cell frequency_rows frequency_table
                (frequency_row r) (frequency_row o)
                (frequency_row_In r Hr) (frequency_row_In o Ho)) as T.
  unfold frequency_cell, frequency_row in T. cbn [fst snd] in T.
  cbv zeta in T. fold (frequency_label r o) in T.
  destruct (2 * Z.of_nat r =? 3 * Z.of_nat o)%Z.
  - apply negb_true_iff, String.eqb_neq in T. exact T.
  - apply String.eqb_eq in T. exact T.
Qed.

Lemma frequency_label_decreasing (r o : nat) :
  (r <= 200)%nat -> (o <= 200)%nat ->
  frequency_label r o = "decreasing" <-> (2 * r < o)%nat.
Proof.
  intros Hr Ho. pose proof (frequency_label_exact r o Hr Ho) as H.
  destruct (2 * Z.of_nat r =? 3 * Z.of_nat o)%Z eqn:E.
  - apply Z.eqb_eq in E. split; [intros D; now destruct H|lia].
  - rewrite H. unfold frequency_by_count.
    destruct (2 * Z.of_nat r <? Z.of_nat o)%Z eqn:D.
    + apply Z.ltb_lt in D. split; [lia|reflexivity].
    + apply Z.ltb_ge in D.
      destruct ((0 <? Z.of_nat o)%Z && (3 * Z.of_nat o <? 2 * Z.of_nat r)%Z);
        split; try discriminate; lia.
Qed.

Lemma recent_count_filter (now : datetime) (logs : list RawLog) :
  length (filter (fun log => (now - timedelta_days _TREND_DAYS <= created_at log)%Z)
                 logs)
  = recent_count now logs.
Proof.
  unfold recent_count, is_recent.
  change (timedelta_days _TREND_DAYS) with (timedelta_days 7).
  induction logs as [|log logs IH]; [reflexivity|].
  rewrite filter_cons. cbn [List.filter].
  destruct (decide _) as [H|H].
  - apply Z.leb_le in H. rewrite H. cbn [length]. now rewrite IH.
  - apply Z.leb_nle in H. now rewrite H.
Qed.

Lemma posting_pattern_label (now : datetime) (logs : list RawLog) :
  logs <> [] ->
  exists pp,
    _aggregate_posting_pattern now logs = Some pp
    /\ total_logs pp = length logs
    /\ frequency_change pp
       = frequency_label (recent_count now logs) (older_count now logs).
Proof.
  intros Hne. destruct logs as [|log logs']; [congruence|].
  unfold _aggregate_posting_pattern. cbv zeta.
  eexists. split; [reflexivity|]. cbn [total_logs frequency_change].
  split; [reflexivity|].
  rewrite (recent_count_filter now (log :: logs')).
  reflexivity.
Qed.

Lemma counts_bound (now : datetime) (logs : list RawLog) :
  (recent_count now logs <= length logs)%nat
  /\ (older_count now logs <= length logs)%nat
  /\ (recent_count now logs + older_count now logs = length logs)%nat.
Proof.
  unfold older_count, recent_count.
  pose proof (List.filter_length_le
                (is_recent (now - timedelta_days 7)) logs). lia.
Qed.

(** Up to 200 entries the posting frequency is read off the two counts:
    [decreasing] exactly when the older entries are more than twice the
    recent ones; [increasing] when there are older entries and the recent
    ones are more than one and a half times as many; [stable] when the
    recent ones are fewer than that and at least half the older ones, and
    always when there is no older entry. *)
Theorem posting_frequency_by_counts (now : datetime) (logs : list RawLog) :
  logs <> [] -> (length logs <= 200)%nat ->
  exists pp,
    _aggregate_posting_pattern now logs = Some pp
    /\ total_logs pp = length logs
    /\ (frequency_change pp = "decreasing"
        <-> (2 * recent_count now logs < older_count now logs)%nat)
    /\ ((3 * older_count now logs < 2 * recent_count now logs)%nat ->
        (0 < older_count now logs)%nat ->
        frequency_change pp = "increasing")
    /\ ((2 * recent_count now logs < 3 * older_count now logs)%nat ->
        (older_count now logs <= 2 * recent_count now logs)%nat ->
        frequency_change pp = "stable")
    /\ (older_count now logs = 0%nat -> frequency_change pp = "stable").
Proof.
  intros Hne Hlen.
  destruct (posting_pattern_label now logs Hne) as (pp & Hpp & Htot & Hlab).
  destruct (counts_bound now logs) as (Hr & Ho & _).
  exists pp. split; [exact Hpp|]. split; [exact Htot|]. rewrite Hlab.
  set (r := recent_count now logs) in *. set (o := older_count now logs) in *.
  assert (Hr' : (r <= 200)%nat) by lia. assert (Ho' : (o <= 200)%nat) by lia.
  split; [apply (frequency_label_decreasing r o Hr' Ho')|].
  pose proof (frequency_label_exact r o Hr' Ho') as H.
  split; [|split].
  - intros H1 H2.
    destruct (2 * Z.of_nat r =? 3 * Z.of_nat o)%Z eqn:E;
      [apply Z.eqb_eq in E; lia|].
    rewrite H. unfold frequency_by_count.
    replace (2 * Z.of_nat r <? Z.of_nat o)%Z with false
      by (symmetry; apply Z.ltb_ge; lia).
    replace (0 <? Z.of_nat o)%Z with true by (symmetry; apply Z.ltb_lt; lia).
    replace (3 * Z.of_nat o <? 2 * Z.of_nat r)%Z with true
      by (symmetry; apply Z.ltb_lt; lia).
    reflexivity.
  - intros H1 H2.
    destruct (2 * Z.of_nat r =? 3 * Z.of_nat o)%Z eqn:E;
      [apply Z.eqb_eq in E; lia|].
    rewrite H. unfold frequency_by_count.
    replace (2 * Z.of_nat r <? Z.of_nat o)%Z with false
      by (symmetry; apply Z.ltb_ge; lia).
    replace (3 * Z.of_nat o <? 2 * Z.of_nat r)%Z with false
      by (symmetry; apply Z.ltb_ge; lia).
    now rewrite andb_false_r.
  - intros H0. rewrite H0. unfold frequency_label.
    change (int_truediv (Z.of_nat 0) 7) with (S754_zero false).
    reflexivity.
Qed.

Lemma posting_frequency_by_counts_witness :
  exists pp,
    _aggregate_posting_pattern (timedelta_days 30) tired_logs = Some pp
    /\ frequency_change pp = "decreasing".
Proof.
  destruct (posting_frequency_by_counts (timedelta_days 30) tired_logs)
    as (pp & Hpp & _ & [_ Hdec] & _).
  - discriminate.
  - vm_compute. lia.
  - exists pp. split; [exact Hpp|]. apply Hdec.
    apply Nat.ltb_lt. vm_compute. reflexivity.
Defined.

End PostingFacts.
(* ===================================================================== *)
(** * The signals: when each one is raised                                *)
(* ===================================================================== *)

Section SignalFacts.
Import UserProfiler Spec Fixtures.

(** The types [_detect_signals] lists, one test each *)
Lemma detect_signals_types (logs : list RawLog)
    (et : option EmotionTrends) (pp : option PostingPattern) (t : string) :
  In t (map type (_detect_signals logs et pp)) <->
  (t = "fatigue_repetition" /\ (5 <=? sum_ones mentions_fatigue logs)%nat = true)
  \/ (t = "stress_increasing"
      /\ recent_trend <$> et = Some "fatigue_increasing")
  \/ (t = "negativity_increasing"
      /\ recent_trend <$> et = Some "more_negative")
  \/ (t = "posting_decrease" /\ frequency_change <$> pp = Some "decreasing")
  \/ (t = "state_dominant"
      /\ (10 <=? sum_ones is_state (take 20 logs))%nat = true).
Proof.
  cbv beta zeta delta [_detect_signals].
  destruct (5 <=? sum_ones mentions_fatigue logs)%nat eqn:T0;
  destruct (decide (recent_trend <$> et = Some "fatigue_increasing")) as [T1|T1];
  destruct (decide (recent_trend <$> et = Some "more_negative")) as [T2|T2];
  destruct (decide (frequency_change <$> pp = Some "decreasing")) as [T3|T3];
  destruct (10 <=? sum_ones is_state (take 20 logs))%nat eqn:T4;
  cbn [app map type In];
  (split;
   [ intros H;
     repeat (destruct H as [H|H];
             [ subst t;
               first [ left; split; [reflexivity|assumption || reflexivity]
                     | right; left; split; [reflexivity|assumption]
                     | right; right; left; split; [reflexivity|assumption]
                     | right; right; right; left; split; [reflexivity|assumption]
                     | right; right; right; right; split; reflexivity ] |]);
     destruct H
   | intros [[-> H]|[[-> H]|[[-> H]|[[-> H]|[-> H]]]]];
     first [ discriminate H | contradiction
           | left; reflexivity | right; left; reflexivity
           | right; right; left; reflexivity
           | right; right; right; left; reflexivity
           | congruence ] ]).
Qed.

(** Apart from the fatigue count, [_detect_signals] raises
    [stress_increasing] exactly for the trend [fatigue_increasing],
    [negativity_increasing] exactly for the trend [more_negative],
    [posting_decrease] exactly for a [decreasing] posting frequency, and
    [state_dominant] exactly when ten or more of the first twenty entries
    are self-reports. *)
Theorem signals_raised_iff (logs : list RawLog)
    (et : option EmotionTrends) (pp : option PostingPattern) :
  let types := map type (_detect_signals logs et pp) in
  (In "stress_increasing" types
   <-> recent_trend <$> et = Some "fatigue_increasing")
  /\ (In "negativity_increasing" types
      <-> recent_trend <$> et = Some "more_negative")
  /\ (In "posting_decrease" types
      <-> frequency_change <$> pp = Some "decreasing")
  /\ (In "state_dominant" types <-> (10 <= state_count logs)%nat).
Proof.
  intros types. unfold types, state_count.
  rewrite <- (sum_ones_filter is_state (take 20 logs)).
  rewrite !detect_signals_types.
  repeat split.
  - intros [[H _]|[[_ H]|[[H _]|[[H _]|[H _]]]]];
      first [discriminate H | exact H].
  - intros H. right; left. split; [reflexivity|exact H].
  - intros [[H _]|[[H _]|[[_ H]|[[H _]|[H _]]]]];
      first [discriminate H | exact H].
  - intros H. right; right; left. split; [reflexivity|exact H].
  - intros [[H _]|[[H _]|[[H _]|[[_ H]|[H _]]]]];
      first [discriminate H | exact H].
  - intros H. right; right; right; left. split; [reflexivity|exact H].
  - intros [[H _]|[[H _]|[[H _]|[[H _]|[_ H]]]]];
      first [discriminate H | now apply Nat.leb_le].
  - intros H. right; right; right; right.
    split; [reflexivity|now apply Nat.leb_le].
Qed.

(** What [build_profile] hands to [_detect_signals] *)
Lemma build_profile_signals (session : Session) (clock : nat -> datetime)
    (uid : N) :
  let logs := select_recent_logs session uid
                (clock 0%nat - timedelta_days 14)%Z in
  exists profile,
    build_profile session clock uid = Ok profile
    /\ posting_pattern profile = _aggregate_posting_pattern (clock 2%nat) logs
    /\ signals profile
       = _detect_signals logs (emotion_trends profile) (posting_pattern profile).
Proof.
  intros logs. unfold build_profile.
  change (select_recent_logs session uid
            (clock 0%nat - timedelta_days _RECENT_DAYS)%Z) with logs.
  clearbody logs. destruct logs as [|log logs'].
  - eexists. split; [reflexivity|]. split; reflexivity.
  - destruct (aggregate_topic_emotions_returns (log :: logs')) as [tm Htm].
    rewrite Htm, bind_Ok. eexists. split; [reflexivity|]. split; reflexivity.
Qed.

Lemma decreasing_by_counts (now : datetime) (logs : list RawLog) :
  (length logs <= 200)%nat ->
  frequency_change <$> _aggregate_posting_pattern now logs = Some "decreasing"
  <-> (2 * recent_count now logs < older_count now logs)%nat.
Proof.
  intros Hlen. destruct logs as [|log logs'].
  - cbn. split; [discriminate | lia].
  - destruct (posting_pattern_label now (log :: logs'))
      as (pp & Hpp & _ & Hlab); [discriminate|].
    destruct (counts_bound now (log :: logs')) as (Hr & Ho & _).
    rewrite Hpp. cbn [fmap option_fmap option_map]. rewrite Hlab.
    rewrite <- frequency_label_decreasing by lia.
    split; [now intros [= ->] | now intros ->].
Qed.

(** From the stored entries to the signals of the profile: [build_profile]
    raises [fatigue_repetition] exactly when five or more of the selected
    entries mention fatigue, [posting_decrease] exactly when the selected
    entries older than seven days are more than twice those of the last
    seven days, and [state_dominant] exactly when ten or more of the twenty
    newest selected entries are self-reports. *)
Theorem profile_signals_from_entries (session : Session)
    (clock : nat -> datetime) (uid : N) :
  let logs := select_recent_logs session uid
                (clock 0%nat - timedelta_days 14)%Z in
  exists profile,
    build_profile session clock uid = Ok profile
    /\ (In "fatigue_repetition" (map type (signals profile))
        <-> (5 <= fatigue_count logs)%nat)
    /\ (In "posting_decrease" (map type (signals profile))
        <-> (2 * recent_count (clock 2%nat) logs
             < older_count (clock 2%nat) logs)%nat)
    /\ (In "state_dominant" (map type (signals profile))
        <-> (10 <= state_count logs)%nat).
Proof.
  intros logs.
  destruct (build_profile_signals session clock uid)
    as (profile & Hb & Hpp & Hs).
  fold logs in Hpp, Hs.
  assert (Hlen : (length logs <= 200)%nat).
  { unfold logs. rewrite select_length. lia. }
  exists profile. split; [exact Hb|]. rewrite Hs, Hpp.
  rewrite !detect_signals_types.
  rewrite (decreasing_by_counts (clock 2%nat) logs Hlen).
  unfold fatigue_count, state_count. rewrite <- !sum_ones_filter.
  repeat split.
  - intros [[_ H]|[[H _]|[[H _]|[[H _]|[H _]]]]];
      first [discriminate H | now apply Nat.leb_le].
  - intros H. left. split; [reflexivity|now apply Nat.leb_le].
  - intros [[H _]|[[H _]|[[H _]|[[_ H]|[H _]]]]];
      first [discriminate H | exact H].
  - intros H. right; right; right; left. split; [reflexivity|exact H].
  - intros [[H _]|[[H _]|[[H _]|[[H _]|[_ H]]]]];
      first [discriminate H | now apply Nat.leb_le].
  - intros H. right; right; right; right.
    split; [reflexivity|now apply Nat.leb_le].
Qed.

End SignalFacts.
(* ===================================================================== *)
(** * The posting pattern: the peak hours                                 *)
(* ===================================================================== *)

Section PeakHourFacts.
Import UserProfiler Spec Fixtures.

(** Counting the entries by a key: what [c[f(x)] += 1] over a list
    leaves in the counter. *)
Lemma tally_by_spec {A} (f : A -> Z) (xs : list A) (c : Counter Z) :
  NoDup (map fst c) ->
  NoDup (map fst (fold_left (fun c x => counter_incr (f x) c) xs c))
  /\ forall k,
       counter_get k (fold_left (fun c x => counter_incr (f x) c) xs c)
       = (counter_get k c + length (List.filter (fun x => (f x =? k)%Z) xs))%nat.
Proof.
  revert c. induction xs as [|x xs IH]; intros c Hc;
    cbn [fold_left List.filter].
  - split; [exact Hc|]. intros k. cbn [length]. lia.
  - destruct (IH (counter_incr (f x) c) (counter_incr_NoDup _ _ Hc))
      as [H1 H2].
    split; [exact H1|]. intros k. rewrite H2, counter_get_incr.
    destruct (f x =? k)%Z eqn:E.
    + apply Z.eqb_eq in E. rewrite decide_True by congruence.
      subst k. cbn [length]. lia.
    + apply Z.eqb_neq in E. rewrite decide_False by congruence. lia.
Qed.

Lemma tally_by_positive {A} (f : A -> Z) (xs : list A) (c : Counter Z) :
  (forall x, In x c -> (1 <= x.2)%nat) ->
  forall x, In x (fold_left (fun c x => counter_incr (f x) c) xs c) ->
            (1 <= x.2)%nat.
Proof.
  revert c. induction xs as [|a xs IH]; intros c Hc; cbn [fold_left];
    [exact Hc|].
  apply IH. intros [k v] Hx. unfold counter_incr in Hx.
  apply list_elem_of_In, elem_dict_set in Hx as [[-> ->]|Hx].
  - cbn. lia.
  - apply Hc. now apply list_elem_of_In.
Qed.

Lemma hour_of_range (t : datetime) : (0 <= hour_of t < 24)%Z.
Proof. unfold hour_of. apply Z.mod_pos_bound. lia. Qed.

Lemma posting_pattern_peak_hours (now : datetime) (logs : list RawLog)
    (pp : PostingPattern) :
  _aggregate_posting_pattern now logs = Some pp ->
  logs <> []
  /\ peak_hours pp
     = map fst (most_common 3
                  (fold_left (fun c log => counter_incr (hour_of (created_at log)) c)
                             logs [])).
Proof.
  destruct logs as [|log logs']; [discriminate|].
  unfold _aggregate_posting_pattern. cbv zeta. intros [= <-].
  split; [discriminate|reflexivity].
Qed.

(** The peak hours of a posting pattern are up to three distinct hours of
    the day, at least one, each the hour of some entry, listed from the
    busiest on; no hour left out has more entries than a listed one. *)
Theorem peak_hours_are_busiest (now : datetime) (logs : list RawLog)
    (pp : PostingPattern) :
  _aggregate_posting_pattern now logs = Some pp ->
  (1 <= length (peak_hours pp) <= 3)%nat
  /\ NoDup (peak_hours pp)
  /\ (forall h, In h (peak_hours pp) ->
        (0 <= h < 24)%Z /\ (1 <= hour_count h logs)%nat)
  /\ (forall i j h h', (i <= j)%nat ->
        peak_hours pp !! i = Some h -> peak_hours pp !! j = Some h' ->
        (hour_count h' logs <= hour_count h logs)%nat)
  /\ (forall h h', In h (peak_hours pp) -> ~ In h' (peak_hours pp) ->
        (hour_count h' logs <= hour_count h logs)%nat).
Proof.
  intros Hpp. apply posting_pattern_peak_hours in Hpp as [Hne ->].
  destruct (tally_by_spec (fun log => hour_of (created_at log)) logs []
              (NoDup_nil_2)) as [Hnd Hget].
  pose proof (tally_by_positive (fun log => hour_of (created_at log)) logs []
                (fun x (H : In x []) => match H with end)) as Hpos.
  set (c := fold_left (fun c log => counter_incr (hour_of (created_at log)) c)
                      logs []) in *.
  assert (Hcount : forall h, counter_get h c = hour_count h logs)
    by (intros h; rewrite Hget; reflexivity).
  assert (Hsplit : sort_desc c = (take 3 (sort_desc c) ++ drop 3 (sort_desc c))%list)
    by (symmetry; apply take_drop).
  assert (Hfall : falling (take 3 (sort_desc c) ++ drop 3 (sort_desc c))%list)
    by (rewrite <- Hsplit; apply sort_desc_falling).
  apply falling_app in Hfall as [Hf1 Hf2].
  assert (Hkeys : NoDup (map fst (sort_desc c)))
    by (now rewrite (sort_desc_perm c)).
  assert (Hin : forall x, In x (take 3 (sort_desc c)) -> In x c).
  { intros x Hx. apply (Permutation_in _ (sort_desc_perm c)).
    rewrite Hsplit. apply in_or_app. now left. }
  assert (Hval : forall h n, In (h, n) c -> n = hour_count h logs).
  { intros h n Hc. rewrite <- Hcount. unfold counter_get.
    now rewrite (elem_dict_get h n c Hnd (proj2 (list_elem_of_In _ _) Hc)). }
  assert (Hlen : (1 <= length c)%nat).
  { destruct logs as [|log logs']; [congruence|].
    pose proof (Hcount (hour_of (created_at log))) as H.
    unfold hour_count in H. cbn [List.filter] in H.
    rewrite Z.eqb_refl in H. cbn [length] in H.
    destruct c; [discriminate H|cbn [length]; lia]. }
  unfold most_common.
  split.
  { rewrite length_map, length_take,
      (Permutation_length (sort_desc_perm c)). lia. }
  split.
  { rewrite Hsplit, map_app in Hkeys. now apply NoDup_app in Hkeys as [? _]. }
  split.
  { intros h Hh. apply in_map_iff in Hh as ([h0 n] & <- & Hx). cbn [fst].
    pose proof (Hin _ Hx) as Hc. split.
    - assert (Hp : (1 <= hour_count h0 logs)%nat).
      { rewrite <- (Hval h0 n Hc). exact (Hpos (h0, n) Hc). }
      unfold hour_count in Hp.
      destruct (List.filter _ logs) as [|log rest] eqn:E;
        [cbn [length] in Hp; lia|].
      assert (Hl : In log (List.filter
                             (fun log => (hour_of (created_at log) =? h0)%Z) logs))
        by (rewrite E; now left).
      apply filter_In in Hl as [_ Hl]. apply Z.eqb_eq in Hl. subst h0.
      apply hour_of_range.
    - rewrite <- (Hval h0 n Hc). exact (Hpos (h0, n) Hc). }
  split.
  { intros i j h h' Hij Hi Hj.
    rewrite list_lookup_fmap in Hi, Hj.
    destruct (take 3 (sort_desc c) !! i) as [[h0 n]|] eqn:Ei; [|discriminate].
    destruct (take 3 (sort_desc c) !! j) as [[h1 n']|] eqn:Ej; [|discriminate].
    cbn in Hi, Hj. injection Hi as ->. injection Hj as ->.
    assert (Hn : n = hour_count h logs).
    { apply Hval, Hin, list_elem_of_In. eapply list_elem_of_lookup_2, Ei. }
    assert (Hn' : n' = hour_count h' logs).
    { apply Hval, Hin, list_elem_of_In. eapply list_elem_of_lookup_2, Ej. }
    subst n n'.
    destruct (decide (i = j)) as [->|Hne'].
    - rewrite Ei in Ej. injection Ej as -> E. lia.
    - clear Hin Hf2 Hsplit Hkeys.
      revert i j Hij Hne' Ei Ej Hf1.
      generalize (take 3 (sort_desc c)) as l.
      induction l as [|x l IH]; intros i j Hij Hne' Ei Ej Hf;
        [discriminate Ei|].
      cbn [falling] in Hf. destruct Hf as [Hx Hf].
      destruct i as [|i]; destruct j as [|j]; try lia.
      + cbn in Ei, Ej. injection Ei as ->.
        assert (Hy : In (h', hour_count h' logs) l)
          by (apply list_elem_of_In; eapply list_elem_of_lookup_2, Ej).
        exact (Hx _ Hy).
      + cbn in Ei, Ej. apply (IH i j); [lia|lia|exact Ei|exact Ej|exact Hf]. }
  intros h h' Hh Hout.
  apply in_map_iff in Hh as ([h0 n] & <- & Hx). cbn [fst].
  rewrite <- (Hval h0 n (Hin _ Hx)).
  rewrite <- (Hcount h'). unfold counter_get.
  destruct (dict_get h' c) as [v|] eqn:E; cbn [default from_option id]; [|lia].
  apply dict_get_elem, list_elem_of_In in E.
  apply (Permutation_in _ (Permutation_sym (sort_desc_perm c))) in E.
  rewrite Hsplit in E. apply in_app_or in E as [E|E].
  - exfalso. apply Hout. now apply (in_map fst _ (h', v)).
  - exact (Hf2 (h0, n) (h', v) Hx E).
Qed.

Lemma peak_hours_are_busiest_witness :
  exists pp,
    _aggregate_posting_pattern (timedelta_days 30) tired_logs = Some pp
    /\ NoDup (peak_hours pp).
Proof.
  eexists. split; [reflexivity|].
  refine (proj1 (proj2 (peak_hours_are_busiest (timedelta_days 30) tired_logs
                          _ eq_refl))).
Defined.

End PeakHourFacts.
(* ===================================================================== *)
(** * The topic-emotion map: which topics are kept                        *)
(* ===================================================================== *)

Section TopicFacts.
Import UserProfiler Spec Fixtures.

Lemma dict_set_keeps_keys {K V} `{EqDecision K} (k x : K) (v : V)
    (d : list (K * V)) :
  x = k \/ x ∈ map fst d -> x ∈ map fst (dict_set k v d).
Proof.
  induction d as [|[k0 v0] d IH]; cbn [dict_set map fst].
  - intros [->|H]; [apply list_elem_of_here|now apply elem_of_nil in H].
  - case_decide as E; cbn [map fst].
    + subst k0. intros [->|H]; [apply list_elem_of_here|exact H].
    + intros [->|H].
      * apply list_elem_of_further, IH. now left.
      * apply elem_of_cons in H as [->|H]; [apply list_elem_of_here|].
        apply list_elem_of_further, IH. now right.
Qed.

(** The second loop keeps what it has and adds every topic with two or
    more emotion occurrences. *)
Lemma summarise_topics_complete (l : list (string * Counter string))
    (res res' : list (string * TopicInfo)) :
  summarise_topics l res = Ok res' ->
  forall t,
    (t ∈ map fst res
     \/ exists c, (t, c) ∈ l /\ (2 <= counter_total c)%nat) ->
    t ∈ map fst res'.
Proof.
  revert res. induction l as [|[t0 c0] l IH]; intros res;
    cbn [summarise_topics].
  - intros [= <-] t [H|(c & H & _)]; [exact H|now apply elem_of_nil in H].
  - destruct (counter_total c0 <? 2)%nat eqn:E.
    + intros Hr t [H|(c & H & Hc)]; apply (IH res Hr).
      * now left.
      * apply elem_of_cons in H as [[= -> ->]|H].
        -- apply Nat.ltb_lt in E. lia.
        -- right. now exists c.
    + destruct (most_common 1 c0) as [|dom rest]; [discriminate|].
      intros Hr t [H|(c & H & Hc)]; apply (IH _ Hr).
      * left. apply dict_set_keeps_keys. now right.
      * apply elem_of_cons in H as [[= -> ->]|H].
        -- left. apply dict_set_keeps_keys. now left.
        -- right. now exists c.
Qed.

(** The topic-emotion map holds exactly the topics with two or more
    emotion occurrences over the entries: an entry adds, for each time it
    names the topic, the number of its emotions. *)
Theorem topic_kept_iff (logs : list RawLog) :
  exists result,
    _aggregate_topic_emotions logs = Ok result
    /\ forall topic,
         In topic (map fst result) <-> (2 <= topic_total topic logs)%nat.
Proof.
  destruct (collect_topic_emotions_spec logs) as (Hwf & _ & Hn).
  destruct (summarise_topics_spec (collect_topic_emotions logs) [])
    as (result & Hr & _ & Hin).
  exists result. split; [exact Hr|]. intros topic. split.
  - intros Ht. apply in_map_iff in Ht as ([t info] & <- & Hi). cbn [fst].
    apply list_elem_of_In in Hi.
    destruct (Hin _ _ Hi) as [Hnil|(c & dom & rest & Hc & Htot & _)];
      [now apply elem_of_nil in Hnil|].
    rewrite <- Hn. unfold te_get. destruct Hwf as [Hk _].
    now rewrite (elem_dict_get _ _ _ Hk Hc).
  - intros Ht. apply list_elem_of_In.
    apply (summarise_topics_complete _ _ _ Hr). right.
    rewrite <- Hn in Ht. unfold te_get in Ht.
    destruct (dict_get topic (collect_topic_emotions logs)) as [c|] eqn:E.
    + exists c. split; [now apply dict_get_elem|exact Ht].
    + cbn in Ht. lia.
Qed.

End TopicFacts.
(* ===================================================================== *)
(** * The summary for the conversation prompt                             *)
(* ===================================================================== *)

Section SummaryFacts.
Import UserProfiler Spec Fixtures.

Lemma append_lines {A} (f : A -> string) (xs : list A) (parts : list string) :
  fold_left (fun parts x => app parts [f x]) xs parts
  = (parts ++ map f xs)%list.
Proof.
  revert parts. induction xs as [|x xs IH]; intros parts; cbn [fold_left map].
  - now rewrite app_nil_r.
  - rewrite IH, <- app_assoc. reflexivity.
Qed.

(** The lines of the summary: up to four about emotions, trend and
    topics, then one per signal. *)
Lemma summary_parts (profile : Profile) :
  (log_count profile <? 3)%nat = false ->
  exists head,
    (length head <= 4)%nat
    /\ (head = [] <-> quiet profile)
    /\ generate_context_summary (Some profile)
       = let parts := (head ++ map warning_line (signals profile))%list in
         match parts with
         | [] => None
         | _ => Some (join nl parts)
         end.
Proof.
  intros Hcount. unfold generate_context_summary, quiet. rewrite Hcount.
  cbv zeta. rewrite (append_lines warning_line).
  destruct (default [] (top_emotions <$> emotion_trends profile))
    as [|top tops];
  (destruct (recent_trend <$> emotion_trends profile) as [trend|];
   [ cbn [quiet_trend];
     destruct (String.eqb trend "") eqn:E1;
     destruct (String.eqb trend "stable") eqn:E2;
     cbn [negb andb orb] |
     cbn [quiet_trend] ]);
  destruct (topics_with ["frustrated"; "anxious"; "angry"]
              (topic_emotion_map profile)) as [|s1 ss];
  destruct (topics_with ["achieved"; "excited"; "relieved"]
              (topic_emotion_map profile)) as [|c1 cs];
  cbv beta iota;
  (eexists; split; [|split; [|reflexivity]];
   [ cbn [app length]; lia
   | cbn [app]; split; [ first [ discriminate | intros _; repeat split; reflexivity ]
            | first [ intros _; reflexivity
                    | intros (H1 & H2 & H3 & H4); discriminate ] ] ]).
Qed.

(** A profile of three or more entries has no summary exactly when it is
    quiet and carries no signal.  Otherwise the summary is its lines
    joined by line feeds: up to four lines about emotions, trend and
    topics, followed by one warning line per signal, in the order of the
    signals. *)
Theorem summary_lines (profile : Profile) :
  (3 <= log_count profile)%nat ->
  (generate_context_summary (Some profile) = None
   <-> quiet profile /\ signals profile = [])
  /\ exists head,
       (length head <= 4)%nat
       /\ (signals profile <> [] \/ head <> [] ->
           generate_context_summary (Some profile)
           = Some (join nl (head ++ map warning_line (signals profile))%list)).
Proof.
  intros Hcount.
  destruct (summary_parts profile) as (head & Hlen & Hquiet & Hs);
    [apply Nat.ltb_ge; lia|].
  cbv zeta in Hs. split.
  - rewrite Hs, <- Hquiet.
    destruct head as [|h head']; cbn [app].
    + destruct (signals profile) as [|sig sigs]; cbn [map].
      * split; [now split|reflexivity].
      * split; [discriminate|intros [_ H]; discriminate H].
    + split; [discriminate|intros [H _]; discriminate H].
  - exists head. split; [exact Hlen|]. intros Hne. rewrite Hs.
    destruct head as [|h head']; cbn [app].
    + destruct (signals profile) as [|sig sigs]; cbn [map]; [|reflexivity].
      destruct Hne as [H|H]; congruence.
    + reflexivity.
Qed.

Lemma summary_lines_witness :
  exists head,
    (length head <= 4)%nat
    /\ (signals noted_profile <> [] \/ head <> [] ->
        generate_context_summary (Some noted_profile)
        = Some (join nl (head ++ map warning_line (signals noted_profile))%list)).
Proof.
  refine (proj2 (summary_lines noted_profile _)).
  apply Nat.leb_le. reflexivity.
Defined.

(** The number of entries [build_profile] reports *)
Lemma build_profile_log_count (session : Session) (clock : nat -> datetime)
    (uid : N) :
  let logs := select_recent_logs session uid
                (clock 0%nat - timedelta_days 14)%Z in
  exists profile,
    build_profile session clock uid = Ok profile
    /\ log_count profile = length logs
    /\ signals profile
       = _detect_signals logs (emotion_trends profile) (posting_pattern profile).
Proof.
  intros logs. unfold build_profile.
  change (select_recent_logs session uid
            (clock 0%nat - timedelta_days _RECENT_DAYS)%Z) with logs.
  clearbody logs. destruct logs as [|log logs'].
  - eexists. split; [reflexivity|]. split; reflexivity.
  - destruct (aggregate_topic_emotions_returns (log :: logs')) as [tm Htm].
    rewrite Htm, bind_Ok. eexists. split; [reflexivity|]. split; reflexivity.
Qed.

(** With fewer than three analyzed entries of the user in the 14-day
    window, the profile [build_profile] makes has no summary. *)
Theorem small_profile_has_no_summary (session : Session)
    (clock : nat -> datetime) (uid : N) :
  (length (window_entries session uid (clock 0%nat - timedelta_days 14)%Z) < 3)%nat ->
  exists profile,
    build_profile session clock uid = Ok profile
    /\ generate_context_summary (Some profile) = None.
Proof.
  intros Hfew.
  destruct (build_profile_log_count session clock uid)
    as (profile & Hb & Hcount & _).
  rewrite select_length in Hcount.
  exists profile. split; [exact Hb|].
  unfold generate_context_summary.
  replace (log_count profile <? 3)%nat with true; [reflexivity|].
  symmetry. apply Nat.ltb_lt. lia.
Qed.

Lemma small_profile_has_no_summary_witness :
  exists profile,
    build_profile lone_session (fun _ => 0%Z) 7 = Ok profile
    /\ generate_context_summary (Some profile) = None.
Proof.
  apply small_profile_has_no_summary.
  apply Nat.ltb_lt. reflexivity.
Defined.

Lemma fatigue_signal_first (logs : list RawLog)
    (et : option EmotionTrends) (pp : option PostingPattern) :
  (5 <= fatigue_count logs)%nat ->
  exists sig rest,
    _detect_signals logs et pp = sig :: rest
    /\ warning_line sig = fatigue_line (fatigue_count logs).
Proof.
  unfold fatigue_count. rewrite <- sum_ones_filter. intros H.
  apply Nat.leb_le in H.
  cbv beta zeta delta [_detect_signals]. rewrite H. cbn [app].
  destruct (decide (recent_trend <$> et = Some "fatigue_increasing"));
  destruct (decide (recent_trend <$> et = Some "more_negative"));
  destruct (decide (frequency_change <$> pp = Some "decreasing"));
  destruct (10 <=? sum_ones is_state (take 20 logs))%nat;
  cbn [app]; (eexists; eexists; split; [reflexivity|reflexivity]).
Qed.

Lemma fatigue_count_le (logs : list RawLog) :
  (fatigue_count logs <= length logs)%nat.
Proof. apply List.filter_length_le. Qed.

(** From the stored entries to the prompt: when five or more of the
    selected entries mention fatigue, the profile [build_profile] makes has
    a summary, and the first of its warning lines, after at most four
    other lines, is the fatigue warning with the number of those
    entries. *)
Theorem fatigue_warning_in_summary (session : Session)
    (clock : nat -> datetime) (uid : N) :
  let logs := select_recent_logs session uid
                (clock 0%nat - timedelta_days 14)%Z in
  (5 <= fatigue_count logs)%nat ->
  exists profile head tail,
    build_profile session clock uid = Ok profile
    /\ (length head <= 4)%nat
    /\ generate_context_summary (Some profile)
       = Some (join nl (head ++ fatigue_line (fatigue_count logs) :: tail)%list).
Proof.
  intros logs Hfatigue.
  destruct (build_profile_log_count session clock uid)
    as (profile & Hb & Hcount & Hsig).
  fold logs in Hcount, Hsig.
  destruct (fatigue_signal_first logs (emotion_trends profile)
              (posting_pattern profile) Hfatigue) as (sig & rest & Hd & Hline).
  pose proof (fatigue_count_le logs) as Hle.
  destruct (summary_parts profile) as (head & Hlen & _ & Hs);
    [apply Nat.ltb_ge; lia|].
  exists profile, head, (map warning_line rest).
  split; [exact Hb|]. split; [exact Hlen|].
  rewrite Hs, Hsig, Hd. cbv zeta. cbn [map]. rewrite Hline.
  destruct head; reflexivity.
Qed.

Lemma fatigue_warning_in_summary_witness :
  exists profile head tail,
    build_profile tired_session (fun _ => 0%Z) 7 = Ok profile
    /\ (length head <= 4)%nat
    /\ generate_context_summary (Some profile)
       = Some (join nl (head ++ fatigue_line 5 :: tail)%list).
Proof.
  refine (fatigue_warning_in_summary tired_session (fun _ => 0%Z) 7 _).
  apply Nat.leb_le. vm_compute. reflexivity.
Defined.

End SummaryFacts.
(* ===================================================================== *)
(** * The Vertex provider: the message conversion                         *)
(* ===================================================================== *)

Section VertexFacts.
Import Spec.

Lemma convert_messages_from (messages : list (list (string * string)))
    (system_instruction : option string) (contents : list Vertex.Content) :
  fold_left
    (fun '(system_instruction, contents) msg =>
       let role := default "user" (dict_get "role" msg) in
       let content := default "" (dict_get "content" msg) in
       if String.eqb role "system" then (Some content, contents)
       else if String.eqb role "assistant"
       then (system_instruction,
             app contents [ {| Vertex.role := "model";
                               Vertex.parts := [ {| Vertex.text := content |} ] |} ])
       else (system_instruction,
             app contents [ {| Vertex.role := "user";
                               Vertex.parts := [ {| Vertex.text := content |} ] |} ]))
    messages (system_instruction, contents)
  = (match last (List.filter is_system messages) with
     | Some msg => Some (message_content msg)
     | None => system_instruction
     end,
     (contents
      ++ map gemini_content
           (List.filter (fun msg => negb (is_system msg)) messages))%list).
Proof.
  revert system_instruction contents.
  induction messages as [|msg messages IH]; intros system_instruction contents;
    cbn [fold_left List.filter].
  - cbn [last map]. now rewrite app_nil_r.
  - cbv zeta.
    change (String.eqb (default "user" (dict_get "role" msg)) "system")
      with (is_system msg).
    destruct (is_system msg) eqn:E; cbn [negb].
    + rewrite IH, last_cons. f_equal.
      destruct (last (List.filter is_system messages)); reflexivity.
    + cbn [map]. unfold gemini_content at 1.
      change (default "user" (dict_get "role" msg)) with (message_role msg).
      change (default "" (dict_get "content" msg)) with (message_content msg).
      destruct (String.eqb (message_role msg) "assistant");
        rewrite IH, <- app_assoc; reflexivity.
Qed.

(** The conversion keeps the messages that are not system messages, in
    their order, one content with one text part each, an assistant message
    under the role [model] and any other under [user]; the system
    instruction is the content of the last system message, and there is
    none without a system message. *)
Theorem convert_messages_spec (messages : list (list (string * string))) :
  Vertex._convert_messages_to_gemini_format messages
  = (message_content <$> last (List.filter is_system messages),
     map gemini_content
       (List.filter (fun msg => negb (is_system msg)) messages)).
Proof.
  unfold Vertex._convert_messages_to_gemini_format.
  rewrite convert_messages_from. reflexivity.
Qed.

(** No converted content has the role [system] or [assistant]: the roles
    are [model] and [user] only, and every content has exactly one part. *)
Theorem converted_roles (messages : list (list (string * string)))
    (c : Vertex.Content) :
  In c (Vertex._convert_messages_to_gemini_format messages).2 ->
  (Vertex.role c = "model" \/ Vertex.role c = "user")
  /\ length (Vertex.parts c) = 1%nat.
Proof.
  unfold Vertex._convert_messages_to_gemini_format.
  rewrite convert_messages_from. cbn [app snd].
  intros H. apply in_map_iff in H as (msg & <- & _).
  unfold gemini_content. cbn [Vertex.role Vertex.parts length].
  split; [|reflexivity].
  destruct (String.eqb (message_role msg) "assistant"); [now left|now right].
Qed.

Lemma converted_roles_witness :
  (Vertex.role {| Vertex.role := "model";
                  Vertex.parts := [ {| Vertex.text := "はい" |} ] |} = "model"
   \/ Vertex.role {| Vertex.role := "model";
                     Vertex.parts := [ {| Vertex.text := "はい" |} ] |} = "user")
  /\ length (Vertex.parts {| Vertex.role := "model";
                             Vertex.parts := [ {| Vertex.text := "はい" |} ] |})
     = 1%nat.
Proof.
  apply (converted_roles
           [ [("role", "system"); ("content", "短く答える")];
             [("role", "assistant"); ("content", "はい")] ]).
  left. reflexivity.
Defined.

End VertexFacts.
